(** * Verification of the advertisement pipeline

    A shallow embedding of the orchestration and contract layer of the
    advertisement generator: the response parsers of the agents, the timing
    normalisation of the script analyzer, the scoring of the QA agent and the
    six-step workflow orchestrator.

    Conventions of the embedding:
    - a Python value that travels between the steps is a [json] value, a
      Python dict is an association list in insertion order;
    - a Python float is named by a rational number ([Q]): [JFloat q] is the
      binary64 number nearest to [q], an infinity when [q] lies beyond the
      largest one; not-a-number has no name.  The timing validation, the
      quality score and the scale factor of the editor compute in binary64
      (module [F64], over the specification of IEEE 754 in the Standard
      Library) and store the exact value of what they compute; the size and
      duration checks of the QA agent, its rubric average and the elapsed
      time of a run are computed on the rationals;
    - text is a [string] holding the UTF-8 encoding of the Python text: a
      character is one to four 8-bit characters of the [string];
    - a function that may raise returns an [outcome]; code that also logs,
      calls out or mutates threads a state through the monad [M]. *)

From Stdlib Require Import String Ascii List ZArith QArith Qround Qabs Bool Lia Lqa.
From Stdlib Require Import DecimalString SpecFloat.
Import ListNotations.

Set Warnings "-register-all".

Local Open Scope string_scope.
Local Open Scope Z_scope.

(** ** Exceptions and outcomes *)

Inductive exn_class : Type :=
| JSONDecodeError
| ValueError
| TypeError
| AttributeError
| OSError
| KeyError
| OverflowError
| ZeroDivisionError
| RecursionError
| OtherError.

Definition exn_class_eqb (a b : exn_class) : bool :=
  match a, b with
  | JSONDecodeError, JSONDecodeError
  | ValueError, ValueError
  | TypeError, TypeError
  | AttributeError, AttributeError
  | OSError, OSError
  | KeyError, KeyError
  | OverflowError, OverflowError
  | ZeroDivisionError, ZeroDivisionError
  | RecursionError, RecursionError
  | OtherError, OtherError => true
  | _, _ => false
  end.

(** An exception object: its class and the text of [str(e)]. *)
Record exn : Type := Exn { exn_kind : exn_class; exn_str : string }.

Inductive outcome (A : Type) : Type :=
| Returned (a : A)
| Raised (e : exn).

Arguments Returned {A} a.
Arguments Raised {A} e.

Definition returns {A} (o : outcome A) : Prop := exists a, o = Returned a.

(** ** The state-and-exception monad

    [M S A] is a computation over a mutable state [S] that returns an [A] or
    raises.  A raise keeps the state reached so far: Python does not roll back
    mutations when an exception propagates. *)

Definition M (S A : Type) : Type := S -> outcome A * S.

Definition ret {S A} (a : A) : M S A := fun s => (Returned a, s).

Definition raise {S A} (e : exn) : M S A := fun s => (Raised e, s).

Definition bind {S A B} (m : M S A) (k : A -> M S B) : M S B :=
  fun s =>
    match m s with
    | (Returned a, s') => k a s'
    | (Raised e, s') => (Raised e, s')
    end.

Definition get {S} : M S S := fun s => (Returned s, s).

Definition modify {S} (f : S -> S) : M S unit := fun s => (Returned tt, f s).

Definition lift {S A} (o : outcome A) : M S A := fun s => (o, s).

(** [try_except body handles handler]: a [try] block whose [except] clause
    catches the exceptions selected by [handles]; any other exception
    propagates. *)
Definition try_except {S A} (body : M S A) (handles : exn -> bool)
    (handler : exn -> M S A) : M S A :=
  fun s =>
    match body s with
    | (Returned a, s') => (Returned a, s')
    | (Raised e, s') => if handles e then handler e s' else (Raised e, s')
    end.

(** [except json.JSONDecodeError] and [except Exception]. *)
Definition except_JSONDecodeError (e : exn) : bool :=
  exn_class_eqb (exn_kind e) JSONDecodeError.

Definition except_Exception (e : exn) : bool := true.

(** [post m s Q]: running [m] from the state [s] ends in an outcome and a
    state that satisfy [Q]. *)
Definition post {S A} (m : M S A) (s : S) (Q : outcome A -> S -> Prop) : Prop :=
  Q (fst (m s)) (snd (m s)).

Declare Scope py_scope.
Delimit Scope py_scope with py.

Notation "x <- c ;; k" := (bind c (fun x => k))
  (at level 100, c at next level, right associativity) : py_scope.
Notation "c ;;; k" := (bind c (fun _ => k))
  (at level 100, right associativity) : py_scope.

(** ** JSON values and Python dictionaries *)

Inductive json : Type :=
| JNull
| JBool (b : bool)
| JInt (z : Z)
| JFloat (q : Q)
| JStr (s : string)
| JArr (l : list json)
| JObj (d : list (string * json)).

Definition dict : Type := list (string * json).

Module Py.

(** *** Dictionaries: [d.get(k)], [k in d], [d[k] = v], [d.setdefault] *)

Fixpoint dict_get (d : dict) (k : string) : option json :=
  match d with
  | [] => None
  | (k', v) :: r => if String.eqb k' k then Some v else dict_get r k
  end.

Definition dict_get_default (d : dict) (k : string) (dflt : json) : json :=
  match dict_get d k with Some v => v | None => dflt end.

Definition dict_has (d : dict) (k : string) : bool :=
  match dict_get d k with Some _ => true | None => false end.

(** [d[k] = v]: an existing key keeps its place, a new key goes last. *)
Fixpoint dict_set (d : dict) (k : string) (v : json) : dict :=
  match d with
  | [] => [(k, v)]
  | (k', v') :: r =>
      if String.eqb k' k then (k', v) :: r else (k', v') :: dict_set r k v
  end.

Definition dict_setdefault (d : dict) (k : string) (v : json) : dict :=
  if dict_has d k then d else dict_set d k v.

Definition dict_keys (d : dict) : list string := map fst d.

(** *** Truth value, [x or y], numbers *)

Definition truthy (v : json) : bool :=
  match v with
  | JNull => false
  | JBool b => b
  | JInt z => negb (z =? 0)
  | JFloat q => negb (Qeq_bool q 0)
  | JStr s => negb (String.eqb s EmptyString)
  | JArr l => match l with [] => false | _ => true end
  | JObj d => match d with [] => false | _ => true end
  end.

Definition or_ (a b : json) : json := if truthy a then a else b.

(** [isinstance(v, (int, float))]; a Python bool is an int. *)
Definition is_number (v : json) : bool :=
  match v with
  | JBool _ | JInt _ | JFloat _ => true
  | _ => false
  end.

(** [float(v)] for a [v] that passed [is_number]. *)
Definition number_value (v : json) : Q :=
  match v with
  | JBool true => 1
  | JBool false => 0
  | JInt z => inject_Z z
  | JFloat q => q
  | _ => 0
  end.

(** *** [round(x, ndigits)]: nearest, ties to even *)

Definition round_half_even (q : Q) : Z :=
  let f := Qfloor q in
  match Qcompare (q - inject_Z f) (1 # 2) with
  | Lt => f
  | Gt => f + 1
  | Eq => if Z.even f then f else f + 1
  end.

Definition round_ (q : Q) (ndigits : nat) : Q :=
  let scale := (10 ^ Z.of_nat ndigits)%Z in
  Qmake (round_half_even (q * inject_Z scale)) (Z.to_pos scale).

(** *** Text: [strip], [find], [rfind], slices *)

(** The characters [str.isspace] accepts, which are also those of the
    regular expression class [\s], by the length of their encoding.  On one
    8-bit character: U+0009 to U+000D, U+001C to U+001F and the space. *)
Definition isspace (c : ascii) : bool :=
  let n := nat_of_ascii c in
  ((9 <=? n) && (n <=? 13) || (28 <=? n) && (n <=? 32))%nat.

(** On two: U+0085 and U+00A0. *)
Definition isspace2 (c1 c2 : ascii) : bool :=
  let n1 := nat_of_ascii c1 in
  let n2 := nat_of_ascii c2 in
  ((n1 =? 194) && ((n2 =? 133) || (n2 =? 160)))%nat.

(** On three: U+1680, U+2000 to U+200A, U+2028, U+2029, U+202F, U+205F and
    U+3000. *)
Definition isspace3 (c1 c2 c3 : ascii) : bool :=
  let n1 := nat_of_ascii c1 in
  let n2 := nat_of_ascii c2 in
  let n3 := nat_of_ascii c3 in
  ((n1 =? 225) && (n2 =? 154) && (n3 =? 128)
   || (n1 =? 226) && (n2 =? 128)
      && ((128 <=? n3) && (n3 <=? 138) || (n3 =? 168) || (n3 =? 169) || (n3 =? 175))
   || (n1 =? 226) && (n2 =? 129) && (n3 =? 159)
   || (n1 =? 227) && (n2 =? 128) && (n3 =? 128))%nat.

(** [lstrip]: the white space at the head goes, character by character. *)
Fixpoint lstrip_chars (l : list ascii) : list ascii :=
  match l with
  | c1 :: r1 =>
      if isspace c1 then lstrip_chars r1
      else
        match r1 with
        | c2 :: r2 =>
            if isspace2 c1 c2 then lstrip_chars r2
            else
              match r2 with
              | c3 :: r3 => if isspace3 c1 c2 c3 then lstrip_chars r3 else l
              | [] => l
              end
        | [] => l
        end
  | [] => []
  end.

(** The same on a text read from its end: the last 8-bit character of a
    white-space character comes first. *)
Fixpoint lstrip_reversed (l : list ascii) : list ascii :=
  match l with
  | c1 :: r1 =>
      if isspace c1 then lstrip_reversed r1
      else
        match r1 with
        | c2 :: r2 =>
            if isspace2 c2 c1 then lstrip_reversed r2
            else
              match r2 with
              | c3 :: r3 => if isspace3 c3 c2 c1 then lstrip_reversed r3 else l
              | [] => l
              end
        | [] => l
        end
  | [] => []
  end.

Definition rstrip_chars (l : list ascii) : list ascii :=
  rev (lstrip_reversed (rev l)).

(** [len(s)]: the number of characters, that is of 8-bit characters that do
    not continue an encoding (those from 128 to 191 do). *)
Definition continues (c : ascii) : bool :=
  let n := nat_of_ascii c in ((128 <=? n) && (n <=? 191))%nat.

Definition len_str (s : string) : nat :=
  List.length (filter (fun c => negb (continues c)) (list_ascii_of_string s)).

(** The characters of a text, each as a text of its own. *)
Fixpoint chars_from (l : list ascii) (current : list ascii) : list string :=
  match l with
  | [] => match current with [] => [] | _ => [string_of_list_ascii current] end
  | c :: r =>
      if continues c then chars_from r (current ++ [c])
      else
        match current with
        | [] => chars_from r [c]
        | _ => string_of_list_ascii current :: chars_from r [c]
        end
  end.

Definition chars (s : string) : list string :=
  chars_from (list_ascii_of_string s) [].

Definition strip (s : string) : string :=
  string_of_list_ascii (rstrip_chars (lstrip_chars (list_ascii_of_string s))).

Definition lower (c : ascii) : ascii :=
  let n := nat_of_ascii c in
  if ((65 <=? n) && (n <=? 90))%nat then ascii_of_nat (n + 32) else c.

(** [l] starts with [p], letters compared without case when [nocase]. *)
Fixpoint starts_with (nocase : bool) (p l : list ascii) : bool :=
  match p, l with
  | [], _ => true
  | _ :: _, [] => false
  | a :: p', b :: l' =>
      (if nocase then Ascii.eqb (lower a) (lower b) else Ascii.eqb a b)
      && starts_with nocase p' l'
  end.

Definition fence : list ascii := list_ascii_of_string "```".

(** The group [(?:json)?] under [re.IGNORECASE]: what follows the word json
    at the head of [l], if it is there.  Without case, [s] is also matched
    by the long s, U+017F. *)
Definition skip_json_tag (l : list ascii) : list ascii :=
  match l with
  | j :: r =>
      if Ascii.eqb (lower j) "j" then
        let after_s :=
          match r with
          | c :: r1 =>
              if Ascii.eqb (lower c) "s" then Some r1
              else
                match r1 with
                | c' :: r2 =>
                    if ((nat_of_ascii c =? 197) && (nat_of_ascii c' =? 191))%nat
                    then Some r2 else None
                | [] => None
                end
          | [] => None
          end in
        match after_s with
        | Some (o :: n :: rest) =>
            if Ascii.eqb (lower o) "o" && Ascii.eqb (lower n) "n" then rest else l
        | _ => l
        end
      else l
  | [] => l
  end.

(** [re.sub(r"^```(?:json)?\s*", "", s, flags=re.IGNORECASE)] *)
Definition sub_open_fence (s : string) : string :=
  let l := list_ascii_of_string s in
  if starts_with true fence l then
    string_of_list_ascii (lstrip_chars (skip_json_tag (skipn 3 l)))
  else s.

(** [re.sub(r"\s*```$", "", s)] on a text with no newline at its end (the
    text was stripped, and removing a prefix leaves its end alone), so [$]
    is the end of the text: the closing fence goes, with the white space
    before it. *)
Definition sub_close_fence (s : string) : string :=
  let r := rev (list_ascii_of_string s) in
  if starts_with false fence r then
    string_of_list_ascii (rev (lstrip_reversed (skipn 3 r)))
  else s.

Fixpoint find_from (c : ascii) (s : string) (i : Z) : Z :=
  match s with
  | EmptyString => -1
  | String a r => if Ascii.eqb a c then i else find_from c r (i + 1)
  end.

(** [s.find(c)]: index of the first [c], or -1. *)
Definition find (s : string) (c : ascii) : Z := find_from c s 0.

Fixpoint rfind_from (c : ascii) (s : string) (i last : Z) : Z :=
  match s with
  | EmptyString => last
  | String a r => rfind_from c r (i + 1) (if Ascii.eqb a c then i else last)
  end.

(** [s.rfind(c)]: index of the last [c], or -1. *)
Definition rfind (s : string) (c : ascii) : Z := rfind_from c s 0 (-1).

(** [s[start:stop]] for [0 <= start]. *)
Definition slice (s : string) (start stop : Z) : string :=
  substring (Z.to_nat start) (Z.to_nat (stop - start)) s.

(** [needle in s] for two texts. *)
Fixpoint contains_chars (needle l : list ascii) : bool :=
  starts_with false needle l
  || match l with
     | [] => false
     | _ :: r => contains_chars needle r
     end.

Definition str_contains (needle s : string) : bool :=
  contains_chars (list_ascii_of_string needle) (list_ascii_of_string s).

(** [x in l] for a text [x] and a list [l] of JSON values. *)
Definition list_contains_str (x : string) (l : list json) : bool :=
  existsb (fun v => match v with JStr s => String.eqb s x | _ => false end) l.

Definition str_of_int (z : Z) : string := NilZero.string_of_int (Z.to_int z).

(** *** Operations that raise on a value of the wrong type *)

Definition type_name (v : json) : string :=
  match v with
  | JNull => "NoneType"
  | JBool _ => "bool"
  | JInt _ => "int"
  | JFloat _ => "float"
  | JStr _ => "str"
  | JArr _ => "list"
  | JObj _ => "dict"
  end.

(** [v.get(k, dflt)]: only a dict has the method. *)
Definition get (v : json) (k : string) (dflt : json) : outcome json :=
  match v with
  | JObj d => Returned (dict_get_default d k dflt)
  | _ => Raised (Exn AttributeError
           ("'" ++ type_name v ++ "' object has no attribute 'get'"))
  end.

(** [k in v] for a text [k]: a key of a dict, an element of a list, a
    piece of a text; other values are not containers. *)
Definition contains (v : json) (k : string) : outcome bool :=
  match v with
  | JObj d => Returned (dict_has d k)
  | JArr l => Returned (list_contains_str k l)
  | JStr s => Returned (str_contains k s)
  | _ => Raised (Exn TypeError
           ("argument of type '" ++ type_name v ++ "' is not iterable"))
  end.

(** [v[k]] for a text [k]. *)
Definition getitem (v : json) (k : string) : outcome json :=
  match v with
  | JObj d =>
      match dict_get d k with
      | Some x => Returned x
      | None => Raised (Exn KeyError ("'" ++ k ++ "'"))
      end
  | JArr _ => Raised (Exn TypeError "list indices must be integers or slices, not str")
  | JStr _ => Raised (Exn TypeError "string indices must be integers, not 'str'")
  | _ => Raised (Exn TypeError
           ("'" ++ type_name v ++ "' object is not subscriptable"))
  end.

(** [v[k] = x] for a text [k]. *)
Definition setitem (v : json) (k : string) (x : json) : outcome json :=
  match v with
  | JObj d => Returned (JObj (dict_set d k x))
  | JArr _ => Raised (Exn TypeError "list indices must be integers or slices, not str")
  | _ => Raised (Exn TypeError
           ("'" ++ type_name v ++ "' object does not support item assignment"))
  end.

Definition Qgtb (a b : Q) : bool := negb (Qle_bool a b).
Definition Qltb (a b : Q) : bool := negb (Qle_bool b a).

End Py.

(** ** Binary64 arithmetic

    Python floats are IEEE 754 binary64 numbers.  The operations are those
    of the specification of the Standard Library ([SpecFloat]) at precision
    53 and maximal exponent 1024: each rounds the exact result to the nearest
    representable number, ties to even. *)

Module F64.

Definition prec : Z := 53.
Definition emax : Z := 1024.

Definition t : Type := spec_float.

Definition zero : t := S754_zero false.

(** The number nearest to [n / d], ties to even; an infinity beyond the
    largest number. *)
Definition of_ratio (negative : bool) (n d : positive) : t :=
  let '(m, e, l) := SFdiv_core_binary prec emax (Zpos n) 0 (Zpos d) 0 in
  binary_round_aux prec emax negative m e l.

(** The float a rational names: what [float] makes of a literal, and what
    the true division of two integers returns. *)
Definition of_Q (q : Q) : t :=
  match Qnum q with
  | Z0 => zero
  | Zpos n => of_ratio false n (Qden q)
  | Zneg n => of_ratio true n (Qden q)
  end.

Definition one : t := of_Q 1.

Definition magnitude (m : positive) (e : Z) : Q :=
  match e with
  | Z0 => inject_Z (Zpos m)
  | Zpos p => inject_Z (Zpos m * 2 ^ Zpos p)
  | Zneg p => Qmake (Zpos m) (2 ^ p)%positive
  end.

(** The exact value of a number.  An infinity is given the value of the
    first power of two that names it; not-a-number, which no value of type
    [json] names, is given 0. *)
Definition to_Q (x : t) : Q :=
  match x with
  | S754_zero _ => 0
  | S754_nan => 0
  | S754_infinity negative =>
      if negative then inject_Z (- 2 ^ 1024) else inject_Z (2 ^ 1024)
  | S754_finite negative m e =>
      if negative then Qopp (magnitude m e) else magnitude m e
  end.

Definition add : t -> t -> t := SFadd prec emax.
Definition sub : t -> t -> t := SFsub prec emax.
Definition mul : t -> t -> t := SFmul prec emax.
Definition div : t -> t -> t := SFdiv prec emax.
Definition abs : t -> t := SFabs.

(** [x < y] and [x <= y]: false when an operand is not-a-number. *)
Definition ltb : t -> t -> bool := SFltb.
Definition leb : t -> t -> bool := SFleb.

(** [round(x, ndigits)] for [0 <= ndigits]: the float nearest to the
    decimal nearest to the exact value of [x], ties to even; an infinity
    and not-a-number are returned as they are. *)
Definition round (x : t) (ndigits : nat) : t :=
  match x with
  | S754_finite negative _ _ =>
      let d := Py.round_ (to_Q x) ndigits in
      match Qnum d with
      | Z0 => S754_zero negative
      | _ => of_Q d
      end
  | _ => x
  end.

End F64.

(** The float nearest to [q], as the value of type [json] that holds it. *)
Definition binary64 (q : Q) : json := JFloat (F64.to_Q (F64.of_Q q)).

(** ** Library functions the agents call

    [json.loads], [float] on a text and the formatting of values inside
    f-strings ([str] of a float, the [.2f] format, [str] of any value) are
    functions of the Python library, not of this repository; the agents are
    verified for every implementation of this interface.  [json_loads s] is
    what [json.loads] does on [s]: it returns a value or raises, be it
    [JSONDecodeError] on a text that is no JSON, or another exception
    ([ValueError] on an integer of more than 4300 digits, [RecursionError]
    on deep nesting). *)

Class PyLib : Type := {
  json_loads : string -> outcome json;
  float_of_str : string -> option Q;
  str_of_float : Q -> string;
  fmt_2f : Q -> string;
  str_of_value : json -> string
}.

(** ** What an agent does to the outside

    The records of its logger and the delegated calls it issues (language
    model, media library), oldest first. *)

Inductive level : Type := INFO | WARNING | ERROR.

Inductive delegated_call : Type :=
| LLMCall
| MediaProbe (path : json).

Record AgentWorld : Type := mkAgentWorld {
  agent_log : list (level * string);
  agent_calls : list delegated_call
}.

Definition quiet : AgentWorld := mkAgentWorld [] [].

Definition logger (lv : level) (msg : string) : M AgentWorld unit :=
  modify (fun w => mkAgentWorld (agent_log w ++ [(lv, msg)]) (agent_calls w)).

Definition delegate (c : delegated_call) : M AgentWorld unit :=
  modify (fun w => mkAgentWorld (agent_log w) (agent_calls w ++ [c])).

Definition warnings (w : AgentWorld) : list string :=
  map snd (filter (fun r => match fst r with WARNING => true | _ => false end)
                  (agent_log w)).

Section Parsing.

Context {lib : PyLib}.

Local Open Scope py_scope.

(** [json.loads(text)] *)
Definition loads {S} (text : string) : M S json := lift (json_loads text).

(** The three lines every parser starts with: [strip], then the two
    [re.sub] that drop a markdown fence. *)
Definition clean (response : string) : string :=
  Py.sub_close_fence (Py.sub_open_fence (Py.strip response)).

(** [float(v)] for any value. *)
Definition py_float (v : json) : outcome Q :=
  match v with
  | JBool _ | JInt _ | JFloat _ => Returned (Py.number_value v)
  | JStr s =>
      match float_of_str s with
      | Some q => Returned q
      | None => Raised (Exn ValueError ("could not convert string to float: '" ++ s ++ "'"))
      end
  | _ => Raised (Exn TypeError
           ("float() argument must be a string or a real number, not '"
            ++ Py.type_name v ++ "'"))
  end.

(** [float(v)] as the binary64 number it is.  An integer too large for one
    raises [OverflowError]; a float is the one its name stands for. *)
Definition to_float (v : json) : outcome F64.t :=
  match v with
  | JInt z =>
      match F64.of_Q (inject_Z z) with
      | S754_infinity _ =>
          Raised (Exn OverflowError "int too large to convert to float")
      | x => Returned x
      end
  | _ =>
      match py_float v with
      | Returned q => Returned (F64.of_Q q)
      | Raised e => Raised e
      end
  end.

(** [str(v)] of a number inside an f-string. *)
Definition str_of_number (v : json) : string :=
  match v with
  | JBool true => "True"
  | JBool false => "False"
  | JInt z => Py.str_of_int z
  | JFloat q => str_of_float q
  | _ => EmptyString
  end.

End Parsing.

(** ** src/agents/base_agent.py *)

Module BaseAgent.

Local Open Scope py_scope.

(** [call_llm(prompt, ...)]: one round trip to the model; a failure is
    logged and raised again.  [reply] is what the model does on the prompt. *)
Definition call_llm (reply : outcome string) : M AgentWorld string :=
  delegate LLMCall ;;;
  try_except (lift reply) except_Exception
    (fun e => logger ERROR ("Error calling LLM: " ++ exn_str e) ;;; raise e).

(** [validate_input(input_data, required_fields)] *)
Fixpoint validate_input {S} (input_data : dict) (required_fields : list string)
    : M S bool :=
  match required_fields with
  | [] => ret true
  | field :: rest =>
      if negb (Py.dict_has input_data field) then
        raise (Exn ValueError ("Missing required field: " ++ field))
      else validate_input input_data rest
  end.

End BaseAgent.

(** ** src/agents/script_analyzer.py *)

Module ScriptAnalyzer.
Section Agent.

Context {lib : PyLib}.

Local Open Scope py_scope.

(** The loop of [_validate_timing] that sums the numeric durations;
    [s.get] raises on a scene that is not a dict. *)
Fixpoint sum_durations (scenes : list json) (total : F64.t) : outcome F64.t :=
  match scenes with
  | [] => Returned total
  | s :: rest =>
      match Py.get s "duration" JNull with
      | Raised e => Raised e
      | Returned dur =>
          if Py.is_number dur then
            match to_float dur with
            | Raised e => Raised e
            | Returned x => sum_durations rest (F64.add total x)
            end
          else sum_durations rest total
      end
  end.

(** The body of the last [if] of [_validate_timing]: the mutation of
    [last = analysis["scenes"][-1]].  [float(last["duration"])] in the
    second assignment reads the number the first one has just stored. *)
Definition adjust_last (last : json) (delta : F64.t) : outcome json :=
  match Py.get last "duration" JNull with
  | Raised e => Raised e
  | Returned dur =>
      if Py.is_number dur then
        match to_float dur with
        | Raised e => Raised e
        | Returned x =>
            let new_duration := F64.round (F64.add x delta) 2 in
            match Py.setitem last "duration" (JFloat (F64.to_Q new_duration)) with
            | Raised e => Raised e
            | Returned last1 =>
                match Py.get last1 "start_time" JNull with
                | Raised e => Raised e
                | Returned start =>
                    if Py.is_number start then
                      match to_float start with
                      | Raised e => Raised e
                      | Returned start_time =>
                          Py.setitem last1 "end_time"
                            (JFloat (F64.to_Q
                                       (F64.round (F64.add start_time new_duration) 2)))
                      end
                    else Returned last1
                end
            end
        end
      else Returned last
  end.

(** [_validate_timing(analysis)].  The source mutates [analysis] in place
    and returns nothing; the model returns the analysis as it stands
    afterwards. *)
Definition _validate_timing (analysis : json) : M AgentWorld json :=
  has_scenes <- lift (Py.contains analysis "scenes") ;;
  if negb has_scenes then ret analysis else
  scenes_v <- lift (Py.getitem analysis "scenes") ;;
  match scenes_v with
  | JArr scenes =>
      target <- lift (Py.get analysis "total_duration" JNull) ;;
      if negb (Py.is_number target) then ret analysis else
      (* Sum durations *)
      total <- lift (sum_durations scenes F64.zero) ;;
      target_seconds <- lift (to_float target) ;;
      let off := F64.abs (F64.sub total target_seconds) in
      (* Warn if off by >1 second *)
      (if F64.ltb F64.one off then
         logger WARNING ("Scene durations (" ++ fmt_2f (F64.to_Q total)
                         ++ "s) don't match target (" ++ str_of_number target ++ "s)")
       else ret tt) ;;;
      (* Optional: if off by <= 1 second, auto-adjust last scene *)
      if Py.truthy (JArr scenes) && F64.leb off F64.one then
        let delta := F64.sub target_seconds total in
        last' <- lift (adjust_last (last scenes JNull) delta) ;;
        lift (Py.setitem analysis "scenes" (JArr (removelast scenes ++ [last'])))
      else ret analysis
  | _ => ret analysis
  end.

(** [_parse_analysis_response(response)] *)
Definition _parse_analysis_response (response : string) : M AgentWorld json :=
  let cleaned := clean response in
  (* 1) Try parse whole response *)
  first <- try_except
             (analysis <- loads cleaned ;;
              analysis' <- _validate_timing analysis ;;
              ret (Some analysis'))
             except_JSONDecodeError
             (fun _ => ret None) ;;
  match first with
  | Some analysis => ret analysis
  | None =>
      (* 2) Fallback: extract largest JSON object substring *)
      second <- try_except
                  (let start_idx := Py.find cleaned "{" in
                   let end_idx := Py.rfind cleaned "}" + 1 in
                   if negb (start_idx =? -1) && (end_idx >? start_idx) then
                     analysis <- loads (Py.slice cleaned start_idx end_idx) ;;
                     analysis' <- _validate_timing analysis ;;
                     ret (Some analysis')
                   else ret None)
                  except_JSONDecodeError
                  (fun e => logger ERROR ("JSON parse error: " ++ exn_str e) ;;;
                            ret None) ;;
      match second with
      | Some analysis => ret analysis
      | None => ret (JObj [("raw_response", JStr response)])
      end
  end.

End Agent.
End ScriptAnalyzer.

(** A scene as the timing code needs it: a dict. *)
Definition is_dict (v : json) : bool :=
  match v with JObj _ => true | _ => false end.

(** The durations as they are written, added on the rationals: one turn on
    a scene, and the sum over a scene list.  The code adds them in binary64
    ([ScriptAnalyzer.sum_durations]). *)
Definition add_duration (total : Q) (scene : json) : Q :=
  match scene with
  | JObj s =>
      let dur := Py.dict_get_default s "duration" JNull in
      if Py.is_number dur then (total + Py.number_value dur)%Q else total
  | _ => total
  end.

Definition sum_of_durations (scenes : list json) : Q :=
  fold_left add_duration scenes 0%Q.

(** ** src/agents/creative_director.py *)

Module CreativeDirector.
Section Agent.

Context {lib : PyLib}.

Local Open Scope py_scope.

(** [_parse_creative_response(response)] *)
Definition _parse_creative_response (response : string) : M AgentWorld json :=
  (* 1) Strip common markdown fences if present *)
  let cleaned := clean response in
  (* 2) Try full JSON parse first *)
  first <- try_except
             (v <- loads cleaned ;; ret (Some v))
             except_JSONDecodeError
             (fun _ => ret None) ;;
  match first with
  | Some v => ret v
  | None =>
      (* 3) Fallback: extract the largest JSON object substring *)
      second <- try_except
                  (let start_idx := Py.find cleaned "{" in
                   let end_idx := Py.rfind cleaned "}" + 1 in
                   if negb (start_idx =? -1) && (end_idx >? start_idx) then
                     v <- loads (Py.slice cleaned start_idx end_idx) ;;
                     ret (Some v)
                   else ret None)
                  except_JSONDecodeError
                  (fun _ =>
                     logger WARNING "Could not parse JSON from creative response" ;;;
                     ret None) ;;
      match second with
      | Some v => ret v
      | None =>
          (* 4) Final fallback: return raw response *)
          ret (JObj [("raw_response", JStr response)])
      end
  end.

End Agent.
End CreativeDirector.

(** ** src/agents/visual_designer.py *)

Module VisualDesigner.
Section Agent.

Context {lib : PyLib}.

Local Open Scope py_scope.

(** [_parse_json_response(response, fallback)] *)
Definition _parse_json_response (response : string) (fallback : json)
    : M AgentWorld json :=
  let cleaned := clean response in
  (* 1) Try parse whole response *)
  first <- try_except
             (v <- loads cleaned ;; ret (Some v))
             except_JSONDecodeError
             (fun _ => ret None) ;;
  match first with
  | Some v => ret v
  | None =>
      (* 2) Fallback: extract largest JSON object substring *)
      second <- try_except
                  (let start_idx := Py.find cleaned "{" in
                   let end_idx := Py.rfind cleaned "}" + 1 in
                   if negb (start_idx =? -1) && (end_idx >? start_idx) then
                     v <- loads (Py.slice cleaned start_idx end_idx) ;;
                     ret (Some v)
                   else ret None)
                  except_Exception
                  (fun _ => ret None) ;;
      match second with
      | Some v => ret v
      | None =>
          logger WARNING "Could not parse JSON from VisualDesigner response" ;;;
          ret fallback
      end
  end.

(** The fallback [_match_images_to_scenes] hands to the parser. *)
Definition match_fallback : json :=
  JObj [("scene_matches", JArr []); ("missing_visuals", JArr [])].

(** The end of [_match_images_to_scenes]: the call to the model and the
    parse of its reply.  [reply] is what [call_llm] does on the prompt
    built from the images, the scenes and the brief. *)
Definition _match_images_to_scenes (reply : outcome string) : M AgentWorld json :=
  response <- BaseAgent.call_llm reply ;;
  _parse_json_response response match_fallback.

End Agent.
End VisualDesigner.

(** The text the parsers try second: from the first opening brace to the
    last closing brace of the cleaned response, when there is one. *)
Definition braced (cleaned : string) : option string :=
  let start_idx := Py.find cleaned "{" in
  let end_idx := (Py.rfind cleaned "}" + 1)%Z in
  if negb (start_idx =? -1)%Z && (end_idx >? start_idx)%Z
  then Some (Py.slice cleaned start_idx end_idx) else None.

(** [json.loads] raises [JSONDecodeError] on [text]. *)
Definition no_json {lib : PyLib} (text : string) : Prop :=
  exists e, json_loads text = Raised e /\ except_JSONDecodeError e = true.

(** Both parse attempts fail on [response]. *)
Definition unparseable {lib : PyLib} (response : string) : Prop :=
  no_json (clean response)
  /\ match braced (clean response) with
     | Some inner => no_json inner
     | None => True
     end.

(** Every text held anywhere in a value. *)
Fixpoint texts_of (v : json) : list string :=
  match v with
  | JStr s => [s]
  | JArr l => flat_map texts_of l
  | JObj d => flat_map (fun kv => texts_of (snd kv)) d
  | _ => []
  end.

(** ** src/agents/qa_agent.py *)

Module QA.

(** What [VideoFileClip(path)] exposes: [None] is Python's [None]. *)
Record Clip : Type := mkClip {
  clip_duration : option Q;
  clip_fps : option Q;
  clip_w : Z;
  clip_h : Z;
  clip_has_audio : bool
}.

(** The file system, the media library and the language model as the QA
    agent meets them during one review. *)
Record Env : Type := mkEnv {
  file_exists : string -> bool;
  fd_exists : Z -> bool;
  getsize : json -> outcome Z;
  VideoFileClip : json -> outcome Clip;
  (** the reply to the review prompt, which interpolates the requirements,
      the brief and the scenes *)
  llm_reply : json -> json -> json -> outcome string
}.

(** The locals [checks] and [issues] of [_check_technical_quality]. *)
Record Tech : Type := mkTech { checks : dict; issues : list string }.

Section Agent.

Context {lib : PyLib}.
Variable env : Env.

Local Open Scope py_scope.

(** [os.path.exists(p)]: false on a path that is not there, [TypeError] on
    a value that is no path; an integer is taken as a file descriptor. *)
Definition os_path_exists (p : json) : outcome bool :=
  match p with
  | JStr s => Returned (file_exists env s)
  | JInt n => Returned (fd_exists env n)
  | JBool b => Returned (fd_exists env (if b then 1 else 0))
  | _ => Raised (Exn TypeError
           ("stat: path should be string, bytes, os.PathLike or integer, not "
            ++ Py.type_name p))
  end.

Definition set_check (k : string) (v : json) : M Tech unit :=
  modify (fun t => mkTech (Py.dict_set (checks t) k v) (issues t)).

Definition add_issue (msg : string) : M Tech unit :=
  modify (fun t => mkTech (checks t) (issues t ++ [msg])).

(** The body of the [try] of [_check_technical_quality]. *)
Definition read_metadata (video_path requirements : json) : M Tech unit :=
  clip <- lift (VideoFileClip env video_path) ;;
  duration <- lift (match clip_duration clip with
                    | Some d => Returned d
                    | None => Raised (Exn TypeError
                        "float() argument must be a string or a real number, not 'NoneType'")
                    end) ;;
  let duration_seconds := Py.round_ duration 2 in
  set_check "duration_seconds" (JFloat duration_seconds) ;;;
  let fps := match clip_fps clip with Some f => f | None => 0%Q end in
  set_check "fps" (JFloat fps) ;;;
  let resolution := Py.str_of_int (clip_w clip) ++ "x" ++ Py.str_of_int (clip_h clip) in
  set_check "resolution" (JStr resolution) ;;;
  set_check "has_audio" (JBool (clip_has_audio clip)) ;;;
  (* Optional requirements checks (if provided) *)
  d1 <- lift (Py.get requirements "duration" JNull) ;;
  target_duration <- (if Py.truthy d1 then ret d1
                      else lift (Py.get requirements "target_duration" JNull)) ;;
  match target_duration with
  | JNull => ret tt
  | _ =>
      try_except
        (td <- lift (py_float target_duration) ;;
         if Py.Qgtb (Qabs (duration_seconds - td)) 1 then
           add_issue ("Duration mismatch: " ++ str_of_float duration_seconds
                      ++ "s vs target " ++ str_of_float td ++ "s")
         else ret tt)
        except_Exception (fun _ => ret tt)
  end ;;;
  target_resolution <- lift (Py.get requirements "resolution" JNull) ;;
  match target_resolution with
  | JStr r =>
      if Py.truthy target_resolution && negb (String.eqb r resolution) then
        add_issue ("Resolution mismatch: " ++ resolution ++ " vs target " ++ r)
      else ret tt
  | _ => ret tt
  end ;;;
  target_fps <- lift (Py.get requirements "fps" JNull) ;;
  match target_fps with
  | JNull => ret tt
  | _ =>
      try_except
        (tfps <- lift (py_float target_fps) ;;
         if Py.truthy (JFloat fps) && Py.Qgtb (Qabs (fps - tfps)) 1 then
           add_issue ("FPS mismatch: " ++ str_of_float fps
                      ++ " vs target " ++ str_of_float tfps)
         else ret tt)
        except_Exception (fun _ => ret tt)
  end ;;;
  if negb (clip_has_audio clip) then
    add_issue "No audio track detected (missing voiceover/music)"
  else ret tt.

(** The score heuristic that ends [_check_technical_quality]. *)
Definition technical_score (issues : list string) : Q :=
  match issues with
  | [] => 1
  | _ => if (length issues <=? 2)%nat then 75 # 100 else 6 # 10
  end.

(** [_check_technical_quality(video_path, requirements)] *)
Definition _check_technical_quality (video_path requirements : json)
    : M AgentWorld json :=
  size <- lift (getsize env video_path) ;;
  let file_size_mb := Py.round_ (inject_Z size / inject_Z (1024 * 1024)) 3 in
  let checks0 := [("file_exists", JBool true); ("file_size_mb", JFloat file_size_mb)] in
  (* Basic file size sanity *)
  let issues0 :=
    if Py.Qltb file_size_mb (1 # 10) then
      ["Video file is too small - may be corrupted"]
    else if Py.Qgtb file_size_mb 200 then
      ["Video file is very large - consider compression"]
    else [] in
  (* Read metadata via MoviePy *)
  delegate (MediaProbe video_path) ;;;
  let t := snd (try_except (read_metadata video_path requirements)
                  except_Exception
                  (fun e => add_issue ("Could not read video metadata: " ++ exn_str e))
                  (mkTech checks0 issues0)) in
  ret (JObj [("score", JFloat (technical_score (issues t)));
             ("checks", JObj (checks t));
             ("issues", JArr (map JStr (issues t)))]).

(** [_parse_json_response(response, fallback)] *)
Definition _parse_json_response (response : string) (fallback : json)
    : M AgentWorld json :=
  let cleaned := clean response in
  first <- try_except
             (v <- loads cleaned ;; ret (Some v))
             except_JSONDecodeError
             (fun _ => ret None) ;;
  match first with
  | Some v => ret v
  | None =>
      second <- try_except
                  (let start_idx := Py.find cleaned "{" in
                   let end_idx := Py.rfind cleaned "}" + 1 in
                   if negb (start_idx =? -1) && (end_idx >? start_idx) then
                     v <- loads (Py.slice cleaned start_idx end_idx) ;;
                     ret (Some v)
                   else ret None)
                  except_Exception
                  (fun _ => ret None) ;;
      match second with
      | Some v => ret v
      | None =>
          logger WARNING "Could not parse JSON from QA response" ;;;
          ret fallback
      end
  end.

(** The fallback [_check_content_quality] hands to the parser. *)
Definition content_fallback (response : string) : json :=
  JObj [("score", JFloat (5 # 10));
        ("issues", JArr [JStr "Could not parse quality assessment"]);
        ("raw_response", JStr response);
        ("scores", JObj []);
        ("suggestions", JArr [])].

(** [sum(float(v) for v in values)] *)
Fixpoint sum_floats (values : list json) (acc : Q) : outcome Q :=
  match values with
  | [] => Returned acc
  | v :: rest =>
      match py_float v with
      | Returned x => sum_floats rest (acc + x)
      | Raised e => Raised e
      end
  end.

(** [sum(float(v) for v in scores.values()) / len(scores)] on a [scores]
    that is truthy. *)
Definition average_score (scores : json) : outcome Q :=
  match scores with
  | JObj d =>
      match sum_floats (map snd d) 0 with
      | Returned total => Returned (total / inject_Z (Z.of_nat (length d)))%Q
      | Raised e => Raised e
      end
  | _ => Raised (Exn AttributeError
           ("'" ++ Py.type_name scores ++ "' object has no attribute 'values'"))
  end.

(** [_check_content_quality(requirements, creative_brief, scenes)] *)
Definition _check_content_quality (requirements creative_brief scenes : json)
    : M AgentWorld json :=
  response <- BaseAgent.call_llm (llm_reply env requirements creative_brief scenes) ;;
  assessment <- _parse_json_response response (content_fallback response) ;;
  (* Normalize score 0-1 *)
  scores_raw <- lift (Py.get assessment "scores" (JObj [])) ;;
  let scores := Py.or_ scores_raw (JObj []) in
  if Py.truthy scores then
    try_except
      (avg_score <- lift (average_score scores) ;;
       lift (Py.setitem assessment "score" (JFloat (Py.round_ (avg_score / 10) 2))))
      except_Exception
      (fun _ =>
         old <- lift (Py.get assessment "score" (JFloat (5 # 10))) ;;
         lift (Py.setitem assessment "score" old))
  else
    match assessment with
    | JObj d => ret (JObj (Py.dict_setdefault d "score" (JFloat (5 # 10))))
    | _ => raise (Exn AttributeError
             ("'" ++ Py.type_name assessment ++ "' object has no attribute 'setdefault'"))
    end.

(** [_calculate_quality_score(technical_check, content_check)], in
    binary64 as the code computes it. *)
Definition _calculate_quality_score (technical_check content_check : json)
    : outcome F64.t :=
  match Py.get technical_check "score" (JFloat (5 # 10)) with
  | Raised e => Raised e
  | Returned ts =>
      match to_float ts with
      | Raised e => Raised e
      | Returned technical_score =>
          match Py.get content_check "score" (JFloat (5 # 10)) with
          | Raised e => Raised e
          | Returned cs =>
              match to_float cs with
              | Raised e => Raised e
              | Returned content_score =>
                  let overall :=
                    F64.add (F64.mul technical_score (F64.of_Q (3 # 10)))
                            (F64.mul content_score (F64.of_Q (7 # 10))) in
                  Returned (F64.round overall 2)
              end
          end
      end
  end.

(** [[...] + v]: list concatenation accepts a list only. *)
Definition list_add (l : list json) (v : json) : outcome json :=
  match v with
  | JArr r => Returned (JArr (l ++ r))
  | _ =>
      let quote := String (ascii_of_nat 34) EmptyString in
      Raised (Exn TypeError
                ("can only concatenate list (not " ++ quote ++ Py.type_name v
                 ++ quote ++ ") to list"))
  end.

(** The elements [recommendations.extend(v)] appends. *)
Definition iterate (v : json) : outcome (list json) :=
  match v with
  | JArr l => Returned l
  | JObj d => Returned (map (fun kv => JStr (fst kv)) d)
  | JStr s => Returned (map JStr (Py.chars s))
  | _ => Raised (Exn TypeError
           ("'" ++ Py.type_name v ++ "' object is not iterable"))
  end.

(** [a == b] on JSON values: numbers compare by value whatever their
    type, dicts whatever the order of their keys. *)
Fixpoint py_eq (a b : json) {struct a} : bool :=
  match a, b with
  | JNull, JNull => true
  | JStr s, JStr t => String.eqb s t
  | JArr l, JArr m =>
      (fix all2 (l m : list json) {struct l} : bool :=
         match l, m with
         | [], [] => true
         | x :: l', y :: m' => py_eq x y && all2 l' m'
         | _, _ => false
         end) l m
  | JObj d, JObj e =>
      (length d =? length e)%nat
      && (fix all (d : list (string * json)) : bool :=
            match d with
            | [] => true
            | (k, v) :: r =>
                match Py.dict_get e k with
                | Some w => py_eq v w
                | None => false
                end && all r
            end) d
  | (JBool _ | JInt _ | JFloat _), (JBool _ | JInt _ | JFloat _) =>
      Qeq_bool (Py.number_value a) (Py.number_value b)
  | _, _ => false
  end.

(** The loop that removes duplicates: [if r not in deduped: deduped.append(r)]. *)
Fixpoint dedupe (recommendations deduped : list json) : list json :=
  match recommendations with
  | [] => deduped
  | r :: rest =>
      dedupe rest (if existsb (py_eq r) deduped then deduped else deduped ++ [r])
  end.

(** [aspect.replace('_', ' ')] *)
Fixpoint underscores_to_spaces (s : string) : string :=
  match s with
  | EmptyString => EmptyString
  | String c r =>
      String (if Ascii.eqb c "_" then " "%char else c) (underscores_to_spaces r)
  end.

(** The loop over [scores.items()] of [_generate_recommendations]. *)
Fixpoint aspect_recommendations (items : dict) : list json :=
  match items with
  | [] => []
  | (aspect, score) :: rest =>
      match py_float score with
      | Returned x =>
          if Py.Qltb x 7 then
            JStr ("Improve " ++ underscores_to_spaces aspect ++ ".")
            :: aspect_recommendations rest
          else aspect_recommendations rest
      | Raised _ => aspect_recommendations rest
      end
  end.

(** [_generate_recommendations(technical_check, content_check)] *)
Definition _generate_recommendations (technical_check content_check : json)
    : outcome json :=
  match Py.get technical_check "score" (JFloat 1) with
  | Raised e => Raised e
  | Returned ts =>
  match py_float ts with
  | Raised e => Raised e
  | Returned technical =>
      let recs0 :=
        if Py.Qltb technical (8 # 10) then
          [JStr "Review technical video specs (duration, resolution, fps).";
           JStr "Check audio levels and ensure voiceover is present.";
           JStr "Compress or re-export with optimized bitrate if file is too large."]
        else [] in
      (* Add model suggestions *)
      match Py.get content_check "suggestions" (JArr []) with
      | Raised e => Raised e
      | Returned sg =>
      match iterate (Py.or_ sg (JArr [])) with
      | Raised e => Raised e
      | Returned suggestions =>
          (* Add aspect-based recs *)
          match Py.get content_check "scores" (JObj []) with
          | Raised e => Raised e
          | Returned sc =>
              match Py.or_ sc (JObj []) with
              | JObj scores =>
                  let recommendations :=
                    (recs0 ++ suggestions ++ aspect_recommendations scores)%list in
                  (* Keep top 5, de-dup *)
                  Returned (JArr (firstn 5 (dedupe recommendations [])))
              | other => Raised (Exn AttributeError
                  ("'" ++ Py.type_name other ++ "' object has no attribute 'items'"))
              end
          end
      end
      end
  end
  end.

(** The report [process] returns when the video file is not there. *)
Definition missing_file_report : json :=
  JObj [("approved", JBool false);
        ("quality_score", JFloat 0);
        ("issues", JArr [JStr "Video file not found"]);
        ("recommendations", JArr [JStr "Regenerate video"]);
        ("technical_check",
          JObj [("score", JFloat 0); ("issues", JArr [JStr "Missing file"])]);
        ("content_check",
          JObj [("score", JFloat 0); ("issues", JArr [JStr "No file to review"])])].

(** [process(input_data)] *)
Definition process (input_data : dict) : M AgentWorld json :=
  BaseAgent.validate_input input_data ["video_path"] ;;;
  video_path <- lift (Py.getitem (JObj input_data) "video_path") ;;
  present <- lift (os_path_exists video_path) ;;
  if negb present then ret missing_file_report else
  let requirements :=
    Py.or_ (Py.dict_get_default input_data "original_requirements" (JObj []))
           (JObj []) in
  technical_check <- _check_technical_quality video_path requirements ;;
  content_check <-
    _check_content_quality requirements
      (Py.or_ (Py.dict_get_default input_data "creative_brief" (JObj [])) (JObj []))
      (Py.or_ (Py.dict_get_default input_data "scenes" (JArr [])) (JArr [])) ;;
  quality_score <- lift (_calculate_quality_score technical_check content_check) ;;
  let approved := F64.leb (F64.of_Q (8 # 10)) quality_score in
  technical_issues <- lift (Py.get technical_check "issues" (JArr [])) ;;
  content_issues <- lift (Py.get content_check "issues" (JArr [])) ;;
  issues <- lift (match Py.or_ technical_issues (JArr []) with
                  | JArr l => list_add l (Py.or_ content_issues (JArr []))
                  | other => Raised (Exn TypeError
                      ("unsupported operand type(s) for +: '" ++ Py.type_name other ++ "'"))
                  end) ;;
  recommendations <- lift (_generate_recommendations technical_check content_check) ;;
  ret (JObj [("approved", JBool approved);
             ("quality_score", JFloat (F64.to_Q quality_score));
             ("technical_check", technical_check);
             ("content_check", content_check);
             ("issues", issues);
             ("recommendations", recommendations)]).

End Agent.
End QA.

(** ** src/orchestrator/workflow_orchestrator.py *)

Module Orchestrator.

(** The six agents, in the order [generate_advertisement] calls them. *)
Inductive Step : Type :=
| CreativeDirection
| ScriptAnalysis
| VisualDesign
| AudioProduction
| VideoEditing
| QualityAssurance.

Definition pipeline : list Step :=
  [CreativeDirection; ScriptAnalysis; VisualDesign;
   AudioProduction; VideoEditing; QualityAssurance].

Definition Step_eqb (a b : Step) : bool :=
  match a, b with
  | CreativeDirection, CreativeDirection
  | ScriptAnalysis, ScriptAnalysis
  | VisualDesign, VisualDesign
  | AudioProduction, AudioProduction
  | VideoEditing, VideoEditing
  | QualityAssurance, QualityAssurance => true
  | _, _ => false
  end.

(** The name written to [state["current_step"]] before a step. *)
Definition step_name (s : Step) : string :=
  match s with
  | CreativeDirection => "creative_direction"
  | ScriptAnalysis => "script_analysis"
  | VisualDesign => "visual_design"
  | AudioProduction => "audio_production"
  | VideoEditing => "video_editing"
  | QualityAssurance => "quality_assurance"
  end.

(** The key of [state["outputs"]] that receives the output of a step. *)
Definition output_key (s : Step) : string :=
  match s with
  | CreativeDirection => "creative_brief"
  | ScriptAnalysis => "script_analysis"
  | VisualDesign => "visual_design"
  | AudioProduction => "audio_output"
  | VideoEditing => "video_output"
  | QualityAssurance => "qa_result"
  end.

(** [self.state] *)
Record WorkflowState : Type := mkState {
  status : string;
  current_step : option string;
  outputs : dict;
  errors : list string
}.

(** What [generate_advertisement] returns. *)
Inductive Result : Type :=
| Success (video_path duration quality_score approved : json)
          (processing_time_seconds : Q)
          (metadata : dict)
| Failure (error : string) (state : WorkflowState).

Definition success (r : Result) : bool :=
  match r with Success _ _ _ _ _ _ => true | Failure _ _ => false end.

(** A JSON document written by [_save_workflow_state]. *)
Record Document : Type := mkDocument {
  doc_path : string;
  doc_state : WorkflowState;
  doc_result : Result
}.

(** The arguments of [generate_advertisement]. *)
Record Args : Type := mkArgs {
  product_description : string;
  script : string;
  image_paths : list string;
  target_audience : string;
  target_duration : Z;
  brand_guidelines : option dict
}.

(** The world as one run meets it: what each agent does on the input it is
    given, the clock, and the file system taking the document or refusing
    it with an exception. *)
Record Env : Type := mkEnv {
  agent : Step -> json -> outcome json;
  elapsed_seconds : Q;
  timestamp : string;
  write_refused : string -> option exn
}.

(** The orchestrator object and what it has done: its [state], the records
    of its logger, the documents it has written, and the calls it has made
    to its agents, each with the input it passed. *)
Record Orch : Type := mkOrch {
  state : WorkflowState;
  log : list (level * string);
  files : list Document;
  invoked : list (Step * json)
}.

(** [__init__] *)
Definition __init__ : Orch :=
  mkOrch (mkState "initialized" None [] []) [] [] [].

Definition with_state (f : WorkflowState -> WorkflowState) : M Orch unit :=
  modify (fun o => mkOrch (f (state o)) (log o) (files o) (invoked o)).

(** [self.logger.info], [.warning], [.error] *)
Definition logger (lv : level) (msg : string) : M Orch unit :=
  modify (fun o => mkOrch (state o) (log o ++ [(lv, msg)]) (files o) (invoked o)).

(** [self.state["current_step"] = name] *)
Definition set_current_step (name : string) : M Orch unit :=
  with_state (fun st => mkState (status st) (Some name) (outputs st) (errors st)).

(** [self.state["outputs"][key] = value] *)
Definition set_output (key : string) (value : json) : M Orch unit :=
  with_state (fun st =>
    mkState (status st) (current_step st) (Py.dict_set (outputs st) key value)
            (errors st)).

(** [self.state["errors"].append(msg)] *)
Definition append_error (msg : string) : M Orch unit :=
  with_state (fun st =>
    mkState (status st) (current_step st) (outputs st) (errors st ++ [msg])).

(** [len(v)] *)
Definition len (v : json) : outcome Z :=
  match v with
  | JStr s => Returned (Z.of_nat (Py.len_str s))
  | JArr l => Returned (Z.of_nat (List.length l))
  | JObj d => Returned (Z.of_nat (List.length d))
  | _ => Raised (Exn TypeError
           ("object of type '" ++ Py.type_name v ++ "' has no len()"))
  end.

Section Run.

Context {lib : PyLib}.

Variable env : Env.

Local Open Scope py_scope.

(** [self.<agent>.process(input_data)] *)
Definition process (s : Step) (input_data : json) : M Orch json :=
  modify (fun o => mkOrch (state o) (log o) (files o)
                          (invoked o ++ [(s, input_data)])) ;;;
  lift (agent env s input_data).

(** [_save_workflow_state(result)] *)
Definition _save_workflow_state (result : Result) : M Orch unit :=
  let output_dir := "data/output/workflows" in
  let state_file := output_dir ++ "/" ++ "workflow_" ++ timestamp env ++ ".json" in
  match write_refused env state_file with
  | Some e => raise e
  | None =>
      modify (fun o => mkOrch (state o) (log o)
                         (files o ++ [mkDocument state_file (state o) result])
                         (invoked o)) ;;;
      logger INFO ("Workflow state saved: " ++ state_file)
  end.

(** [generate_advertisement(...)] *)
Definition generate_advertisement (a : Args) : M Orch Result :=
  logger INFO "Starting advertisement generation workflow" ;;;
  try_except
    ((* Step 1: Creative Direction *)
     logger INFO "Step 1: Creating creative brief" ;;;
     set_current_step "creative_direction" ;;;
     creative_brief <- process CreativeDirection
       (JObj [("product_description", JStr (product_description a));
              ("target_audience", JStr (target_audience a));
              ("brand_guidelines",
                match brand_guidelines a with Some g => JObj g | None => JNull end);
              ("script", JStr (script a))]) ;;
     set_output "creative_brief" creative_brief ;;;
     logger INFO "✓ Creative brief completed" ;;;

     (* Step 2: Script Analysis *)
     logger INFO "Step 2: Analyzing script" ;;;
     set_current_step "script_analysis" ;;;
     script_analysis <- process ScriptAnalysis
       (JObj [("script", JStr (script a));
              ("creative_brief", creative_brief);
              ("target_duration", JInt (target_duration a))]) ;;
     set_output "script_analysis" script_analysis ;;;
     scenes_raw <- lift (Py.get script_analysis "scenes" (JArr [])) ;;
     let scenes := Py.or_ scenes_raw (JArr []) in
     n <- lift (len scenes) ;;
     logger INFO ("✓ Script analyzed into " ++ Py.str_of_int n ++ " scenes") ;;;

     (* Step 3: Visual Design *)
     logger INFO "Step 3: Processing visuals" ;;;
     set_current_step "visual_design" ;;;
     visual_design <- process VisualDesign
       (JObj [("images", JArr (map JStr (image_paths a)));
              ("scene_requirements", scenes);
              ("creative_brief", creative_brief)]) ;;
     set_output "visual_design" visual_design ;;;
     logger INFO "✓ Visual design completed" ;;;

     (* Step 4: Audio Production *)
     logger INFO "Step 4: Generating audio" ;;;
     set_current_step "audio_production" ;;;
     voiceover_raw <- lift (Py.get script_analysis "voiceover_instructions" (JObj [])) ;;
     music_style <- lift (Py.get creative_brief "music_style" (JStr "upbeat")) ;;
     audio_output <- process AudioProduction
       (JObj [("script", JStr (script a));
              ("voiceover_instructions", Py.or_ voiceover_raw (JObj []));
              ("music_style", music_style);
              ("scenes", scenes);
              ("duration", JInt (target_duration a))]) ;;
     set_output "audio_output" audio_output ;;;
     logger INFO "✓ Audio production completed" ;;;

     (* Step 5: Video Editing *)
     logger INFO "Step 5: Assembling video" ;;;
     set_current_step "video_editing" ;;;
     scene_visuals <- lift (Py.get visual_design "scene_visuals" (JObj [])) ;;
     image_analysis <- lift (Py.get visual_design "image_analysis" (JArr [])) ;;
     voiceover_path <- lift (Py.get audio_output "voiceover_path" JNull) ;;
     video_output <- process VideoEditing
       (JObj [("scenes", scenes);
              ("scene_visuals", scene_visuals);
              ("image_analysis", image_analysis);
              ("voiceover_path", voiceover_path);
              ("fps", JInt 30)]) ;;
     set_output "video_output" video_output ;;;
     video_path <- lift (Py.get video_output "video_path" JNull) ;;
     logger INFO ("✓ Video assembled: " ++ str_of_value video_path) ;;;

     (* Step 6: Quality Assurance *)
     logger INFO "Step 6: Quality review" ;;;
     set_current_step "quality_assurance" ;;;
     qa_result <- process QualityAssurance
       (JObj [("video_path", video_path);
              ("original_requirements",
                JObj [("product_description", JStr (product_description a));
                      ("target_audience", JStr (target_audience a));
                      ("duration", JInt (target_duration a));
                      ("resolution", JStr "1920x1080");
                      ("fps", JInt 30)]);
              ("creative_brief", creative_brief);
              ("scenes", scenes)]) ;;
     set_output "qa_result" qa_result ;;;
     approved <- lift (Py.get qa_result "approved" (JBool false)) ;;
     score_or_0 <- lift (Py.get qa_result "quality_score" (JInt 0)) ;;
     (if negb (Py.truthy approved) then
        logger WARNING ("QA failed. Score: " ++ str_of_value score_or_0) ;;;
        issues <- lift (Py.get qa_result "issues" (JArr [])) ;;
        logger WARNING ("Issues: " ++ str_of_value issues)
      else ret tt) ;;;
     logger INFO ("✓ QA completed. Score: " ++ str_of_value score_or_0) ;;;

     (* Total time *)
     let duration := elapsed_seconds env in
     video_duration <- lift (Py.get video_output "duration" JNull) ;;
     quality_score <- lift (Py.get qa_result "quality_score" JNull) ;;
     approved' <- lift (Py.get qa_result "approved" JNull) ;;
     let result :=
       Success video_path video_duration quality_score approved'
               (Py.round_ duration 2)
               [("creative_brief", creative_brief);
                ("scenes", scenes);
                ("qa_report", qa_result)] in
     _save_workflow_state result ;;;
     logger INFO ("Advertisement generation completed in "
                  ++ fmt_2f duration ++ " seconds") ;;;
     ret result)
    except_Exception
    (fun e =>
       logger ERROR ("Error in workflow: " ++ exn_str e) ;;;
       append_error (exn_str e) ;;;
       o <- get ;;
       ret (Failure (exn_str e) (state o))).

End Run.

(** What [get_status] returns. *)
Record StatusReport : Type := mkStatus {
  report_status : string;
  report_current_step : option string;
  completed_steps : list string;
  report_errors : list string
}.

(** [get_status()] *)
Definition get_status (o : Orch) : StatusReport :=
  mkStatus (status (state o)) (current_step (state o))
           (Py.dict_keys (outputs (state o))) (errors (state o)).

(** The steps that come before [k] in the pipeline. *)
Definition steps_before (k : Step) : list Step :=
  match k with
  | CreativeDirection => []
  | ScriptAnalysis => [CreativeDirection]
  | VisualDesign => [CreativeDirection; ScriptAnalysis]
  | AudioProduction => [CreativeDirection; ScriptAnalysis; VisualDesign]
  | VideoEditing => [CreativeDirection; ScriptAnalysis; VisualDesign; AudioProduction]
  | QualityAssurance =>
      [CreativeDirection; ScriptAnalysis; VisualDesign; AudioProduction; VideoEditing]
  end.

(** The keys of a dict after [d[k] = v]. *)
Definition add_key (keys : list string) (k : string) : list string :=
  if existsb (String.eqb k) keys then keys else (keys ++ [k])%list.

(** The keys of [outputs] after the outputs of [steps] were stored, in
    that order, in a dict that had [keys]. *)
Definition keys_after (keys : list string) (steps : list Step) : list string :=
  fold_left add_key (map output_key steps) keys.

(** The agent returned on this call. *)
Definition returned (env : Env) (c : Step * json) : Prop :=
  exists v, agent env (fst c) (snd c) = Returned v.

(** The calls a run made to the agents: what [invoked] gained. *)
Definition run_calls (o o' : Orch) : list (Step * json) :=
  skipn (List.length (invoked o)) (invoked o').

(** The run returned a success result. *)
Definition succeeded (run : outcome Result * Orch) : bool :=
  match fst run with
  | Returned r => success r
  | Raised _ => false
  end.

(** Run [generate_advertisement] once per element of [runs], on the same
    orchestrator object. *)
Definition run_all {lib : PyLib} (runs : list (Env * Args)) (o : Orch) : Orch :=
  fold_left (fun o r => snd (generate_advertisement (fst r) (snd r) o)) runs o.

(** The three ways a run ends: every step returned and the document was
    written; a step raised; the code between the steps (or the write of
    the document) raised after step [k] had returned. *)
Definition shape (env : Env) (a : Args) (o : Orch) (r : outcome Result) (o' : Orch)
    : Prop :=
  status (state o') = status (state o)
  /\ exists calls,
       invoked o' = (invoked o ++ calls)%list
       /\ ((exists result,
              r = Returned result /\ success result = true
              /\ map fst calls = pipeline
              /\ Forall (returned env) calls
              /\ errors (state o') = errors (state o)
              /\ Py.dict_keys (outputs (state o'))
                 = keys_after (Py.dict_keys (outputs (state o))) pipeline
              /\ files o'
                 = (files o
                    ++ [mkDocument ("data/output/workflows/workflow_"
                                     ++ timestamp env ++ ".json")%string
                                    (state o') result])%list)
           \/ (exists k input e earlier,
                 calls = (earlier ++ [(k, input)])%list
                 /\ map fst earlier = steps_before k
                 /\ Forall (returned env) earlier
                 /\ agent env k input = Raised e
                 /\ r = Returned (Failure (exn_str e) (state o'))
                 /\ errors (state o') = (errors (state o) ++ [exn_str e])%list
                 /\ Py.dict_keys (outputs (state o'))
                    = keys_after (Py.dict_keys (outputs (state o))) (steps_before k)
                 /\ current_step (state o') = Some (step_name k)
                 /\ files o' = files o)
           \/ (exists k e,
                 map fst calls = (steps_before k ++ [k])%list
                 /\ Forall (returned env) calls
                 /\ r = Returned (Failure (exn_str e) (state o'))
                 /\ errors (state o') = (errors (state o) ++ [exn_str e])%list
                 /\ Py.dict_keys (outputs (state o'))
                    = keys_after (Py.dict_keys (outputs (state o)))
                                 (steps_before k ++ [k])%list
                 /\ files o' = files o)).

End Orchestrator.

(** ** A reference instance of the library interface

    Used to run the model on concrete inputs.  [json_loads] decodes JSON
    text: objects, arrays, texts with the one-letter escapes, integers,
    decimals with fraction and exponent, [true], [false], [null].  It raises
    [ValueError] on an integer of more than 4300 digits and [RecursionError]
    past 994 nested containers, which is where CPython 3.11 gives up when
    called from the top of a script; every other failure is a
    [JSONDecodeError], whose message it does not reproduce.  It does not
    decode [\u] escapes nor the non-finite numbers Python accepts, which no
    example below contains.  The printers cover short decimals and values
    without nested texts that need escaping. *)

Module RefLib.

Definition is_ws (c : ascii) : bool :=
  match nat_of_ascii c with
  | 32%nat | 9%nat | 10%nat | 13%nat => true
  | _ => false
  end.

Fixpoint skip_ws (l : list ascii) : list ascii :=
  match l with
  | c :: r => if is_ws c then skip_ws r else l
  | [] => []
  end.

Definition digit_of (c : ascii) : option Z :=
  let n := nat_of_ascii c in
  if ((48 <=? n) && (n <=? 57))%nat then Some (Z.of_nat (n - 48)) else None.

(** The digits at the head of [l]: their value, their number, the rest. *)
Fixpoint digits (l : list ascii) (acc : Z) (count : nat) : Z * nat * list ascii :=
  match l with
  | c :: r =>
      match digit_of c with
      | Some d => digits r (10 * acc + d) (S count)
      | None => (acc, count, l)
      end
  | [] => (acc, count, [])
  end.

Definition decode_error {A} : outcome A :=
  Raised (Exn JSONDecodeError "Expecting value").

Definition too_many_digits {A} (count : nat) : outcome A :=
  Raised (Exn ValueError
            ("Exceeds the limit (4300 digits) for integer string conversion: value has "
             ++ Py.str_of_int (Z.of_nat count)
             ++ " digits; use sys.set_int_max_str_digits() to increase the limit")).

Definition too_deep {A} (container : string) : outcome A :=
  Raised (Exn RecursionError
            ("maximum recursion depth exceeded while decoding a JSON " ++ container
             ++ " from a unicode string")).

Definition nesting_limit : nat := 994.

(** A JSON number at the head of [l]. *)
Definition number (l : list ascii) : outcome (json * list ascii) :=
  let '(neg, l1) := match l with
                    | "-"%char :: r => (true, r)
                    | _ => (false, l)
                    end in
  let int_part :=
    match l1 with
    | "0"%char :: r => Some (0, 1%nat, r)
    | _ => let '(v, n, r) := digits l1 0 0 in
           match n with O => None | _ => Some (v, n, r) end
    end in
  match int_part with
  | None => decode_error
  | Some (i, int_digits, l2) =>
      let frac :=
        match l2 with
        | "."%char :: r =>
            let '(v, n, r') := digits r 0 0 in
            match n with O => None | _ => Some (v, n, r') end
        | _ => None
        end in
      let l3 := match frac with Some (_, _, r) => r | None => l2 end in
      let expo :=
        match l3 with
        | ("e"%char | "E"%char) :: r =>
            let '(eneg, r1) := match r with
                               | "-"%char :: r' => (true, r')
                               | "+"%char :: r' => (false, r')
                               | _ => (false, r)
                               end in
            let '(v, n, r2) := digits r1 0 0 in
            match n with O => None | _ => Some (if eneg then - v else v, r2) end
        | _ => None
        end in
      let l4 := match expo with Some (_, r) => r | None => l3 end in
      match frac, expo with
      | None, None =>
          if (4300 <? int_digits)%nat then too_many_digits int_digits
          else Returned (JInt (if neg then - i else i), l4)
      | _, _ =>
          let mant := match frac with
                      | Some (f, n, _) =>
                          (inject_Z i + Qmake f (Z.to_pos (10 ^ Z.of_nat n)))%Q
                      | None => inject_Z i
                      end in
          let scaled := match expo with
                        | Some (e, _) =>
                            if e <? 0 then (mant / inject_Z (10 ^ (- e)))%Q
                            else (mant * inject_Z (10 ^ e))%Q
                        | None => mant
                        end in
          Returned (JFloat (Qred (if neg then - scaled else scaled)), l4)
      end
  end.

(** The characters of a JSON text after its opening quote. *)
Fixpoint text (l : list ascii) (acc : list ascii) : option (string * list ascii) :=
  match l with
  | [] => None
  | c :: r =>
      if Ascii.eqb c (ascii_of_nat 34) then
        Some (string_of_list_ascii (rev acc), r)
      else if Ascii.eqb c (ascii_of_nat 92) then
        match r with
        | e :: r' =>
            let n := nat_of_ascii e in
            let plain (x : nat) := text r' (ascii_of_nat x :: acc) in
            if (n =? 34)%nat then plain 34%nat
            else if (n =? 92)%nat then plain 92%nat
            else if (n =? 47)%nat then plain 47%nat
            else if (n =? 98)%nat then plain 8%nat
            else if (n =? 102)%nat then plain 12%nat
            else if (n =? 110)%nat then plain 10%nat
            else if (n =? 114)%nat then plain 13%nat
            else if (n =? 116)%nat then plain 9%nat
            else None
        | [] => None
        end
      else if (nat_of_ascii c <? 32)%nat then None
      else text r (c :: acc)
  end.

Definition expect (c : ascii) (l : list ascii) : option (list ascii) :=
  match l with
  | x :: r => if Ascii.eqb x c then Some r else None
  | [] => None
  end.

Definition literal (word : string) (v : json) (l : list ascii)
    : outcome (json * list ascii) :=
  let w := list_ascii_of_string word in
  if Py.starts_with false w l then Returned (v, skipn (List.length w) l)
  else decode_error.

(** [depth] counts the containers that are open. *)
Fixpoint value (fuel : nat) (depth : nat) (l : list ascii)
    : outcome (json * list ascii) :=
  match fuel with
  | O => decode_error
  | S fuel' =>
      match l with
      | [] => decode_error
      | c :: r =>
          let n := nat_of_ascii c in
          if (n =? 34)%nat then
            match text r [] with
            | Some (s, r') => Returned (JStr s, r')
            | None => decode_error
            end
          else if (n =? 123)%nat then
            if (nesting_limit <=? depth)%nat then too_deep "object" else
            match skip_ws r with
            | x :: r' =>
                if (nat_of_ascii x =? 125)%nat then Returned (JObj [], r')
                else members fuel' (S depth) (x :: r') []
            | [] => decode_error
            end
          else if (n =? 91)%nat then
            if (nesting_limit <=? depth)%nat then too_deep "array" else
            match skip_ws r with
            | x :: r' =>
                if (nat_of_ascii x =? 93)%nat then Returned (JArr [], r')
                else elements fuel' (S depth) (x :: r') []
            | [] => decode_error
            end
          else if (n =? 110)%nat then literal "null" JNull l
          else if (n =? 116)%nat then literal "true" (JBool true) l
          else if (n =? 102)%nat then literal "false" (JBool false) l
          else number l
      end
  end
with members (fuel : nat) (depth : nat) (l : list ascii) (acc : dict)
    : outcome (json * list ascii) :=
  match fuel with
  | O => decode_error
  | S fuel' =>
      match expect (ascii_of_nat 34) l with
      | None => decode_error
      | Some r =>
          match text r [] with
          | None => decode_error
          | Some (k, r1) =>
              match expect ":"%char (skip_ws r1) with
              | None => decode_error
              | Some r2 =>
                  match value fuel' depth (skip_ws r2) with
                  | Raised e => Raised e
                  | Returned (v, r3) =>
                      let acc' := Py.dict_set acc k v in
                      match skip_ws r3 with
                      | x :: r4 =>
                          if (nat_of_ascii x =? 125)%nat then Returned (JObj acc', r4)
                          else if (nat_of_ascii x =? 44)%nat then
                            members fuel' depth (skip_ws r4) acc'
                          else decode_error
                      | [] => decode_error
                      end
                  end
              end
          end
      end
  end
with elements (fuel : nat) (depth : nat) (l : list ascii) (acc : list json)
    : outcome (json * list ascii) :=
  match fuel with
  | O => decode_error
  | S fuel' =>
      match value fuel' depth l with
      | Raised e => Raised e
      | Returned (v, r) =>
          match skip_ws r with
          | x :: r' =>
              if (nat_of_ascii x =? 93)%nat then Returned (JArr (rev (v :: acc)), r')
              else if (nat_of_ascii x =? 44)%nat then
                elements fuel' depth (skip_ws r') (v :: acc)
              else decode_error
          | [] => decode_error
          end
      end
  end.

Definition loads (s : string) : outcome json :=
  let l := list_ascii_of_string s in
  match value (2 * List.length l + 2) 0 (skip_ws l) with
  | Returned (v, r) => match skip_ws r with [] => Returned v | _ => decode_error end
  | Raised e => Raised e
  end.

(** [float(text)] on a plain decimal, white space around it allowed. *)
Definition to_float (s : string) : option Q :=
  let l := list_ascii_of_string (Py.strip s) in
  let l' := match l with "+"%char :: r => r | _ => l end in
  match number l' with
  | Returned (v, []) => Some (Py.number_value v)
  | _ => None
  end.

(** The decimal digits of [num / den] after the point, at most [n]. *)
Fixpoint fraction_digits (n : nat) (num den : Z) : list Z :=
  match n with
  | O => []
  | S n' =>
      if num =? 0 then []
      else (10 * num / den) :: fraction_digits n' (10 * num mod den) den
  end.

Definition digits_text (ds : list Z) : string :=
  String.concat EmptyString (map Py.str_of_int ds).

(** [str(x)] of a float with a short decimal expansion. *)
Definition float_text (q : Q) : string :=
  let n := Z.abs (Qnum q) in
  let d := Zpos (Qden q) in
  let frac := fraction_digits 17 (n mod d) d in
  (if Qnum q <? 0 then "-" else EmptyString)
  ++ Py.str_of_int (n / d) ++ "."
  ++ match frac with [] => "0" | _ => digits_text frac end.

(** [f"{x:.2f}"] of the float that [q] names. *)
Definition two_decimals (q : Q) : string :=
  match F64.of_Q q with
  | S754_infinity negative => if negative then "-inf" else "inf"
  | x =>
      let r := Py.round_half_even (F64.to_Q x * 100) in
      let n := Z.abs r in
      (if Qnum q <? 0 then "-" else EmptyString)
      ++ Py.str_of_int (n / 100) ++ "."
      ++ Py.str_of_int (n mod 100 / 10) ++ Py.str_of_int (n mod 10)
  end.

(** [repr(v)], with a text between apostrophes. *)
Fixpoint repr (v : json) : string :=
  match v with
  | JNull => "None"
  | JBool true => "True"
  | JBool false => "False"
  | JInt z => Py.str_of_int z
  | JFloat q => float_text q
  | JStr s => "'" ++ s ++ "'"
  | JArr l => "[" ++ String.concat ", " (map repr l) ++ "]"
  | JObj d =>
      "{" ++ String.concat ", "
               (map (fun kv => "'" ++ fst kv ++ "': " ++ repr (snd kv)) d)
      ++ "}"
  end.

(** [str(v)]: a text is itself, any other value is its [repr]. *)
Definition to_str (v : json) : string :=
  match v with
  | JStr s => s
  | _ => repr v
  end.

#[export] Instance reference : PyLib := {|
  json_loads := loads;
  float_of_str := to_float;
  str_of_float := float_text;
  fmt_2f := two_decimals;
  str_of_value := to_str
|}.

(** Apostrophes stand for double quotes in the JSON texts of the examples. *)
Definition dq (s : string) : string :=
  string_of_list_ascii
    (map (fun c => if Ascii.eqb c "'" then ascii_of_nat 34 else c)
         (list_ascii_of_string s)).

End RefLib.

(** ** Worked inputs

    Concrete analyses, reviews and runs on which the model is evaluated. *)

Module Examples.
(** A script analysis whose two scenes run 15 s and [last_duration]. *)
Definition first_scene : json :=
  JObj [("scene_id", JStr "scene_1"); ("start_time", JInt 0);
        ("end_time", JInt 15); ("duration", JInt 15)].

Definition second_scene (last_duration : Q) : dict :=
  [("scene_id", JStr "scene_2"); ("start_time", JInt 15);
   ("end_time", JFloat (15 + last_duration)); ("duration", JFloat last_duration)].

Definition two_scenes (last_duration : Q) : dict :=
  [("total_duration", JInt 30);
   ("scenes", JArr [first_scene; JObj (second_scene last_duration)])].



(** Three scenes of 5.4 s, 12.8 s and 12.8 s for a target of 30 s: one
    second over as written. *)
Definition three_scenes : dict :=
  [("total_duration", JInt 30);
   ("scenes",
     JArr [JObj [("scene_id", JStr "scene_1"); ("duration", JFloat (54 # 10))];
           JObj [("scene_id", JStr "scene_2"); ("duration", JFloat (128 # 10))];
           JObj [("scene_id", JStr "scene_3"); ("duration", JFloat (128 # 10))]])].

(** A scene of 31 s and one of 1e-18 s for a target of 30 s: more than
    one second over as written. *)
Definition overlong_scene : json :=
  JObj [("scene_id", JStr "scene_1"); ("duration", JInt 31)].

Definition fleeting_scene : dict :=
  [("scene_id", JStr "scene_2");
   ("duration", JFloat (1 # 1000000000000000000))].

Definition long_and_fleeting : dict :=
  [("total_duration", JInt 30);
   ("scenes", JArr [overlong_scene; JObj fleeting_scene])].

(** A scene of 100000000000000000 s and one of 0.3 s for a target of the
    former. *)
Definition endless_analysis : dict :=
  [("total_duration", JInt 100000000000000000);
   ("scenes",
     JArr [JObj [("scene_id", JStr "scene_1");
                 ("duration", JInt 100000000000000000)];
           JObj [("scene_id", JStr "scene_2"); ("duration", JFloat (3 # 10))]])].

(** A review of a video that is on disk and sound, with [reply] as the
    answer of the model. *)
Definition review_env (reply : string) : QA.Env :=
  QA.mkEnv (fun p => String.eqb p "data/output/videos/final_ad.mp4")
           (fun _ => false)
           (fun _ => Returned 5242880%Z)
           (fun _ => Returned (QA.mkClip (Some 30%Q) (Some 30%Q) 1920 1080 true))
           (fun _ _ _ => Returned reply).

Definition review_input : dict :=
  [("video_path", JStr "data/output/videos/final_ad.mp4");
   ("original_requirements",
     JObj [("duration", JInt 30); ("resolution", JStr "1920x1080");
           ("fps", JInt 30)])].

Definition rubric_reply : string :=
  RefLib.dq "{'scores': {'message_clarity': 8, 'pacing': 6.5}, 'suggestions': ['Shorten the intro']}".

Definition percent_rubric_reply : string :=
  RefLib.dq "{'scores': {'overall_effectiveness': 50.1}}".

(** What each agent returns in a run that goes well. *)
Definition canned_output (s : Orchestrator.Step) : json :=
  match s with
  | Orchestrator.CreativeDirection =>
      JObj [("creative_concept", JStr "Morning energy"); ("music_style", JStr "upbeat")]
  | Orchestrator.ScriptAnalysis => JObj (two_scenes 15)
  | Orchestrator.VisualDesign =>
      JObj [("image_analysis", JArr []);
            ("scene_visuals", JObj [("scene_matches", JArr [])]);
            ("processing_instructions", JArr [])]
  | Orchestrator.AudioProduction =>
      JObj [("voiceover_path", JStr "data/output/audio/voiceover_1.mp3")]
  | Orchestrator.VideoEditing =>
      JObj [("video_path", JStr "data/output/videos/final_ad.mp4");
            ("duration", JFloat 30)]
  | Orchestrator.QualityAssurance =>
      JObj [("approved", JBool true); ("quality_score", JFloat (86 # 100))]
  end.

(** A world in which every agent returns its canned output, but for the
    step [fails_at], whose delegated call raises. *)
Definition studio (fails_at : option Orchestrator.Step) : Orchestrator.Env :=
  Orchestrator.mkEnv
    (fun s _ =>
       match fails_at with
       | Some f => if Orchestrator.Step_eqb f s
                   then Raised (Exn OtherError "Connection error.")
                   else Returned (canned_output s)
       | None => Returned (canned_output s)
       end)
    (125 # 10) "20260101_120000" (fun _ => None).

Definition coffee_ad : Orchestrator.Args :=
  Orchestrator.mkArgs "A cold brew coffee" "Wake up. Order today."
    ["data/input/can.png"] "General consumers" 30 None.

End Examples.

(** * The rest of the agents *)

(** ** What the parsers come to *)

(** What the two attempts of a parser come to: the whole cleaned text if it
    parses; when that raises [JSONDecodeError], the braced part if it
    parses, else the fallback.  An exception of the first attempt other than
    [JSONDecodeError] escapes; so does one of the second attempt when
    [strict], that is when the second [except] clause names
    [json.JSONDecodeError] (creative director) and not [Exception] (visual
    designer, QA agent). *)
Definition first_success {lib : PyLib} (strict : bool) (response : string)
    (fallback : json) : outcome json :=
  match json_loads (clean response) with
  | Returned v => Returned v
  | Raised e =>
      if except_JSONDecodeError e then
        match braced (clean response) with
        | Some inner =>
            match json_loads inner with
            | Returned v => Returned v
            | Raised e' =>
                if strict && negb (except_JSONDecodeError e') then Raised e'
                else Returned fallback
            end
        | None => Returned fallback
        end
      else Raised e
  end.

(** Neither attempt succeeds on [response], and the parser comes to its
    fallback: the first raises [JSONDecodeError], the second is not made or
    raises. *)
Definition both_attempts_fail {lib : PyLib} (response : string) : bool :=
  match json_loads (clean response) with
  | Returned _ => false
  | Raised e =>
      except_JSONDecodeError e
      && match braced (clean response) with
         | Some inner =>
             match json_loads inner with Returned _ => false | Raised _ => true end
         | None => true
         end
  end.

(** The second attempt was made and raised [JSONDecodeError]. *)
Definition braced_attempt_fails {lib : PyLib} (response : string) : bool :=
  match json_loads (clean response) with
  | Returned _ => false
  | Raised e =>
      except_JSONDecodeError e
      && match braced (clean response) with
         | Some inner =>
             match json_loads inner with
             | Returned _ => false
             | Raised e' => except_JSONDecodeError e'
             end
         | None => false
         end
  end.

Definition log_if (b : bool) (lv : level) (msg : string) (w : AgentWorld) : AgentWorld :=
  if b then mkAgentWorld (agent_log w ++ [(lv, msg)]) (agent_calls w) else w.

(** What [json.loads] gives the script analyzer: the analysis it parses out
    of a reply, none when both attempts raise [JSONDecodeError], or the
    other exception that [json.loads] raises. *)
Definition parsed_analysis {lib : PyLib} (response : string) : outcome (option json) :=
  match json_loads (clean response) with
  | Returned v => Returned (Some v)
  | Raised e =>
      if except_JSONDecodeError e then
        match braced (clean response) with
        | Some inner =>
            match json_loads inner with
            | Returned v => Returned (Some v)
            | Raised e' =>
                if except_JSONDecodeError e' then Returned None else Raised e'
            end
        | None => Returned None
        end
      else Raised e
  end.

(** The record the script analyzer logs when its second attempt fails. *)
Definition parse_error_record {lib : PyLib} (response : string) : list (level * string) :=
  match braced (clean response) with
  | Some inner =>
      match json_loads inner with
      | Raised e' => [(ERROR, "JSON parse error: " ++ exn_str e')]
      | Returned _ => []
      end
  | None => []
  end.

(** ** Replies inside a markdown fence *)

(** A reply wrapped in a markdown fence, with or without the json tag: the
    characters of the fence, the tag, a newline, the payload, a newline and
    the closing fence. *)
Definition fenced (tagged : bool) (payload : list ascii) : string :=
  string_of_list_ascii
    (Py.fence ++ (if tagged then list_ascii_of_string "json" else [])
     ++ ["010"%char] ++ payload ++ ["010"%char] ++ Py.fence)%list.

(** ** Quality assurance: sizes, rubrics, recommendations *)

(** The issues [_check_technical_quality] raises on the size of the file. *)
Definition size_issues (size : Z) : list string :=
  let file_size_mb := Py.round_ (inject_Z size / inject_Z (1024 * 1024)) 3 in
  if Py.Qltb file_size_mb (1 # 10) then
    ["Video file is too small - may be corrupted"]
  else if Py.Qgtb file_size_mb 200 then
    ["Video file is very large - consider compression"]
  else [].

(** No two elements of the list are equal in the sense of [==]: each one
    differs from all those before it. *)
Fixpoint all_distinct (l : list json) : bool :=
  match l with
  | [] => true
  | x :: r => negb (existsb (fun y => QA.py_eq y x) r) && all_distinct r
  end.


(** ** Script analysis: what is left alone *)

(** The analysis gives nothing to validate: no scene list, or no numeric
    target. *)
Definition nothing_to_validate (d : dict) : bool :=
  match Py.dict_get d "scenes" with
  | Some (JArr _) => negb (Py.is_number (Py.dict_get_default d "total_duration" JNull))
  | _ => true
  end.

(** ** More of the Python library *)

(** [s.lower()] *)
Definition str_lower (s : string) : string :=
  string_of_list_ascii (map Py.lower (list_ascii_of_string s)).


(** [int(v)].  [int_of_str] is [int] on a text, a function of the Python
    library: [None] when it raises [ValueError].  A float is cut towards
    zero. *)
Definition py_int (int_of_str : string -> option Z) (v : json) : outcome Z :=
  match v with
  | JInt z => Returned z
  | JBool b => Returned (if b then 1 else 0)
  | JFloat q => Returned (Z.quot (Qnum q) (Zpos (Qden q)))
  | JStr s =>
      match int_of_str s with
      | Some z => Returned z
      | None => Raised (Exn ValueError
                  ("invalid literal for int() with base 10: '" ++ s ++ "'"))
      end
  | _ => Raised (Exn TypeError
           ("int() argument must be a string, a bytes-like object or a real number, not '"
            ++ Py.type_name v ++ "'"))
  end.

(** [os.path.basename(path)] on a POSIX path: what follows the last slash. *)
Fixpoint basename_chars (l acc : list ascii) : list ascii :=
  match l with
  | [] => acc
  | c :: r => if Ascii.eqb c "/" then basename_chars r [] else basename_chars r (acc ++ [c])
  end.

Definition basename (path : string) : string :=
  string_of_list_ascii (basename_chars (list_ascii_of_string path) []).

(** ** src/agents/base_agent.py, src/agents/audio_producer.py: construction *)

Module AgentInit.

(** The process environment, [os.getenv]. *)
Definition Environ : Type := string -> option string.

(** [not value] for what [os.getenv] returns: unset or empty. *)
Definition unset (value : option string) : bool :=
  match value with
  | None => true
  | Some s => String.eqb s EmptyString
  end.

(** The fields [BaseAgent.__init__] sets. *)
Record Agent : Type := mkAgent { name : string; model : string }.

(** [BaseAgent.__init__(name, model)].  The client object and the logging
    set-up are the library's. *)
Definition base_init (getenv : Environ) (name : string) : M AgentWorld Agent :=
  let api_key := getenv "ANTHROPIC_API_KEY" in
  if unset api_key then
    raise (Exn OSError "ANTHROPIC_API_KEY is not set. Add it to your .env file.")
  else ret (mkAgent name "claude-sonnet-4-5-20250929").

(** The fields [AudioProducerAgent.__init__] adds; [eleven_client] says
    whether the client was created. *)
Record AudioProducer : Type := mkAudioProducer {
  base : Agent;
  elevenlabs_api_key : option string;
  voice_provider : string;
  eleven_client : bool
}.

Local Open Scope py_scope.

(** [AudioProducerAgent.__init__()].  [importable] says whether the import
    of the ElevenLabs client at the top of the file succeeded. *)
Definition audio_producer_init (getenv : Environ) (importable : bool)
    : M AgentWorld AudioProducer :=
  agent <- base_init getenv "AudioProducer" ;;
  let elevenlabs_api_key := getenv "ELEVENLABS_API_KEY" in
  let voice_provider :=
    match getenv "VOICE_PROVIDER" with Some p => p | None => "gtts" end in
  (* Initialize ElevenLabs client if available + key exists *)
  if String.eqb (str_lower voice_provider) "elevenlabs" then
    if unset elevenlabs_api_key then
      logger WARNING
        "VOICE_PROVIDER=elevenlabs but ELEVENLABS_API_KEY is not set. Falling back to gtts." ;;;
      ret (mkAudioProducer agent elevenlabs_api_key "gtts" false)
    else if negb importable then
      logger WARNING "elevenlabs package not importable. Falling back to gtts." ;;;
      ret (mkAudioProducer agent elevenlabs_api_key "gtts" false)
    else ret (mkAudioProducer agent elevenlabs_api_key voice_provider true)
  else ret (mkAudioProducer agent elevenlabs_api_key voice_provider false).

End AgentInit.

(** ** src/agents/creative_director.py: the step itself *)

Module CreativeDirectorAgent.
Section Agent.
Context {lib : PyLib}.

Local Open Scope py_scope.

Definition required_keys : list string :=
  ["creative_concept"; "visual_style"; "mood"; "color_palette"; "key_messages";
   "target_emotion"; "storyboard_outline"; "music_style"; "pacing"].

(** [[k for k in keys if k not in creative_brief]] *)
Fixpoint missing_keys (creative_brief : json) (keys : list string)
    : outcome (list string) :=
  match keys with
  | [] => Returned []
  | k :: rest =>
      match Py.contains creative_brief k with
      | Raised e => Raised e
      | Returned present =>
          match missing_keys creative_brief rest with
          | Raised e => Raised e
          | Returned missing => Returned (if present then missing else k :: missing)
          end
      end
  end.

(** [process(input_data)].  [reply] is what [call_llm] does on the prompt of
    [_build_creative_prompt], which interpolates the input and cannot
    raise once the two required fields are there. *)
Definition process (input_data : dict) (reply : outcome string) : M AgentWorld json :=
  BaseAgent.validate_input input_data ["product_description"; "target_audience"] ;;;
  response <- BaseAgent.call_llm reply ;;
  creative_brief <- CreativeDirector._parse_creative_response response ;;
  (* Minimal schema check (keeps downstream agents safe) *)
  missing <- lift (missing_keys creative_brief required_keys) ;;
  match missing with
  | [] => ret creative_brief
  | _ =>
      logger WARNING ("Creative brief missing keys: "
                      ++ str_of_value (JArr (map JStr missing))) ;;;
      lift (Py.setitem creative_brief "_missing_keys" (JArr (map JStr missing)))
  end.

End Agent.
End CreativeDirectorAgent.

(** ** src/agents/script_analyzer.py: the step itself *)

Module ScriptAnalyzerAgent.
Section Agent.
Context {lib : PyLib}.
Variable int_of_str : string -> option Z.

Local Open Scope py_scope.

(** [analysis.setdefault(k, v)] *)
Definition setdefault (analysis : json) (k : string) (v : json) : outcome json :=
  match analysis with
  | JObj d => Returned (JObj (Py.dict_setdefault d k v))
  | _ => Raised (Exn AttributeError
           ("'" ++ Py.type_name analysis ++ "' object has no attribute 'setdefault'"))
  end.

(** The five [setdefault] of [process]; [target] is
    [input_data.get("target_duration", 30)]. *)
Definition with_defaults (d : dict) (target : json) : dict :=
  Py.dict_setdefault
    (Py.dict_setdefault
       (Py.dict_setdefault
          (Py.dict_setdefault
             (Py.dict_setdefault d "scenes" (JArr []))
             "visual_requirements" (JArr []))
          "voiceover_instructions" (JObj []))
       "call_to_action" (JObj []))
    "total_duration" target.

(** [process(input_data)].  Of [_build_analysis_prompt] the model keeps what
    can raise, [int(input_data.get("target_duration", 30))]; [reply] is what
    [call_llm] does on the prompt. *)
Definition process (input_data : dict) (reply : outcome string) : M AgentWorld json :=
  BaseAgent.validate_input input_data ["script"] ;;;
  _ <- lift (py_int int_of_str (Py.dict_get_default input_data "target_duration" (JInt 30))) ;;
  response <- BaseAgent.call_llm reply ;;
  analysis <- ScriptAnalyzer._parse_analysis_response response ;;
  (* Minimal schema safety (downstream protection) *)
  a1 <- lift (setdefault analysis "scenes" (JArr [])) ;;
  a2 <- lift (setdefault a1 "visual_requirements" (JArr [])) ;;
  a3 <- lift (setdefault a2 "voiceover_instructions" (JObj [])) ;;
  a4 <- lift (setdefault a3 "call_to_action" (JObj [])) ;;
  lift (setdefault a4 "total_duration"
          (Py.dict_get_default input_data "target_duration" (JInt 30))).

End Agent.
End ScriptAnalyzerAgent.

(** [os.path.exists(p)]: false on a path that is not there, [TypeError] on
    a value that is no path; an integer is taken as a file descriptor. *)
Definition os_path_exists (file_exists : string -> bool) (fd_exists : Z -> bool)
    (p : json) : outcome bool :=
  match p with
  | JStr s => Returned (file_exists s)
  | JInt n => Returned (fd_exists n)
  | JBool b => Returned (fd_exists (if b then 1 else 0))
  | _ => Raised (Exn TypeError
           ("stat: path should be string, bytes, os.PathLike or integer, not "
            ++ Py.type_name p))
  end.

(** ** src/agents/visual_designer.py: the step itself *)

Module VisualDesignerAgent.

(** What [Image.open(path)] exposes. *)
Record Image : Type := mkImage {
  width : Z;
  height : Z;
  format : json
}.

(** The file system and the image library as one call of the step meets
    them, and the reply of the model to the matching prompt. *)
Record Env : Type := mkEnv {
  file_exists : string -> bool;
  fd_exists : Z -> bool;
  Image_open : json -> outcome Image;
  match_reply : list json -> json -> json -> outcome string
}.

Section Agent.
Context {lib : PyLib}.
Variable env : Env.

Local Open Scope py_scope.

(** [_describe_image(image_path, width, height)] *)
Definition _describe_image (image_path : string) (width height : Z) : string :=
  let filename := basename image_path in
  filename ++ " (" ++ Py.str_of_int width ++ "x" ++ Py.str_of_int height ++ ")".

(** The dict [_analyze_images] appends for an image it could open;
    [os.path.basename] raises on a path that is no text. *)
Definition analysis_of (img_path : json) (img : Image) : outcome json :=
  match img_path with
  | JStr path =>
      let aspect_ratio :=
        if height img =? 0 then JNull
        else JFloat (Py.round_ (inject_Z (width img) / inject_Z (height img)) 4) in
      Returned
        (JObj [("path", img_path);
               ("filename", JStr (basename path));
               ("width", JInt (width img));
               ("height", JInt (height img));
               ("aspect_ratio", aspect_ratio);
               ("description", JStr (_describe_image path (width img) (height img)));
               ("format", format img)])
  | _ => Raised (Exn TypeError
           ("expected str, bytes or os.PathLike object, not "
            ++ Py.type_name img_path))
  end.

(** The loop of [_analyze_images(image_paths)] *)
Fixpoint analyze_from (image_paths : list json) (analyses : list json)
    : M AgentWorld (list json) :=
  match image_paths with
  | [] => ret analyses
  | img_path :: rest =>
      analyses' <-
        try_except
          (present <- lift (os_path_exists (file_exists env) (fd_exists env) img_path) ;;
           if negb present then
             logger WARNING ("Image path not found: " ++ str_of_value img_path) ;;;
             ret analyses
           else
             img <- lift (Image_open env img_path) ;;
             analysis <- lift (analysis_of img_path img) ;;
             ret (analyses ++ [analysis])%list)
          except_Exception
          (fun e =>
             logger ERROR ("Error analyzing " ++ str_of_value img_path
                           ++ ": " ++ exn_str e) ;;;
             ret analyses) ;;
      analyze_from rest analyses'
  end.

(** [_analyze_images(image_paths)] *)
Definition _analyze_images (image_paths : list json) : M AgentWorld (list json) :=
  analyze_from image_paths [].

(** The loop of [_create_processing_instructions] *)
Fixpoint instructions_for (matches : list json) : outcome (list json) :=
  match matches with
  | [] => Returned []
  | m :: rest =>
      match Py.get m "scene_id" JNull with
      | Raised e => Raised e
      | Returned scene_id =>
          match Py.get m "image_id" JNull, Py.get m "composition" (JObj []) with
          | Returned image_id, Returned composition =>
              match instructions_for rest with
              | Raised e => Raised e
              | Returned instructions =>
                  Returned (JObj [("scene_id", scene_id);
                                  ("image_id", image_id);
                                  ("processing", composition);
                                  ("priority", JStr "high")]
                            :: instructions)
              end
          | Raised e, _ => Raised e
          | _, Raised e => Raised e
          end
      end
  end.

(** [_create_processing_instructions(scene_visuals)] *)
Definition _create_processing_instructions (scene_visuals : json) : outcome json :=
  match Py.get scene_visuals "scene_matches" (JArr []) with
  | Raised e => Raised e
  | Returned scene_matches =>
      match QA.iterate scene_matches with
      | Raised e => Raised e
      | Returned matches =>
          match instructions_for matches with
          | Raised e => Raised e
          | Returned instructions => Returned (JArr instructions)
          end
      end
  end.

(** [process(input_data)] *)
Definition process (input_data : dict) : M AgentWorld json :=
  BaseAgent.validate_input input_data ["images"; "scene_requirements"] ;;;
  image_paths <- lift (Py.getitem (JObj input_data) "images") ;;
  scene_requirements <- lift (Py.getitem (JObj input_data) "scene_requirements") ;;
  let creative_brief :=
    Py.or_ (Py.dict_get_default input_data "creative_brief" (JObj [])) (JObj []) in
  (* Analyze provided images *)
  paths <- lift (QA.iterate image_paths) ;;
  image_analysis <- _analyze_images paths ;;
  (* Match images to scenes (LLM reasoning step) *)
  scene_visuals <-
    VisualDesigner._match_images_to_scenes
      (match_reply env image_analysis scene_requirements creative_brief) ;;
  (* Create concrete processing instructions for editor *)
  processing_instructions <- lift (_create_processing_instructions scene_visuals) ;;
  ret (JObj [("image_analysis", JArr image_analysis);
             ("scene_visuals", scene_visuals);
             ("processing_instructions", processing_instructions)]).

End Agent.
End VisualDesignerAgent.

(** ** src/agents/video_editor.py *)

Module VideoEditorAgent.

(** A clip as [_create_video_clips] builds it: the image it shows, how long,
    the factor [_fit_to_1080p] scaled it by before the crop to 1920x1080,
    and the length of its fade-in if it has one. *)
Record Clip : Type := mkClip {
  clip_image : json;
  clip_duration : Q;
  clip_scale : F64.t;
  clip_fadein : option Q
}.

(** The file system and the media library: [ImageClip(path)] returns a clip
    of the size of the image, or raises. *)
Record Env : Type := mkEnv {
  file_exists : string -> bool;
  fd_exists : Z -> bool;
  ImageClip : json -> outcome (Z * Z)
}.

Section Agent.
Context {lib : PyLib}.
Variable int_of_str : string -> option Z.
Variable env : Env.

Local Open Scope py_scope.







End Agent.
End VideoEditorAgent.

(** ** src/main.py *)

Module Main.

Local Open Scope py_scope.

(** The loop of [validate_inputs] over the image paths: the first one that
    is not there, if any. *)
Definition first_missing (file_exists : string -> bool) (image_paths : list string)
    : option string :=
  List.find (fun p => negb (file_exists p)) image_paths.

(** [validate_inputs(image_paths, script)] *)
Definition validate_inputs (file_exists : string -> bool)
    (image_paths : list string) (script : string) : M AgentWorld bool :=
  match first_missing file_exists image_paths with
  | Some img_path =>
      logger ERROR ("Image not found: " ++ img_path) ;;;
      ret false
  | None =>
      if negb (Py.truthy (JStr script))
         || (Z.of_nat (Py.len_str (Py.strip script)) <? 10)
      then logger ERROR "Script is too short or empty" ;;; ret false
      else ret true
  end.

End Main.

(** ** Vocabulary for the steps *)

(** The fields [ScriptAnalyzerAgent.process] fills in. *)
Definition analysis_fields : list string :=
  ["scenes"; "visual_requirements"; "voiceover_instructions"; "call_to_action";
   "total_duration"].

(** An image path [_analyze_images] keeps: a text naming a file that is
    there and that the image library opens. *)
Definition readable (env : VisualDesignerAgent.Env) (img_path : json) : bool :=
  match img_path with
  | JStr path =>
      VisualDesignerAgent.file_exists env path
      && match VisualDesignerAgent.Image_open env img_path with
         | Returned _ => true
         | Raised _ => false
         end
  | _ => false
  end.

(** [analysis["path"]] of an image analysis. *)
Definition path_of (analysis : json) : json :=
  match analysis with
  | JObj d => Py.dict_get_default d "path" JNull
  | _ => JNull
  end.

(** [m.get("scene_id")] of a match or an instruction. *)
Definition scene_id_of (m : json) : json :=
  match m with
  | JObj d => Py.dict_get_default d "scene_id" JNull
  | _ => JNull
  end.


(** ** Vocabulary for the runs of the orchestrator *)

Module OrchDefs.
Import Orchestrator.

(** [len(v)] is defined: [v] is a text, a list or a dict. *)
Definition sized (v : json) : bool :=
  match v with
  | JStr _ | JArr _ | JObj _ => true
  | _ => false
  end.

(** Every agent returns a dict on every input. *)
Definition agents_return_dicts (env : Env) : Prop :=
  forall s input, exists d, agent env s input = Returned (JObj d).

(** The scenes of every script analysis have a length: [scenes] is a text,
    a list or a dict, or is missing or falsy. *)
Definition scenes_have_length (env : Env) : Prop :=
  forall input d,
    agent env ScriptAnalysis input = Returned (JObj d) ->
    sized (Py.or_ (Py.dict_get_default d "scenes" (JArr [])) (JArr [])) = true.

(** The path of the document a run writes. *)
Definition state_file (env : Env) : string :=
  "data/output/workflows/workflow_" ++ timestamp env ++ ".json".

(** What a run comes to in which every agent returned a dict and the scenes
    had a length. *)
Definition smooth_run (env : Env) (o : Orch) (r : outcome Result) (o' : Orch) : Prop :=
  exists video_output qa_result : dict,
    Py.dict_get (outputs (state o')) "video_output" = Some (JObj video_output)
    /\ Py.dict_get (outputs (state o')) "qa_result" = Some (JObj qa_result)
    /\ current_step (state o') = Some "quality_assurance"
    /\ map fst (run_calls o o') = pipeline
    /\ match write_refused env (state_file env) with
       | None =>
           (exists metadata,
              r = Returned
                    (Success (Py.dict_get_default video_output "video_path" JNull)
                             (Py.dict_get_default video_output "duration" JNull)
                             (Py.dict_get_default qa_result "quality_score" JNull)
                             (Py.dict_get_default qa_result "approved" JNull)
                             (Py.round_ (elapsed_seconds env) 2)
                             metadata)
              /\ Py.dict_get metadata "qa_report" = Some (JObj qa_result))
           /\ errors (state o') = errors (state o)
       | Some e =>
           r = Returned (Failure (exn_str e) (state o'))
           /\ errors (state o') = (errors (state o) ++ [exn_str e])%list
           /\ files o' = files o
       end.

End OrchDefs.

(** ** More worked inputs *)

Module Cases.
Import Examples.

(** A creative brief as the model may send it: inside a fence, with two of
    the nine keys. *)
Definition brief_payload : string :=
  RefLib.dq "{'creative_concept': 'Morning energy', 'mood': 'warm'}".

Definition short_brief : dict :=
  [("creative_concept", JStr "Morning energy"); ("mood", JStr "warm")].

Definition creative_input : dict :=
  [("product_description", JStr "A cold brew coffee");
   ("target_audience", JStr "General consumers")].

(** A review of a file that is on disk and that the media library cannot
    read. *)
Definition damaged_video_env : QA.Env :=
  QA.mkEnv (fun p => String.eqb p "data/output/videos/final_ad.mp4")
           (fun _ => false)
           (fun _ => Returned 5242880%Z)
           (fun _ => Raised (Exn OSError "MoviePy error: failed to read the duration of file"))
           (fun _ _ _ => Returned "The video could not be assessed.").

Definition chatty_reply : string := "Looks great, ship it.".

(** A reply that is one integer of 4301 digits, one more than the
    interpreter converts, and a reply that holds it inside an object after
    a word of prose. *)
Definition long_integer : string := string_of_list_ascii (repeat "1"%char 4301).

Definition long_integer_in_prose : string :=
  RefLib.dq "Sure: {'views': " ++ long_integer ++ "}".

(** A script of five accented letters, and one of twenty no-break spaces
    (U+00A0). *)
Definition accented_script : string :=
  string_of_list_ascii
    (flat_map (fun _ => [ascii_of_nat 195; ascii_of_nat 169]) (seq 0 5)).

Definition blank_script : string :=
  string_of_list_ascii
    (flat_map (fun _ => [ascii_of_nat 194; ascii_of_nat 160]) (seq 0 20)).

(** The two checks of a review whose rubric has a weak aspect and whose
    suggestions repeat. *)
Definition weak_technical_check : json :=
  JObj [("score", JFloat (75 # 100));
        ("issues", JArr [JStr "Video duration differs from target"])].

Definition repetitive_content_check : json :=
  JObj [("scores", JObj [("pacing", JInt 5); ("message_clarity", JInt 9)]);
        ("suggestions",
          JArr [JStr "Shorten the intro"; JStr "Shorten the intro";
                JStr "Add captions"; JStr "Brighten the product shot";
                JStr "Add captions"; JStr "End on the logo"])].

(** An analysis whose target is a text, and one whose scenes overshoot the
    target by more than the last scene lasts. *)
Definition untimed_analysis : dict :=
  [("total_duration", JStr "30 seconds"); ("scenes", JArr [first_scene])].

Definition long_scene : json :=
  JObj [("scene_id", JStr "scene_1"); ("start_time", JInt 0);
        ("end_time", JFloat (303 # 10)); ("duration", JFloat (303 # 10))].

Definition closing_scene : dict :=
  [("scene_id", JStr "scene_2"); ("start_time", JFloat (303 # 10));
   ("end_time", JFloat (308 # 10)); ("duration", JFloat (5 # 10))].

Definition overshooting_analysis : dict :=
  [("total_duration", JInt 30); ("scenes", JArr [long_scene; JObj closing_scene])].

(** A process environment that asks for ElevenLabs, in mixed case. *)
Definition elevenlabs_environ : AgentInit.Environ :=
  fun k =>
    if String.eqb k "ANTHROPIC_API_KEY" then Some "sk-ant-test"
    else if String.eqb k "VOICE_PROVIDER" then Some "ElevenLabs"
    else if String.eqb k "ELEVENLABS_API_KEY" then Some "el-test"
    else None.

(** [int] on the texts the examples use. *)
Definition small_int (s : string) : option Z :=
  if String.eqb s "0" then Some 0
  else if String.eqb s "30" then Some 30
  else None.

Definition script_input : dict :=
  [("script", JStr "Wake up. Order today."); ("target_duration", JInt 30)].

Definition bare_analysis_reply : string := RefLib.dq "{'scenes': []}".

(** A folder with one image, and a model that answers the matching prompt
    with [reply]. *)
Definition gallery (reply : string) : VisualDesignerAgent.Env :=
  VisualDesignerAgent.mkEnv
    (fun p => String.eqb p "data/input/can.png")
    (fun _ => false)
    (fun _ => Returned (VisualDesignerAgent.mkImage 1200 800 (JStr "PNG")))
    (fun _ _ _ => Returned reply).

Definition visual_input : dict :=
  [("images", JArr [JStr "data/input/can.png"; JStr "data/input/missing.png"]);
   ("scene_requirements", JArr [first_scene])].

Definition null_matches_reply : string := RefLib.dq "{'scene_matches': null}".

Definition apology : string := "Sorry, I cannot match these images.".

Definition matched_visuals : dict :=
  [("scene_matches",
     JArr [JObj [("scene_id", JStr "scene_1"); ("image_id", JInt 0);
                 ("composition", JObj [("crop", JStr "center")])];
           JObj [("scene_id", JStr "scene_2"); ("image_id", JNull)]]);
   ("missing_visuals", JArr [])].




(** A world in which every agent returns its canned output but the review
    rejects the video, and one in which the state file cannot be opened for
    writing. *)
Definition rejected_output (s : Orchestrator.Step) : json :=
  match s with
  | Orchestrator.QualityAssurance =>
      JObj [("approved", JBool false); ("quality_score", JFloat (41 # 100))]
  | _ => canned_output s
  end.

Definition strict_studio : Orchestrator.Env :=
  Orchestrator.mkEnv (fun s _ => Returned (rejected_output s))
    (125 # 10) "20260101_120000" (fun _ => None).

Definition read_only_studio : Orchestrator.Env :=
  Orchestrator.mkEnv (fun s _ => Returned (canned_output s))
    (125 # 10) "20260101_120000"
    (fun path => Some (Exn OSError ("[Errno 13] Permission denied: '" ++ path ++ "'"))).

End Cases.


(** * Properties *)

(** ** Rounding *)

Section Rounding.
Local Open Scope Q_scope.



End Rounding.



(** ** Dictionaries *)

Lemma dict_get_set_same d k v : Py.dict_get (Py.dict_set d k v) k = Some v.
Proof.
  induction d as [|[k' v'] r IH]; simpl.
  - now rewrite String.eqb_refl.
  - destruct (String.eqb k' k) eqn:E; simpl; now rewrite E.
Qed.

Lemma dict_get_set_other d k k' v :
  k' <> k -> Py.dict_get (Py.dict_set d k v) k' = Py.dict_get d k'.
Proof.
  intros Hne. induction d as [|[k0 v0] r IH]; simpl.
  - destruct (String.eqb k k') eqn:E; [apply String.eqb_eq in E; congruence | reflexivity].
  - destruct (String.eqb k0 k) eqn:E; simpl.
    + apply String.eqb_eq in E; subst k0.
      destruct (String.eqb k k') eqn:E'; [apply String.eqb_eq in E'; congruence | reflexivity].
    + now rewrite IH.
Qed.

Lemma dict_has_some d k v : Py.dict_get d k = Some v -> Py.dict_has d k = true.
Proof. unfold Py.dict_has. now intros ->. Qed.

Lemma dict_get_default_some d k v dflt :
  Py.dict_get d k = Some v -> Py.dict_get_default d k dflt = v.
Proof. unfold Py.dict_get_default. now intros ->. Qed.

Lemma dict_keys_set d k v :
  Py.dict_keys (Py.dict_set d k v) = Orchestrator.add_key (Py.dict_keys d) k.
Proof.
  unfold Orchestrator.add_key, Py.dict_keys.
  induction d as [|[k' v'] r IH]; simpl; [reflexivity|].
  rewrite (String.eqb_sym k k').
  destruct (String.eqb k' k) eqn:E; simpl; [reflexivity|].
  rewrite IH. now destruct (existsb (String.eqb k) (map fst r)).
Qed.

(** ** Order on binary64 numbers *)

Lemma F64_compare_swap (a b : F64.t) :
  SFcompare b a = option_map CompOpp (SFcompare a b).
Proof.
  destruct a as [sa|sa| |sa ma ea], b as [sb|sb| |sb mb eb]; cbn;
    try reflexivity;
    try (destruct sa; reflexivity);
    try (destruct sb; reflexivity);
    try (destruct sa, sb; reflexivity).
  destruct sa, sb; cbn; try reflexivity;
    rewrite (Z.compare_antisym ea eb); destruct (ea ?= eb)%Z; cbn;
    try reflexivity; f_equal.
  - f_equal. exact (eq_sym (Pos.compare_cont_antisym ma mb Eq)).
  - exact (eq_sym (Pos.compare_cont_antisym ma mb Eq)).
Qed.

Lemma F64_ltb_not_leb (a b : F64.t) : F64.ltb a b = true -> F64.leb b a = false.
Proof.
  unfold F64.ltb, F64.leb, SFltb, SFleb. rewrite (F64_compare_swap a b).
  destruct (SFcompare a b) as [[| |]|]; cbn; congruence.
Qed.


(** ** Timing validation of the script analyzer *)

Section Timing.
Context {lib : PyLib}.



(** C6, as the code has it.  The code adds the durations as binary64
    numbers, scene after scene.  When that sum is more than one second away
    from a numeric [total_duration], [_validate_timing] leaves the analysis
    as it is, every field of every scene included, and logs one warning. *)
Theorem validate_timing_warns_beyond_tolerance
    (d : dict) (scenes : list json) (target : json) (total seconds : F64.t)
    (w : AgentWorld) :
  Py.dict_get d "scenes" = Some (JArr scenes) ->
  Py.dict_get d "total_duration" = Some target ->
  Py.is_number target = true ->
  ScriptAnalyzer.sum_durations scenes F64.zero = Returned total ->
  to_float target = Returned seconds ->
  F64.ltb F64.one (F64.abs (F64.sub total seconds)) = true ->
  ScriptAnalyzer._validate_timing (JObj d) w
  = (Returned (JObj d),
     mkAgentWorld
       (agent_log w
        ++ [(WARNING,
             "Scene durations (" ++ fmt_2f (F64.to_Q total)
             ++ "s) don't match target (" ++ str_of_number target ++ "s)")])
       (agent_calls w)).
Proof.
  intros Hs Ht Hn Hsum Hsec Hoff.
  unfold ScriptAnalyzer._validate_timing, bind, lift, ret.
  cbn [Py.contains Py.getitem Py.get Py.dict_has Py.dict_get_default negb].
  rewrite (dict_has_some _ _ _ Hs), Hs, (dict_get_default_some _ _ _ _ Ht), Hn.
  cbn [negb].
  rewrite Hsum, Hsec, Hoff, (F64_ltb_not_leb _ _ Hoff), andb_false_r.
  reflexivity.
Qed.



End Timing.

(** ** The response parsers *)

Section Parsers.
Context {lib : PyLib}.

Ltac run_parser :=
  unfold bind, try_except, loads, ret, raise, lift, logger, modify;
  cbn [except_JSONDecodeError except_Exception exn_kind exn_class_eqb fst snd].

(** On a reply that [json.loads] takes whole, the parsers of the creative
    director, the visual designer and the QA agent return the value it
    gives, whatever its shape. *)
Lemma creative_parser_returns_parsed_value (response : string) (v : json)
    (w : AgentWorld) :
  json_loads (clean response) = Returned v ->
  CreativeDirector._parse_creative_response response w = (Returned v, w).
Proof.
  intros H. unfold CreativeDirector._parse_creative_response. run_parser.
  now rewrite H.
Qed.

Lemma visual_parser_returns_parsed_value (response : string) (fallback v : json)
    (w : AgentWorld) :
  json_loads (clean response) = Returned v ->
  VisualDesigner._parse_json_response response fallback w = (Returned v, w).
Proof.
  intros H. unfold VisualDesigner._parse_json_response. run_parser.
  now rewrite H.
Qed.

Lemma qa_parser_returns_parsed_value (response : string) (fallback v : json)
    (w : AgentWorld) :
  json_loads (clean response) = Returned v ->
  QA._parse_json_response response fallback w = (Returned v, w).
Proof.
  intros H. unfold QA._parse_json_response. run_parser.
  now rewrite H.
Qed.

Lemma creative_fallback_keeps_raw_text (response : string) (w : AgentWorld) :
  unparseable response ->
  exists w',
    CreativeDirector._parse_creative_response response w
    = (Returned (JObj [("raw_response", JStr response)]), w').
Proof.
  intros [(e & H1 & He) H2]. unfold CreativeDirector._parse_creative_response.
  unfold braced in H2. run_parser.
  rewrite H1. cbn [fst snd]. rewrite He.
  destruct (negb _ && _).
  - destruct H2 as (e' & H2 & He'). rewrite H2. cbn [fst snd]. rewrite He'. eauto.
  - eauto.
Qed.

Lemma qa_fallback_returned (response : string) (fallback : json) (w : AgentWorld) :
  unparseable response ->
  exists w', QA._parse_json_response response fallback w = (Returned fallback, w').
Proof.
  intros [(e & H1 & He) H2]. unfold QA._parse_json_response.
  unfold braced in H2. run_parser.
  rewrite H1. cbn [fst snd]. rewrite He.
  destruct (negb _ && _).
  - destruct H2 as (e' & H2 & He'). rewrite H2. cbn [fst snd except_Exception]. eauto.
  - eauto.
Qed.

Lemma visual_fallback_returned (response : string) (fallback : json) (w : AgentWorld) :
  unparseable response ->
  exists w', VisualDesigner._parse_json_response response fallback w = (Returned fallback, w').
Proof.
  intros [(e & H1 & He) H2]. unfold VisualDesigner._parse_json_response.
  unfold braced in H2. run_parser.
  rewrite H1. cbn [fst snd]. rewrite He.
  destruct (negb _ && _).
  - destruct H2 as (e' & H2 & He'). rewrite H2. cbn [fst snd except_Exception]. eauto.
  - eauto.
Qed.

Lemma analysis_fallback_keeps_raw_text (response : string) (w : AgentWorld) :
  unparseable response ->
  exists w',
    ScriptAnalyzer._parse_analysis_response response w
    = (Returned (JObj [("raw_response", JStr response)]), w').
Proof.
  intros [(e & H1 & He) H2]. unfold ScriptAnalyzer._parse_analysis_response.
  unfold braced in H2. run_parser.
  rewrite H1. cbn [fst snd]. rewrite He.
  destruct (negb _ && _).
  - destruct H2 as (e' & H2 & He'). rewrite H2. cbn [fst snd]. rewrite He'. eauto.
  - eauto.
Qed.
End Parsers.

(** ** The QA agent *)

Section QAProofs.
Context {lib : PyLib}.
Variable env : QA.Env.

(** C8.  When [video_path] is a path with no file behind it, [process]
    returns the report below without raising, logging or issuing a
    delegated call: not approved, quality score 0.0, and the one issue
    Video file not found. *)
Theorem missing_video_report (input_data : dict) (p : string) (w : AgentWorld) :
  Py.dict_get input_data "video_path" = Some (JStr p) ->
  QA.file_exists env p = false ->
  QA.process env input_data w = (Returned QA.missing_file_report, w)
  /\ Py.get QA.missing_file_report "approved" JNull = Returned (JBool false)
  /\ Py.get QA.missing_file_report "quality_score" JNull = Returned (JFloat 0)
  /\ Py.get QA.missing_file_report "issues" JNull
     = Returned (JArr [JStr "Video file not found"]).
Proof.
  intros Hp Hmissing. split; [| repeat split].
  unfold QA.process, bind, lift, ret.
  cbn [BaseAgent.validate_input Py.getitem QA.os_path_exists].
  rewrite (dict_has_some _ _ _ Hp), Hp. cbn [negb]. unfold ret.
  cbn [QA.os_path_exists]. rewrite Hmissing. reflexivity.
Qed.

Lemma technical_score_range (issues : list string) :
  (6 # 10 <= QA.technical_score issues /\ QA.technical_score issues <= 1)%Q.
Proof.
  unfold QA.technical_score. destruct issues as [|i r]; [split; lra|].
  destruct (length (i :: r) <=? 2)%nat; split; lra.
Qed.

Lemma check_technical_quality_shape (video_path requirements : json)
    (w w' : AgentWorld) (tc : json) :
  QA._check_technical_quality env video_path requirements w = (Returned tc, w') ->
  exists issues checks,
    tc = JObj [("score", JFloat (QA.technical_score issues));
               ("checks", JObj checks);
               ("issues", JArr (map JStr issues))].
Proof.
  unfold QA._check_technical_quality, bind, lift, ret, delegate, modify.
  destruct (QA.getsize env video_path); [|discriminate].
  intros H. inversion H. eauto.
Qed.

(** X27.  A review of a video that is on disk returns a report whose
    [quality_score] is [round(technical * 0.3 + content * 0.7, 2)], every
    operation being the binary64 one, and whose [approved] flag says whether
    that score is at least 0.8.  The technical score is one of 1.0, 0.75 and
    0.6; the content score is whatever number the content check holds. *)
Theorem quality_score_is_the_rounded_weighted_sum
    (input_data : dict) (video_path report : json) (w w' : AgentWorld) :
  Py.dict_get input_data "video_path" = Some video_path ->
  QA.os_path_exists env video_path = Returned true ->
  QA.process env input_data w = (Returned report, w') ->
  exists (technical_check content_check cs : json) (issues : list string)
         (content : F64.t),
    Py.get report "technical_check" JNull = Returned technical_check
    /\ Py.get report "content_check" JNull = Returned content_check
    /\ Py.get technical_check "score" JNull
       = Returned (JFloat (QA.technical_score issues))
    /\ Py.get content_check "score" (JFloat (5 # 10)) = Returned cs
    /\ to_float cs = Returned content
    /\ let technical := F64.of_Q (QA.technical_score issues) in
       let quality_score :=
         F64.round (F64.add (F64.mul technical (F64.of_Q (3 # 10)))
                            (F64.mul content (F64.of_Q (7 # 10)))) 2 in
       Py.get report "quality_score" JNull
       = Returned (JFloat (F64.to_Q quality_score))
       /\ Py.get report "approved" JNull
          = Returned (JBool (F64.leb (F64.of_Q (8 # 10)) quality_score)).
Proof.
  intros Hp Hex.
  unfold QA.process, bind, lift, ret.
  cbn [BaseAgent.validate_input Py.getitem].
  rewrite (dict_has_some _ _ _ Hp), Hp. cbn [negb]. unfold ret.
  rewrite Hex. cbn [negb].
  destruct (QA._check_technical_quality env video_path _ w) as [[tc|e] w1] eqn:Htc;
    [|discriminate].
  destruct (check_technical_quality_shape _ _ _ _ _ Htc) as (issues & checks & ->).
  destruct (QA._check_content_quality env _ _ _ w1) as [[cc|e] w2]; [|discriminate].
  unfold QA._calculate_quality_score.
  cbn [Py.get Py.dict_get_default Py.dict_get String.eqb Ascii.eqb Bool.eqb
       to_float py_float Py.number_value].
  destruct (Py.get cc "score" (JFloat (5 # 10))) as [cs|e] eqn:Hcs; [|discriminate].
  destruct (to_float cs) as [content|e] eqn:Hcontent; [|discriminate].
  destruct (Py.get cc "issues" (JArr [])) as [ci|e]; [|discriminate].
  match goal with
  | |- match ?x with Returned _ => _ | Raised _ => _ end = _ -> _ =>
      destruct x as [all_issues|e]; [|discriminate]
  end.
  destruct (QA._generate_recommendations _ _) as [recs|e]; [|discriminate].
  intros H. inversion H; subst; clear H.
  exists (JObj [("score", JFloat (QA.technical_score issues));
                ("checks", JObj checks);
                ("issues", JArr (map JStr issues))]), cc, cs, issues, content.
  split; [reflexivity|]. split; [reflexivity|]. split; [reflexivity|].
  split; [exact Hcs|]. split; [exact Hcontent|].
  cbv zeta. split; reflexivity.
Qed.
End QAProofs.

(** ** Rules to run a computation step by step *)

Lemma post_bind {S A B} (m : M S A) (k : A -> M S B) (s : S)
    (Q : outcome B -> S -> Prop) :
  post m s (fun r s' => match r with
                        | Returned a => post (k a) s' Q
                        | Raised e => Q (Raised e) s'
                        end) ->
  post (bind m k) s Q.
Proof. unfold post, bind. destruct (m s) as [[a|e] s']; auto. Qed.

Lemma post_try_except {S A} (body : M S A) (handles : exn -> bool)
    (handler : exn -> M S A) (s : S) (Q : outcome A -> S -> Prop) :
  post body s (fun r s' => match r with
                           | Returned a => Q (Returned a) s'
                           | Raised e => if handles e then post (handler e) s' Q
                                         else Q (Raised e) s'
                           end) ->
  post (try_except body handles handler) s Q.
Proof.
  unfold post, try_except. destruct (body s) as [[a|e] s']; auto.
  cbn [fst snd]. destruct (handles e); auto.
Qed.

Lemma post_modify {S} (f : S -> S) (s : S) (Q : outcome unit -> S -> Prop) :
  Q (Returned tt) (f s) -> post (modify f) s Q.
Proof. auto. Qed.

Lemma post_lift {S A} (o : outcome A) (s : S) (Q : outcome A -> S -> Prop) :
  Q o s -> post (lift o) s Q.
Proof. auto. Qed.

Lemma post_ret {S A} (a : A) (s : S) (Q : outcome A -> S -> Prop) :
  Q (Returned a) s -> post (ret a) s Q.
Proof. auto. Qed.

Lemma post_raise {S A} (e : exn) (s : S) (Q : outcome A -> S -> Prop) :
  Q (Raised e) s -> post (raise e) s Q.
Proof. auto. Qed.

Lemma post_get {S} (s : S) (Q : outcome S -> S -> Prop) :
  Q (Returned s) s -> post get s Q.
Proof. auto. Qed.

(** ** The orchestrator *)

Module OrchestratorProofs.
Import Orchestrator.

Section Runs.
Context {lib : PyLib}.
Variable env : Env.

Ltac wp_norm :=
  progress cbn beta iota zeta delta
    [state log files invoked status current_step outputs errors except_Exception].

Ltac wp :=
  first
    [ wp_norm
    | lazymatch goal with
      | |- post (bind _ _) _ _ => apply post_bind
      | |- post (try_except _ _ _) _ _ => apply post_try_except
      | |- post (modify _) _ _ => apply post_modify
      | |- post (lift _) _ _ => apply post_lift
      | |- post (ret _) _ _ => apply post_ret
      | |- post (raise _) _ _ => apply post_raise
      | |- post get _ _ => apply post_get
      | |- post (logger _ _) _ _ => unfold logger
      | |- post (set_current_step _) _ _ => unfold set_current_step, with_state
      | |- post (set_output _ _) _ _ => unfold set_output, with_state
      | |- post (append_error _) _ _ => unfold append_error, with_state
      | |- post (process _ _ _) _ _ => unfold process
      | |- post (_save_workflow_state _ _) _ _ => unfold _save_workflow_state
      | |- post (match ?x with Some _ => _ | None => _ end) _ _ =>
          let E := fresh "W" in destruct x eqn:E
      | |- post (if ?c then _ else _) _ _ => destruct c
      | |- match ?x with Returned _ => _ | Raised _ => _ end =>
          let E := fresh "E" in destruct x eqn:E
      end ].

Ltac all_returned :=
  repeat constructor; unfold returned; cbn [fst snd]; eauto.

Ltac keys_done :=
  cbn [state outputs]; rewrite ?dict_keys_set; reflexivity.

Ltac calls_done :=
  cbn [invoked]; rewrite <- ?app_assoc; cbn [app]; reflexivity.

Ltac split_last :=
  lazymatch goal with
  | |- ?l = (?ev ++ [_])%list =>
      let l' := eval cbv beta iota delta [removelast] in (removelast l) in
      unify ev l'; reflexivity
  end.

Ltac end_completed :=
  left; eexists;
  split; [reflexivity|]; split; [reflexivity|]; split; [reflexivity|];
  split; [all_returned|]; split; [reflexivity|]; split; [keys_done|];
  reflexivity.

Ltac end_step :=
  lazymatch goal with
  | H : agent env ?k ?i = Raised ?e |- _ =>
      right; left; exists k, i, e; eexists;
      split; [split_last|]; split; [reflexivity|]; split; [all_returned|];
      split; [exact H|]; split; [reflexivity|]; split; [reflexivity|];
      split; [keys_done|]; split; [reflexivity|]; reflexivity
  end.

Ltac end_glue k :=
  right; right; exists k; eexists;
  split; [reflexivity|]; split; [all_returned|];
  split; [reflexivity|]; split; [reflexivity|]; split; [keys_done|];
  reflexivity.

Ltac finish :=
  split; [reflexivity|];
  eexists; split; [calls_done|];
  first [ end_step
        | end_completed
        | end_glue QualityAssurance
        | end_glue VideoEditing
        | end_glue AudioProduction
        | end_glue VisualDesign
        | end_glue ScriptAnalysis
        | end_glue CreativeDirection ].

Lemma run_shape (a : Args) (o : Orch) :
  post (generate_advertisement env a) o (shape env a o).
Proof.
  unfold generate_advertisement.
  repeat wp.
  all: unfold shape.
  all: finish.
Qed.

(** The first assignment inside the [try] sets [current_step], and nothing
    clears it. *)
Lemma run_sets_current_step (a : Args) (o : Orch) :
  post (generate_advertisement env a) o
       (fun _ o' => current_step (state o') <> None).
Proof.
  unfold generate_advertisement.
  repeat wp.
  all: discriminate.
Qed.
End Runs.

Lemma skipn_own_length {A} (l r : list A) : skipn (length l) (l ++ r) = r.
Proof. induction l; simpl; auto. Qed.

Lemma keys_after_keeps (steps : list Step) : forall keys key,
  In key keys -> In key (keys_after keys steps).
Proof.
  unfold keys_after. induction steps as [|s r IH]; intros keys key H; simpl; [exact H|].
  apply IH. unfold add_key. destruct (existsb _ keys); [exact H|].
  apply in_or_app. now left.
Qed.

Section Claims.
Context {lib : PyLib}.

Lemma run_shape_holds (env : Env) (a : Args) (o : Orch) :
  shape env a o (fst (generate_advertisement env a o))
                (snd (generate_advertisement env a o)).
Proof. exact (run_shape env a o). Qed.

Ltac run_cases env a o calls Hcalls Hend :=
  let H := fresh in
  pose proof (run_shape_holds env a o) as H;
  generalize dependent (generate_advertisement env a o);
  intros [r o'] H; cbn [fst snd] in *;
  destruct H as (_ & calls & Hcalls & Hend).

(** C1, as the code has it.  When a step [k] of a run raises, the run called
    exactly the steps up to [k] and no later one; the keys of [outputs] are
    the keys it held when the run began followed by the keys of the steps
    that completed before [k], in execution order (on an orchestrator whose
    outputs were empty, exactly those keys); the message of the exception
    is appended to [errors]; and the run returns the failure result with
    that message and the state, the exception does not escape. *)
Theorem raising_step_halts_the_run
    (env : Env) (a : Args) (o : Orch) (k : Step) (input : json) (e : exn) :
  let run := generate_advertisement env a o in
  let o' := snd run in
  In (k, input) (run_calls o o') ->
  agent env k input = Raised e ->
  map fst (run_calls o o') = (steps_before k ++ [k])%list
  /\ Py.dict_keys (outputs (state o'))
     = keys_after (Py.dict_keys (outputs (state o))) (steps_before k)
  /\ (outputs (state o) = [] ->
      Py.dict_keys (outputs (state o')) = map output_key (steps_before k))
  /\ errors (state o') = (errors (state o) ++ [exn_str e])%list
  /\ fst run = Returned (Failure (exn_str e) (state o')).
Proof.
  cbv zeta. run_cases env a o calls Hcalls Hend. intros Hin Hraised.
  assert (Hrc : run_calls o o' = calls).
  { unfold run_calls. rewrite Hcalls. apply skipn_own_length. }
  rewrite Hrc in *.
  assert (Hno : forall l, Forall (returned env) l -> In (k, input) l -> False).
  { intros l Hall Hl. rewrite Forall_forall in Hall.
    destruct (Hall _ Hl) as [v Hv]. cbn [fst snd] in Hv. congruence. }
  destruct Hend as [(result & _ & _ & _ & Hall & _) | [Hstep | (k' & e' & _ & Hall & _)]].
  - destruct (Hno _ Hall Hin).
  - destruct Hstep as (k' & input' & e' & earlier & -> & Hbefore & Hall & Hr & Hres
                       & Herr & Hkeys & _ & _).
    apply in_app_or in Hin. destruct Hin as [Hin | [Heq | []]].
    + destruct (Hno _ Hall Hin).
    + inversion Heq; subst k' input'.
      assert (e' = e) by congruence. subst e'.
      rewrite map_app, Hbefore. cbn [map fst].
      repeat split; try assumption.
      intros Hfresh. rewrite Hkeys, Hfresh. now destruct k.
  - destruct (Hno _ Hall Hin).
Qed.

(** C3, as the code has it.  A run that returns a success result has written
    exactly one document, named by the timestamp, holding the state and the
    result as they stand at the end of the run; a run that returns a failure
    result has written none; and no run lets an exception escape. *)
Theorem snapshot_saved_when_run_succeeds (env : Env) (a : Args) (o : Orch) :
  let run := generate_advertisement env a o in
  let o' := snd run in
  match fst run with
  | Returned (Failure _ _) => files o' = files o
  | Returned result =>
      files o'
      = (files o
         ++ [mkDocument ("data/output/workflows/workflow_" ++ timestamp env ++ ".json")
                        (state o') result])%list
  | Raised _ => False
  end.
Proof.
  cbv zeta. run_cases env a o calls Hcalls Hend.
  destruct Hend as [(result & -> & Hs & _ & _ & _ & _ & Hf)
                   | [(k & i & e & earlier & _ & _ & _ & _ & -> & _ & _ & _ & Hf)
                     | (k & e & _ & _ & -> & _ & _ & Hf)]].
  - destruct result; [exact Hf | discriminate].
  - exact Hf.
  - exact Hf.
Qed.

(** C4, as the code has it.  The state of status initialized, no current
    step, empty outputs and empty errors is built once, by [__init__], and
    no run ends with it: a run sets [current_step] and nothing clears it, so
    only the first run on an orchestrator begins with that state.  A run
    starts from the state the orchestrator holds: every error and every
    output key that state had before the run is still there after it; and a
    run that succeeds writes one document, which holds the state as the run
    leaves it, those errors and keys included. *)
Theorem state_carries_over_between_runs :
  state __init__ = mkState "initialized" None [] []
  /\ forall (env : Env) (a : Args) (o : Orch),
       let run := generate_advertisement env a o in
       let o' := snd run in
       (exists new, errors (state o') = (errors (state o) ++ new)%list)
       /\ (forall key, In key (Py.dict_keys (outputs (state o))) ->
                       In key (Py.dict_keys (outputs (state o'))))
       /\ state o' <> state __init__
       /\ (succeeded run = true ->
           exists doc,
             files o' = (files o ++ [doc])%list /\ doc_state doc = state o').
Proof.
  split; [reflexivity|]. intros env a o. cbv zeta.
  assert (Hfresh : state (snd (generate_advertisement env a o)) <> state __init__).
  { intros E. apply (run_sets_current_step env a o). now rewrite E. }
  unfold succeeded.
  pose proof (run_shape_holds env a o) as H.
  destruct (generate_advertisement env a o) as [r o']. cbn [fst snd] in *.
  destruct H as (_ & calls & Hcalls & Hend).
  destruct Hend as [(result & -> & Hs & _ & _ & He & Hk & Hf)
                   | [(k & i & e & earlier & _ & _ & _ & _ & -> & He & Hk & _)
                     | (k & e & _ & _ & -> & He & Hk & _)]];
    (split; [| split; [intros key Hkey; rewrite Hk; now apply keys_after_keeps
                      | split; [exact Hfresh|] ]]).
  - exists []. now rewrite app_nil_r.
  - intros _. eexists. split; [exact Hf | reflexivity].
  - eauto.
  - discriminate.
  - eauto.
  - discriminate.
Qed.

Lemma run_all_keeps_status (runs : list (Env * Args)) : forall o,
  status (state (run_all runs o)) = status (state o).
Proof.
  unfold run_all. induction runs as [|[env a] r IH]; intros o; simpl; [reflexivity|].
  rewrite IH. now destruct (run_shape_holds env a o) as [-> _].
Qed.

(** C10.  After any sequence of runs on a new orchestrator, [get_status]
    reports the status initialized, and the state snapshot of any failure
    result of a further run has the status initialized. *)
Theorem status_stays_initialized (runs : list (Env * Args)) :
  let o := run_all runs __init__ in
  report_status (get_status o) = "initialized"
  /\ forall (env : Env) (a : Args),
       match fst (generate_advertisement env a o) with
       | Returned (Failure _ snapshot) => status snapshot = "initialized"
       | _ => True
       end.
Proof.
  intros o. assert (Ho : status (state o) = "initialized")
    by (unfold o; now rewrite run_all_keeps_status).
  split; [exact Ho|]. intros env a.
  destruct (run_shape_holds env a o) as (Hst & calls & _ & Hend).
  destruct Hend as [(result & -> & Hs & _)
                   | [(k & i & e & earlier & _ & _ & _ & _ & -> & _)
                     | (k & e & _ & _ & -> & _)]].
  - now destruct result.
  - congruence.
  - congruence.
Qed.
End Claims.

#[local] Existing Instance RefLib.reference.
Import Examples.

Lemma rerun_failure_keeps_stale_outputs :
  let first := generate_advertisement (studio None) coffee_ad __init__ in
  let second :=
    generate_advertisement (studio (Some CreativeDirection)) coffee_ad (snd first) in
  succeeded first = true
  /\ map fst (run_calls (snd first) (snd second)) = [CreativeDirection]
  /\ fst second = Returned (Failure "Connection error." (state (snd second)))
  /\ Py.dict_keys (outputs (state (snd second)))
     = ["creative_brief"; "script_analysis"; "visual_design";
        "audio_output"; "video_output"; "qa_result"]
  /\ Py.dict_keys (outputs (state (snd second)))
     <> map output_key (steps_before CreativeDirection).
Proof. vm_compute. repeat split; discriminate. Qed.

Lemma raising_step_halts_the_run_witness :
  let run := generate_advertisement (studio (Some VisualDesign)) coffee_ad __init__ in
  map fst (run_calls __init__ (snd run))
  = [CreativeDirection; ScriptAnalysis; VisualDesign]
  /\ Py.dict_keys (outputs (state (snd run))) = ["creative_brief"; "script_analysis"]
  /\ errors (state (snd run)) = ["Connection error."]
  /\ fst run = Returned (Failure "Connection error." (state (snd run))).
Proof.
  destruct (raising_step_halts_the_run (lib := RefLib.reference)
              (studio (Some VisualDesign)) coffee_ad __init__ VisualDesign
              (JObj [("images", JArr [JStr "data/input/can.png"]);
                     ("scene_requirements",
                       JArr [first_scene; JObj (second_scene 15)]);
                     ("creative_brief", canned_output CreativeDirection)])
              (Exn OtherError "Connection error."))
    as (Hcalls & _ & Hkeys & Herrors & Hresult).
  - vm_compute. right. right. left. reflexivity.
  - reflexivity.
  - exact (conj Hcalls (conj (Hkeys eq_refl) (conj Herrors Hresult))).
Defined.

Lemma failed_run_saves_nothing :
  let run := generate_advertisement (studio (Some CreativeDirection)) coffee_ad __init__ in
  fst run = Returned (Failure "Connection error." (state (snd run)))
  /\ files (snd run) = [].
Proof. vm_compute. split; reflexivity. Qed.

Lemma second_run_sees_first_run_error :
  let first :=
    generate_advertisement (studio (Some CreativeDirection)) coffee_ad __init__ in
  let second := generate_advertisement (studio None) coffee_ad (snd first) in
  succeeded second = true
  /\ errors (state (snd second)) = ["Connection error."]
  /\ map (fun d => errors (doc_state d)) (files (snd second)) = [["Connection error."]]
  /\ current_step (state (snd first)) = Some "creative_direction".
Proof. vm_compute. repeat split; reflexivity. Qed.

End OrchestratorProofs.

(** ** The parsers *)

Section ParserResults.
Context {lib : PyLib}.

Ltac run_parse :=
  unfold first_success, both_attempts_fail, braced_attempt_fails, log_if, braced,
    bind, try_except, loads, ret, raise, lift, logger, modify;
  repeat (cbn [fst snd andb negb except_Exception];
          match goal with
          | |- context [if negb ?a && ?b then _ else _] => destruct (negb a && b)
          | |- context [json_loads ?t] => destruct (json_loads t) as [?|?]
          | |- context [except_JSONDecodeError ?e] =>
              destruct (except_JSONDecodeError e)
          end);
  cbn [fst snd andb negb except_Exception];
  try reflexivity.

Lemma creative_parser_run (response : string) (w : AgentWorld) :
  CreativeDirector._parse_creative_response response w
  = (first_success true response (JObj [("raw_response", JStr response)]),
     log_if (braced_attempt_fails response) WARNING
            "Could not parse JSON from creative response" w).
Proof.
  unfold CreativeDirector._parse_creative_response. run_parse.
Qed.

Lemma visual_parser_run (response : string) (fallback : json)
    (w : AgentWorld) :
  VisualDesigner._parse_json_response response fallback w
  = (first_success false response fallback,
     log_if (both_attempts_fail response) WARNING
            "Could not parse JSON from VisualDesigner response" w).
Proof.
  unfold VisualDesigner._parse_json_response. run_parse.
Qed.

Lemma qa_parser_run (response : string) (fallback : json)
    (w : AgentWorld) :
  QA._parse_json_response response fallback w
  = (first_success false response fallback,
     log_if (both_attempts_fail response) WARNING
            "Could not parse JSON from QA response" w).
Proof.
  unfold QA._parse_json_response. run_parse.
Qed.

Lemma first_success_fallback (response : string) (fallback : json) :
  both_attempts_fail response = true ->
  first_success false response fallback = Returned fallback.
Proof.
  unfold both_attempts_fail, first_success.
  destruct (json_loads (clean response)) as [v|e]; [discriminate|].
  destruct (except_JSONDecodeError e); [|discriminate].
  destruct (braced (clean response)); [|reflexivity].
  destruct (json_loads s); [discriminate | reflexivity].
Qed.

(** What the parsers raise is what [json.loads] raised, and it is never a
    [JSONDecodeError]. *)
Lemma first_success_raises (strict : bool) (response : string) (fallback : json)
    (e : exn) :
  first_success strict response fallback = Raised e ->
  except_JSONDecodeError e = false
  /\ (json_loads (clean response) = Raised e
      \/ strict = true
         /\ exists inner, braced (clean response) = Some inner
                          /\ json_loads inner = Raised e).
Proof.
  unfold first_success.
  destruct (json_loads (clean response)) as [v|e1] eqn:H1; [discriminate|].
  destruct (except_JSONDecodeError e1) eqn:He1.
  - destruct (braced (clean response)) as [inner|]; [|discriminate].
    destruct (json_loads inner) as [v|e2] eqn:H2; [discriminate|].
    destruct strict; cbn [andb]; [|discriminate].
    destruct (except_JSONDecodeError e2) eqn:He2; cbn [negb]; [discriminate|].
    intros H. inversion H; subst. split; [exact He2|].
    right. split; [reflexivity|]. exists inner. now split.
  - intros H. inversion H; subst. split; [exact He1 | now left].
Qed.

(** X1.  The three tolerant parsers (creative director, visual designer,
    quality assurance) come to the first thing that parses: the whole
    cleaned reply, else the part between its first opening and last closing
    brace, else the fallback.  They raise only an exception of [json.loads]
    that is not a [JSONDecodeError]: one of the first attempt, and for the
    creative director also one of the second, whose handler names
    [JSONDecodeError] where the other two name [Exception].  The visual
    designer and the quality assurance parser log one warning exactly when
    they return the fallback; the creative director logs one only when a
    braced part was found and raised [JSONDecodeError]. *)
Theorem tolerant_parsers_return_first_success
    (response : string) (fallback : json) (w : AgentWorld) :
  CreativeDirector._parse_creative_response response w
  = (first_success true response (JObj [("raw_response", JStr response)]),
     log_if (braced_attempt_fails response) WARNING
            "Could not parse JSON from creative response" w)
  /\ VisualDesigner._parse_json_response response fallback w
     = (first_success false response fallback,
        log_if (both_attempts_fail response) WARNING
               "Could not parse JSON from VisualDesigner response" w)
  /\ QA._parse_json_response response fallback w
     = (first_success false response fallback,
        log_if (both_attempts_fail response) WARNING
               "Could not parse JSON from QA response" w)
  /\ (forall strict e,
        first_success strict response fallback = Raised e ->
        except_JSONDecodeError e = false
        /\ (json_loads (clean response) = Raised e
            \/ strict = true
               /\ exists inner, braced (clean response) = Some inner
                                /\ json_loads inner = Raised e))
  /\ (both_attempts_fail response = true ->
      first_success false response fallback = Returned fallback).
Proof.
  split; [apply creative_parser_run|].
  split; [apply visual_parser_run|].
  split; [apply qa_parser_run|].
  split; [intros strict e; apply first_success_raises | apply first_success_fallback].
Qed.
End ParserResults.


Section AnalysisParser.
Context {lib : PyLib}.

Lemma to_float_no_decode_error (v : json) (e : exn) :
  to_float v = Raised e -> except_JSONDecodeError e = false.
Proof.
  unfold to_float, py_float.
  destruct v as [|b|z|q|s|l|d]; cbn; try discriminate;
    try (intros H; inversion H; reflexivity).
  - destruct (F64.of_Q (inject_Z z)); try discriminate.
    intros H; inversion H; reflexivity.
  - destruct (float_of_str s); [discriminate|].
    intros H; inversion H; reflexivity.
Qed.

Lemma sum_durations_no_decode_error scenes : forall acc e,
  ScriptAnalyzer.sum_durations scenes acc = Raised e -> except_JSONDecodeError e = false.
Proof.
  induction scenes as [|s r IH]; intros acc e; simpl; [discriminate|].
  destruct s; simpl; try (intros H; inversion H; reflexivity).
  destruct (Py.is_number _); [|apply IH].
  destruct (to_float _) as [x|e0] eqn:Hx; [apply IH|].
  intros H; inversion H; subst. exact (to_float_no_decode_error _ _ Hx).
Qed.

Lemma adjust_last_no_decode_error last delta e :
  ScriptAnalyzer.adjust_last last delta = Raised e -> except_JSONDecodeError e = false.
Proof.
  unfold ScriptAnalyzer.adjust_last.
  destruct last; simpl; try (intros H; inversion H; reflexivity).
  destruct (Py.is_number _); [|discriminate].
  destruct (to_float _) as [x|e0] eqn:Hx;
    [clear Hx
    | intros H; inversion H; subst; exact (to_float_no_decode_error _ _ Hx)].
  destruct (Py.is_number _); [|discriminate].
  destruct (to_float _) as [st|e0] eqn:Hst;
    [discriminate
    | intros H; inversion H; subst; exact (to_float_no_decode_error _ _ Hst)].
Qed.

Lemma validate_timing_no_decode_error analysis w e w' :
  ScriptAnalyzer._validate_timing analysis w = (Raised e, w') ->
  except_JSONDecodeError e = false.
Proof.
  unfold ScriptAnalyzer._validate_timing, bind, lift, ret, logger, modify.
  destruct (Py.contains analysis "scenes") as [has|e0] eqn:Hc.
  2: { destruct analysis; simpl in Hc; try discriminate;
       inversion Hc; subst; intros H; inversion H; reflexivity. }
  destruct has; cbn [negb]; [|discriminate].
  destruct (Py.getitem analysis "scenes") as [sv|e0] eqn:Hg.
  2: { destruct analysis; simpl in Hg; try (inversion Hg; subst; intros H; inversion H; reflexivity).
       destruct (Py.dict_get d "scenes"); inversion Hg; subst.
       intros H; inversion H; reflexivity. }
  destruct sv; try discriminate.
  destruct (Py.get analysis "total_duration" JNull) as [target|e0] eqn:Ht.
  2: { destruct analysis; simpl in Ht; try discriminate;
       inversion Ht; subst; intros H; inversion H; reflexivity. }
  destruct (negb (Py.is_number target)); [discriminate|].
  destruct (ScriptAnalyzer.sum_durations l F64.zero) as [total|e0] eqn:Hs.
  2: { intros H; inversion H; subst. eapply sum_durations_no_decode_error; eauto. }
  destruct (to_float target) as [seconds|e0] eqn:Hsec.
  2: { intros H; inversion H; subst. exact (to_float_no_decode_error _ _ Hsec). }
  destruct (F64.ltb F64.one _); cbn [fst snd];
    (destruct (Py.truthy (JArr l) && F64.leb _ F64.one); [|discriminate]);
    (destruct (ScriptAnalyzer.adjust_last _ _) as [last'|e0] eqn:Ha;
     [| intros H; inversion H; subst; eapply adjust_last_no_decode_error; eauto]);
    (destruct analysis; simpl; intros H; inversion H; reflexivity).
Qed.

Lemma parsed_analysis_raises (response : string) (e : exn) :
  parsed_analysis response = Raised e -> except_JSONDecodeError e = false.
Proof.
  unfold parsed_analysis.
  destruct (json_loads (clean response)) as [v|e1]; [discriminate|].
  destruct (except_JSONDecodeError e1) eqn:He1.
  - destruct (braced (clean response)) as [inner|]; [|discriminate].
    destruct (json_loads inner) as [v|e2]; [discriminate|].
    destruct (except_JSONDecodeError e2) eqn:He2; [discriminate|].
    intros H. inversion H; subst. exact He2.
  - intros H. inversion H; subst. exact He1.
Qed.

(** X2.  The parser of the script analyzer hands what it parses (the whole
    cleaned reply, else its braced part) to [_validate_timing] and returns
    or raises as that does; the handlers never swallow an exception of the
    validation.  When both attempts raise [JSONDecodeError], or the first
    does and there is no braced part, it returns the raw reply under
    [raw_response], logging one error if a braced part was tried.  An
    exception of [json.loads] that is not a [JSONDecodeError] escapes, with
    nothing logged. *)
Theorem analysis_parser_validates_what_it_parses (response : string) (w : AgentWorld) :
  ScriptAnalyzer._parse_analysis_response response w
  = match parsed_analysis response with
    | Returned (Some analysis) => ScriptAnalyzer._validate_timing analysis w
    | Returned None =>
        (Returned (JObj [("raw_response", JStr response)]),
         mkAgentWorld (agent_log w ++ parse_error_record response) (agent_calls w))
    | Raised e => (Raised e, w)
    end
  /\ forall e, parsed_analysis response = Raised e -> except_JSONDecodeError e = false.
Proof.
  split; [| apply parsed_analysis_raises].
  unfold ScriptAnalyzer._parse_analysis_response, parsed_analysis, parse_error_record,
    braced.
  unfold bind at 1. unfold try_except at 1. unfold bind at 1. unfold loads at 1.
  unfold lift at 1.
  destruct (json_loads (clean response)) as [analysis|e1] eqn:H1.
  - unfold bind at 1.
    destruct (ScriptAnalyzer._validate_timing analysis w) as [[a'|e] w1] eqn:Hv.
    + reflexivity.
    + cbn [fst snd]. now rewrite (validate_timing_no_decode_error _ _ _ _ Hv).
  - cbn [fst snd]. destruct (except_JSONDecodeError e1) eqn:He1; [|reflexivity].
    unfold ret at 1. unfold bind at 1. unfold try_except at 1.
    destruct (negb _ && _).
    + unfold bind at 1. unfold loads at 1. unfold lift at 1.
      destruct (json_loads (Py.slice _ _ _)) as [analysis|e2] eqn:H2.
      * unfold bind at 1.
        destruct (ScriptAnalyzer._validate_timing analysis w) as [[a'|e] w1] eqn:Hv.
        -- reflexivity.
        -- cbn [fst snd]. now rewrite (validate_timing_no_decode_error _ _ _ _ Hv).
      * cbn [fst snd]. destruct (except_JSONDecodeError e2) eqn:He2; reflexivity.
    + unfold ret. destruct w. cbn. now rewrite app_nil_r.
Qed.
End AnalysisParser.

(** ** Fenced replies *)

Lemma lstrip_chars_shorter_upto (n : nat) : forall l : list ascii,
  (List.length l <= n)%nat ->
  (List.length (Py.lstrip_chars l) <= List.length l)%nat.
Proof.
  induction n as [|n IH]; intros l Hn.
  - destruct l; [simpl; lia | simpl in Hn; lia].
  - destruct l as [|c1 r1]; [simpl; lia|].
    cbn [Py.lstrip_chars]. cbn [List.length] in *.
    destruct (Py.isspace c1).
    { specialize (IH r1). lia. }
    destruct r1 as [|c2 r2]; [simpl; lia|].
    cbn [List.length] in *.
    destruct (Py.isspace2 c1 c2).
    { specialize (IH r2). lia. }
    destruct r2 as [|c3 r3]; [simpl; lia|].
    cbn [List.length] in *.
    destruct (Py.isspace3 c1 c2 c3); [|simpl; lia].
    specialize (IH r3). lia.
Qed.

Lemma lstrip_chars_shorter (l : list ascii) :
  (List.length (Py.lstrip_chars l) <= List.length l)%nat.
Proof. exact (lstrip_chars_shorter_upto (List.length l) l (le_n _)). Qed.

(** A text that [lstrip] leaves alone starts with no white-space character,
    whatever the length of its encoding. *)
Lemma lstrip_chars_fixed_head (l : list ascii) :
  Py.lstrip_chars l = l ->
  match l with
  | c1 :: r1 =>
      Py.isspace c1 = false
      /\ match r1 with
         | c2 :: r2 =>
             Py.isspace2 c1 c2 = false
             /\ match r2 with
                | c3 :: _ => Py.isspace3 c1 c2 c3 = false
                | [] => True
                end
         | [] => True
         end
  | [] => True
  end.
Proof.
  destruct l as [|c1 r1]; [trivial|].
  cbn [Py.lstrip_chars].
  destruct (Py.isspace c1).
  { intros H. pose proof (lstrip_chars_shorter r1) as L. rewrite H in L.
    simpl in L. lia. }
  split; [reflexivity|].
  destruct r1 as [|c2 r2]; [trivial|].
  destruct (Py.isspace2 c1 c2).
  { pose proof (lstrip_chars_shorter r2) as L. rewrite H in L. simpl in L. lia. }
  split; [reflexivity|].
  destruct r2 as [|c3 r3]; [trivial|].
  destruct (Py.isspace3 c1 c2 c3); [|reflexivity].
  pose proof (lstrip_chars_shorter r3) as L. rewrite H in L. simpl in L. lia.
Qed.

Lemma isspace2_newline (c : ascii) : Py.isspace2 c "010" = false.
Proof. unfold Py.isspace2. apply andb_false_r. Qed.

Lemma isspace3_newline_second (c1 c3 : ascii) : Py.isspace3 c1 "010" c3 = false.
Proof.
  unfold Py.isspace3.
  set (n1 := nat_of_ascii c1). set (n3 := nat_of_ascii c3).
  change (nat_of_ascii "010") with 10%nat. cbn [Nat.eqb].
  rewrite !andb_false_r. reflexivity.
Qed.

Lemma isspace3_newline_third (c1 c2 : ascii) : Py.isspace3 c1 c2 "010" = false.
Proof.
  unfold Py.isspace3.
  set (n1 := nat_of_ascii c1). set (n2 := nat_of_ascii c2).
  change (nat_of_ascii "010") with 10%nat. cbn [Nat.eqb Nat.leb orb andb].
  rewrite !andb_false_r. reflexivity.
Qed.

(** A newline after a text that [lstrip] leaves alone completes no white
    space at the head of the text. *)
Lemma lstrip_chars_before_newline (l rest : list ascii) :
  Py.lstrip_chars l = l -> l <> [] ->
  Py.lstrip_chars (l ++ "010"%char :: rest) = (l ++ "010"%char :: rest)%list.
Proof.
  intros H Hne. apply lstrip_chars_fixed_head in H.
  destruct l as [|c1 [|c2 [|c3 r]]]; [congruence| | |].
  - destruct H as [H1 _]. cbn [app Py.lstrip_chars].
    rewrite H1, isspace2_newline.
    destruct rest as [|c3 r]; [reflexivity|].
    now rewrite isspace3_newline_second.
  - destruct H as (H1 & H2 & _). cbn [app Py.lstrip_chars].
    now rewrite H1, H2, isspace3_newline_third.
  - destruct H as (H1 & H2 & H3). cbn [app Py.lstrip_chars].
    now rewrite H1, H2, H3.
Qed.

Lemma lstrip_reversed_fence (r : list ascii) :
  Py.lstrip_reversed ("`"%char :: "`"%char :: "`"%char :: r)
  = "`"%char :: "`"%char :: "`"%char :: r.
Proof. reflexivity. Qed.

(** X3.  The cleaning the parsers share undoes a markdown fence: a payload
    with no white space at either end, wrapped in a fence with or without
    the json tag, comes back as it was.  White space is what [str.isspace]
    accepts, the characters beyond ASCII included. *)
Theorem clean_recovers_fenced_payload (tagged : bool) (payload : list ascii) :
  Py.lstrip_chars payload = payload ->
  Py.rstrip_chars payload = payload ->
  clean (fenced tagged payload) = string_of_list_ascii payload.
Proof.
  intros Hl Hr.
  assert (Hrev : Py.lstrip_reversed (rev payload) = rev payload).
  { unfold Py.rstrip_chars in Hr. rewrite <- (rev_involutive (Py.lstrip_reversed _)).
    now rewrite Hr. }
  unfold clean, fenced.
  set (tag := if tagged then list_ascii_of_string "json" else []).
  set (L := (Py.fence ++ tag ++ ["010"%char] ++ payload ++ ["010"%char] ++ Py.fence)%list).
  assert (Hstrip : Py.strip (string_of_list_ascii L) = string_of_list_ascii L).
  { unfold Py.strip. rewrite list_ascii_of_string_of_list_ascii. f_equal.
    change (Py.lstrip_chars L) with L.
    assert (E : L = ((Py.fence ++ tag ++ ["010"%char] ++ payload ++ ["010"%char])
                     ++ ["`"%char; "`"%char; "`"%char])%list).
    { unfold L. rewrite <- !app_assoc. reflexivity. }
    rewrite E. unfold Py.rstrip_chars. rewrite rev_app_distr.
    cbn [rev app]. rewrite lstrip_reversed_fence.
    cbn [rev]. rewrite rev_involutive, <- !app_assoc. reflexivity. }
  rewrite Hstrip.
  assert (Hopen : Py.sub_open_fence (string_of_list_ascii L)
                  = string_of_list_ascii
                      (Py.lstrip_chars (payload ++ ["010"%char] ++ Py.fence))).
  { unfold Py.sub_open_fence. rewrite list_ascii_of_string_of_list_ascii.
    unfold L, tag. destruct tagged; reflexivity. }
  rewrite Hopen.
  unfold Py.sub_close_fence. rewrite list_ascii_of_string_of_list_ascii.
  destruct payload as [|c r] eqn:Hp.
  - reflexivity.
  - rewrite <- Hp in *.
    change (payload ++ ["010"%char] ++ Py.fence)%list
      with (payload ++ "010"%char :: Py.fence)%list.
    rewrite lstrip_chars_before_newline by (assumption || (rewrite Hp; discriminate)).
    rewrite rev_app_distr.
    change (rev ("010"%char :: Py.fence) ++ rev payload)%list
      with ("`"%char :: "`"%char :: "`"%char :: "010"%char :: rev payload).
    cbn [Py.starts_with Py.fence list_ascii_of_string skipn].
    rewrite !Ascii.eqb_refl. cbn [andb].
    change (Py.lstrip_reversed ("010"%char :: rev payload))
      with (Py.lstrip_reversed (rev payload)).
    now rewrite Hrev, rev_involutive.
Qed.

(** ** Input validation and quality assurance *)

Section BaseAgentProps.

(** X4.  [validate_input] raises [ValueError] naming the first required
    field, in the order given, that the input lacks, and returns [True] when
    none is missing; it changes nothing. *)
Theorem validate_input_names_first_missing_field {S : Type}
    (input_data : dict) (required_fields : list string) (s : S) :
  BaseAgent.validate_input input_data required_fields s
  = match List.find (fun f => negb (Py.dict_has input_data f)) required_fields with
    | Some field => (Raised (Exn ValueError ("Missing required field: " ++ field)), s)
    | None => (Returned true, s)
    end.
Proof.
  induction required_fields as [|f r IH]; simpl; [reflexivity|].
  destruct (negb (Py.dict_has input_data f)); [reflexivity | exact IH].
Qed.

End BaseAgentProps.

Section QAExtras.
Context {lib : PyLib}.
Variable env : QA.Env.

(** X5.  When the media library cannot open the video, the technical check
    does not raise: it returns score 0.75, the size check, and the issues of
    the size followed by the message of the exception, after exactly one
    call to the media library and without logging. *)
Theorem unreadable_video_is_an_issue_not_an_error
    (video_path requirements : json) (size : Z) (e : exn) (w : AgentWorld) :
  QA.getsize env video_path = Returned size ->
  QA.VideoFileClip env video_path = Raised e ->
  QA._check_technical_quality env video_path requirements w
  = (Returned
       (JObj [("score", JFloat (75 # 100));
              ("checks",
                JObj [("file_exists", JBool true);
                      ("file_size_mb",
                        JFloat (Py.round_ (inject_Z size / inject_Z (1024 * 1024)) 3))]);
              ("issues",
                JArr (map JStr (size_issues size
                                ++ ["Could not read video metadata: " ++ exn_str e])))]),
     mkAgentWorld (agent_log w) (agent_calls w ++ [MediaProbe video_path])).
Proof.
  intros Hsize Hclip.
  unfold QA._check_technical_quality, bind, lift, ret, delegate, modify.
  rewrite Hsize. cbn [fst snd].
  unfold QA.read_metadata, try_except, bind, lift. rewrite Hclip.
  cbn [except_Exception QA.add_issue modify snd QA.issues QA.checks].
  unfold size_issues.
  destruct (Py.Qltb _ (1 # 10)); [reflexivity|].
  destruct (Py.Qgtb _ 200); reflexivity.
Qed.

(** X6.  When the reply of the model to the review holds no JSON, the
    content check returns the fallback: score 0.5 and the reply kept under
    [raw_response], with one warning logged and one call to the model. *)
Theorem unparseable_review_scores_neutral
    (requirements creative_brief scenes : json) (response : string) (w : AgentWorld) :
  QA.llm_reply env requirements creative_brief scenes = Returned response ->
  both_attempts_fail response = true ->
  QA._check_content_quality env requirements creative_brief scenes w
  = (Returned (QA.content_fallback response),
     mkAgentWorld (agent_log w ++ [(WARNING, "Could not parse JSON from QA response")])
                  (agent_calls w ++ [LLMCall]))
  /\ Py.get (QA.content_fallback response) "score" JNull = Returned (JFloat (5 # 10))
  /\ Py.get (QA.content_fallback response) "raw_response" JNull = Returned (JStr response).
Proof.
  intros Hreply Hfail. split; [|split; reflexivity].
  unfold QA._check_content_quality.
  unfold bind at 1. unfold BaseAgent.call_llm, bind, delegate, modify, try_except, lift.
  rewrite Hreply. cbn [fst snd].
  rewrite qa_parser_run.
  rewrite Hfail, (first_success_fallback _ _ Hfail). reflexivity.
Qed.


End QAExtras.

Section Recommendations.
Context {lib : PyLib}.

Lemma all_distinct_snoc (acc : list json) (r : json) :
  all_distinct acc = true ->
  existsb (QA.py_eq r) acc = false ->
  all_distinct (acc ++ [r]) = true.
Proof.
  induction acc as [|x acc IH]; intros Hd Hr; [reflexivity|].
  cbn [all_distinct app] in *. cbn [existsb] in Hr.
  apply andb_true_iff in Hd. destruct Hd as [Hx Hacc].
  apply orb_false_iff in Hr. destruct Hr as [Hrx Hracc].
  rewrite existsb_app. cbn [existsb]. rewrite Hrx.
  apply negb_true_iff in Hx. rewrite Hx. cbn [orb negb andb]. now apply IH.
Qed.

Lemma dedupe_distinct (recommendations : list json) : forall deduped,
  all_distinct deduped = true ->
  all_distinct (QA.dedupe recommendations deduped) = true.
Proof.
  induction recommendations as [|r rest IH]; intros deduped H; [exact H|].
  cbn [QA.dedupe]. apply IH.
  destruct (existsb (QA.py_eq r) deduped) eqn:E; [exact H|].
  now apply all_distinct_snoc.
Qed.

Lemma existsb_firstn {A} (f : A -> bool) (n : nat) : forall l,
  existsb f l = false -> existsb f (firstn n l) = false.
Proof.
  induction n as [|n IH]; intros [|x l] H; try reflexivity.
  cbn [firstn existsb] in *. apply orb_false_iff in H. destruct H as [-> H].
  now apply IH.
Qed.

Lemma all_distinct_firstn (n : nat) : forall l,
  all_distinct l = true -> all_distinct (firstn n l) = true.
Proof.
  induction n as [|n IH]; intros [|x l] H; try reflexivity.
  cbn [firstn all_distinct] in *. apply andb_true_iff in H. destruct H as [Hx Hl].
  apply negb_true_iff in Hx. rewrite (existsb_firstn _ n l Hx). cbn [negb andb].
  now apply IH.
Qed.

(** X8.  Whenever [_generate_recommendations] returns, it returns a list of
    at most five recommendations, no two of them equal. *)
Theorem recommendations_capped_and_distinct (technical_check content_check v : json) :
  QA._generate_recommendations technical_check content_check = Returned v ->
  exists recommendations,
    v = JArr recommendations
    /\ (List.length recommendations <= 5)%nat
    /\ all_distinct recommendations = true.
Proof.
  unfold QA._generate_recommendations.
  destruct (Py.get technical_check "score" (JFloat 1)); [|discriminate].
  destruct (py_float _); [|discriminate].
  destruct (Py.get content_check "suggestions" (JArr [])); [|discriminate].
  destruct (QA.iterate _); [|discriminate].
  destruct (Py.get content_check "scores" (JObj [])); [|discriminate].
  destruct (Py.or_ _ (JObj [])); try discriminate.
  match goal with
  | |- Returned (JArr ?l) = _ -> _ => set (out := l)
  end.
  assert (Hlen : (List.length out <= 5)%nat) by apply firstn_le_length.
  assert (Hdis : all_distinct out = true)
    by (apply all_distinct_firstn, dedupe_distinct; reflexivity).
  clearbody out. intros [= <-]. eauto.
Qed.
End Recommendations.

(** ** Timing validation at its edges *)

Section TimingEdges.
Context {lib : PyLib}.

(** X9.  An analysis with no [scenes] list, or whose [total_duration] is
    not a number, passes [_validate_timing] unchanged and unlogged. *)
Theorem validate_timing_skips_untimed_analysis (d : dict) (w : AgentWorld) :
  nothing_to_validate d = true ->
  ScriptAnalyzer._validate_timing (JObj d) w = (Returned (JObj d), w).
Proof.
  unfold nothing_to_validate, ScriptAnalyzer._validate_timing, bind, lift, ret.
  cbn [Py.contains Py.getitem Py.get]. unfold Py.dict_has.
  destruct (Py.dict_get d "scenes") as [sv|]; [|reflexivity].
  cbn [negb]. destruct sv; try reflexivity.
  intros ->. reflexivity.
Qed.



End TimingEdges.

(** ** Construction, creative direction and script analysis *)

Section Construction.
Import AgentInit.

(** X11.  An audio producer that was constructed had the model key set, and
    holds an ElevenLabs client exactly when its provider, in lower case, is
    elevenlabs; it holds one only if the ElevenLabs key is set and the
    package was importable. *)
Theorem audio_producer_client_matches_provider
    (getenv : Environ) (importable : bool) (w w' : AgentWorld) (agent : AudioProducer) :
  audio_producer_init getenv importable w = (Returned agent, w') ->
  unset (getenv "ANTHROPIC_API_KEY") = false
  /\ (eleven_client agent = true <-> str_lower (voice_provider agent) = "elevenlabs")
  /\ (eleven_client agent = true ->
      unset (elevenlabs_api_key agent) = false /\ importable = true).
Proof.
  unfold audio_producer_init, base_init, bind, ret, raise, logger, modify.
  destruct (unset (getenv "ANTHROPIC_API_KEY")); [discriminate|].
  split; [reflexivity|]. revert H.
  destruct (String.eqb (str_lower _) "elevenlabs") eqn:Hp.
  - destruct (unset (getenv "ELEVENLABS_API_KEY")) eqn:Hk.
    + intros [= <- <-]. cbn. split; [split; discriminate | discriminate].
    + destruct importable; cbn [negb].
      * intros [= <- <-]. cbn [eleven_client voice_provider elevenlabs_api_key].
        apply String.eqb_eq in Hp. split; [split; auto | auto].
      * intros [= <- <-]. cbn. split; [split; discriminate | discriminate].
  - intros [= <- <-]. cbn [eleven_client voice_provider elevenlabs_api_key].
    split; [split; [discriminate|] | discriminate].
    intros E. rewrite E in Hp. discriminate.
Qed.
End Construction.

Section CreativeStep.
Context {lib : PyLib}.
Import CreativeDirectorAgent.

Lemma missing_keys_of_dict (d : dict) (keys : list string) :
  missing_keys (JObj d) keys = Returned (filter (fun k => negb (Py.dict_has d k)) keys).
Proof.
  induction keys as [|k r IH]; [reflexivity|].
  cbn [missing_keys Py.contains filter]. rewrite IH.
  now destruct (Py.dict_has d k).
Qed.

(** X12.  When the reply of the model parses to a dict, the creative step
    returns that dict, adding under [_missing_keys] the required keys it
    lacks, in the order of the schema, when there are any; it calls the
    model once. *)
Theorem creative_brief_lists_its_missing_keys
    (input_data : dict) (response : string) (brief : dict) (w : AgentWorld) :
  Py.dict_has input_data "product_description" = true ->
  Py.dict_has input_data "target_audience" = true ->
  first_success true response (JObj [("raw_response", JStr response)])
  = Returned (JObj brief) ->
  let missing := filter (fun k => negb (Py.dict_has brief k)) required_keys in
  exists w',
    process input_data (Returned response) w
    = (Returned (JObj (match missing with
                       | [] => brief
                       | _ => Py.dict_set brief "_missing_keys" (JArr (map JStr missing))
                       end)), w')
    /\ agent_calls w' = (agent_calls w ++ [LLMCall])%list.
Proof.
  intros Hp Ha Hparsed missing.
  unfold process. unfold bind at 1. cbn [BaseAgent.validate_input].
  rewrite Hp, Ha. cbn [negb]. unfold ret at 1.
  unfold bind at 1. unfold BaseAgent.call_llm, bind, delegate, modify, try_except, lift.
  cbn [fst snd].
  rewrite creative_parser_run, Hparsed.
  rewrite missing_keys_of_dict. fold missing.
  destruct missing as [|k r].
  - eexists. split; [reflexivity|]. unfold log_if. now destruct (braced_attempt_fails _).
  - unfold logger, modify. cbn [Py.setitem]. eexists. split; [reflexivity|].
    unfold log_if. now destruct (braced_attempt_fails _).
Qed.
End CreativeStep.

Section AnalysisStep.
Context {lib : PyLib}.
Variable int_of_str : string -> option Z.
Import ScriptAnalyzerAgent.

Lemma setdefault_has (d : dict) (k : string) (v : json) :
  Py.dict_has (Py.dict_setdefault d k v) k = true.
Proof.
  unfold Py.dict_setdefault. destruct (Py.dict_has d k) eqn:E; [exact E|].
  unfold Py.dict_has. now rewrite dict_get_set_same.
Qed.

Lemma setdefault_keeps (d : dict) (k k' : string) (v : json) :
  Py.dict_has d k' = true ->
  Py.dict_get (Py.dict_setdefault d k v) k' = Py.dict_get d k'.
Proof.
  intros H. unfold Py.dict_setdefault. destruct (Py.dict_has d k) eqn:E; [reflexivity|].
  apply dict_get_set_other. intros ->. congruence.
Qed.

Lemma setdefault_keeps_has (d : dict) (k k' : string) (v : json) :
  Py.dict_has d k' = true -> Py.dict_has (Py.dict_setdefault d k v) k' = true.
Proof.
  intros H. unfold Py.dict_has in *. now rewrite setdefault_keeps.
Qed.

Lemma setdefault_present (d : dict) (k : string) (v : json) :
  Py.dict_has d k = true -> Py.dict_setdefault d k v = d.
Proof. unfold Py.dict_setdefault. now intros ->. Qed.

Lemma with_defaults_has_fields (d : dict) (target : json) :
  Forall (fun k => Py.dict_has (with_defaults d target) k = true) analysis_fields.
Proof.
  unfold with_defaults, analysis_fields.
  repeat constructor;
    repeat first [ apply setdefault_has | apply setdefault_keeps_has ].
Qed.

(** X13.  The defaults the script analysis step fills in: afterwards the five
    fields are present, every key the analysis already had keeps its value,
    and filling in again changes nothing. *)
Theorem defaults_fill_without_overwriting (d : dict) (target : json) :
  Forall (fun k => Py.dict_has (with_defaults d target) k = true) analysis_fields
  /\ (forall k, Py.dict_has d k = true ->
                Py.dict_get (with_defaults d target) k = Py.dict_get d k)
  /\ (forall target', with_defaults (with_defaults d target) target'
                      = with_defaults d target).
Proof.
  pose proof (with_defaults_has_fields d target) as Hall.
  split; [exact Hall|]. split.
  - intros k Hk. unfold with_defaults.
    rewrite !setdefault_keeps; auto using setdefault_keeps_has.
  - intros target'. 
    unfold analysis_fields in Hall.
    inversion Hall as [|? ? H1 Hall1]; subst. inversion Hall1 as [|? ? H2 Hall2]; subst.
    inversion Hall2 as [|? ? H3 Hall3]; subst. inversion Hall3 as [|? ? H4 Hall4]; subst.
    inversion Hall4 as [|? ? H5 _]; subst.
    set (r := with_defaults d target) in *.
    unfold with_defaults at 1.
    rewrite (setdefault_present r "scenes") by assumption.
    rewrite (setdefault_present r "visual_requirements") by assumption.
    rewrite (setdefault_present r "voiceover_instructions") by assumption.
    rewrite (setdefault_present r "call_to_action") by assumption.
    now rewrite (setdefault_present r "total_duration") by assumption.
Qed.

(** X14.  Whenever the script analysis step returns, it returns a dict that
    has [scenes], [visual_requirements], [voiceover_instructions],
    [call_to_action] and [total_duration]. *)
Theorem script_analysis_step_returns_every_field
    (input_data : dict) (reply : outcome string) (w w' : AgentWorld) (v : json) :
  process int_of_str input_data reply w = (Returned v, w') ->
  exists analysis : dict,
    v = JObj (with_defaults analysis
                (Py.dict_get_default input_data "target_duration" (JInt 30)))
    /\ Forall (fun k => Py.dict_has (with_defaults analysis
                          (Py.dict_get_default input_data "target_duration" (JInt 30))) k
                        = true) analysis_fields.
Proof.
  unfold process. unfold bind at 1.
  destruct (BaseAgent.validate_input input_data ["script"] w) as [[ok|e] w0];
    [|discriminate].
  unfold bind at 1, lift at 1.
  destruct (py_int int_of_str _); [|discriminate].
  unfold bind at 1.
  destruct (BaseAgent.call_llm reply w0) as [[response|e] w1]; [|discriminate].
  unfold bind at 1.
  destruct (ScriptAnalyzer._parse_analysis_response response w1) as [[analysis|e] w2];
    [|discriminate].
  destruct analysis; try discriminate.
  unfold bind, lift. cbn [setdefault].
  intros [= <- <-]. exists d. split; [reflexivity|].
  apply with_defaults_has_fields.
Qed.
End AnalysisStep.

(** ** The visual designer *)

Section VisualStep.
Context {lib : PyLib}.
Import VisualDesignerAgent.
Variable env : Env.

Lemma analyze_from_keeps_readable (paths : list json) :
  forall (acc : list json) (w : AgentWorld),
  exists new w',
    analyze_from env paths acc w = (Returned (acc ++ new)%list, w')
    /\ map path_of new = filter (readable env) paths
    /\ agent_calls w' = agent_calls w
    /\ List.length (agent_log w')
       = (List.length (agent_log w)
          + List.length (filter (fun p => negb (readable env p)) paths))%nat.
Proof.
  induction paths as [|p rest IH]; intros acc w.
  - exists [], w. cbn. rewrite app_nil_r. repeat split; lia.
  - cbn [analyze_from filter].
    assert (Hstep :
      (readable env p = true /\ exists a,
         path_of a = p /\
         try_except
           (bind (lift (os_path_exists (file_exists env) (fd_exists env) p))
              (fun present =>
                 if negb present
                 then bind (logger WARNING ("Image path not found: " ++ str_of_value p))
                        (fun _ => ret acc)
                 else bind (lift (Image_open env p))
                        (fun img => bind (lift (analysis_of p img))
                           (fun analysis => ret (acc ++ [analysis])%list))))
           except_Exception
           (fun e => bind (logger ERROR ("Error analyzing " ++ str_of_value p ++ ": "
                                         ++ exn_str e))
                       (fun _ => ret acc)) w
         = (Returned (acc ++ [a])%list, w))
      \/
      (readable env p = false /\ exists msg,
         try_except
           (bind (lift (os_path_exists (file_exists env) (fd_exists env) p))
              (fun present =>
                 if negb present
                 then bind (logger WARNING ("Image path not found: " ++ str_of_value p))
                        (fun _ => ret acc)
                 else bind (lift (Image_open env p))
                        (fun img => bind (lift (analysis_of p img))
                           (fun analysis => ret (acc ++ [analysis])%list))))
           except_Exception
           (fun e => bind (logger ERROR ("Error analyzing " ++ str_of_value p ++ ": "
                                         ++ exn_str e))
                       (fun _ => ret acc)) w
         = (Returned acc, mkAgentWorld (agent_log w ++ [msg]) (agent_calls w)))).
    { unfold try_except, bind, lift, ret, logger, modify, except_Exception, readable.
      destruct p as [| b | z | q | s | l | d]; cbn [os_path_exists];
        try (right; split; [reflexivity|]; eexists; reflexivity).
      - (* a bool is taken as a file descriptor *)
        destruct (fd_exists env _); cbn [negb].
        + destruct (Image_open env (JBool b)); cbn [analysis_of];
            right; (split; [reflexivity|]); eexists; reflexivity.
        + right; split; [reflexivity|]; eexists; reflexivity.
      - destruct (fd_exists env z); cbn [negb].
        + destruct (Image_open env (JInt z)); cbn [analysis_of];
            right; (split; [reflexivity|]); eexists; reflexivity.
        + right; split; [reflexivity|]; eexists; reflexivity.
      - destruct (file_exists env s); cbn [negb andb].
        + destruct (Image_open env (JStr s)) as [img|e]; cbn [analysis_of].
          * left. split; [reflexivity|]. eexists. split; [|reflexivity]. reflexivity.
          * right. split; [reflexivity|]. eexists; reflexivity.
        + right. split; [reflexivity|]. eexists; reflexivity. }
    unfold bind at 1.
    destruct Hstep as [[Hr [a [Ha ->]]] | [Hr [msg ->]]]; rewrite Hr; cbn [negb].
    + destruct (IH (acc ++ [a])%list w) as (new & w' & -> & Hp & Hc & Hl).
      exists (a :: new), w'. rewrite <- app_assoc. cbn [app map].
      rewrite Ha, Hp. repeat split; auto.
    + destruct (IH acc (mkAgentWorld (agent_log w ++ [msg]) (agent_calls w)))
        as (new & w' & -> & Hp & Hc & Hl).
      exists new, w'. repeat split; auto.
      rewrite Hl. cbn [agent_log length]. rewrite length_app. cbn. lia.
Qed.

(** X15.  On a list of paths [_analyze_images] never raises, whatever the
    paths are and whatever the image library does.  It returns one analysis
    for each path that is a text naming an existing file the library opens,
    in the order given, each carrying its path; it logs one record for every
    other path and calls nothing. *)
Theorem image_analysis_keeps_the_readable_paths (paths : list json) (w : AgentWorld) :
  exists analyses w',
    _analyze_images env paths w = (Returned analyses, w')
    /\ map path_of analyses = filter (readable env) paths
    /\ agent_calls w' = agent_calls w
    /\ List.length (agent_log w')
       = (List.length (agent_log w)
          + List.length (filter (fun p => negb (readable env p)) paths))%nat.
Proof.
  destruct (analyze_from_keeps_readable paths [] w) as (new & w' & H & Hp & Hc & Hl).
  exists new, w'. unfold _analyze_images. rewrite H. auto.
Qed.

Lemma instructions_for_dicts (ms : list json) :
  Forall (fun m => is_dict m = true) ms ->
  exists ins, instructions_for ms = Returned ins
              /\ List.length ins = List.length ms
              /\ map scene_id_of ins = map scene_id_of ms
              /\ Forall (fun i => Py.get i "priority" JNull = Returned (JStr "high")) ins.
Proof.
  induction 1 as [|m ms Hm _ IH].
  - exists []. cbn. auto.
  - destruct IH as (ins & E & Hl & Hs & Hp).
    destruct m; try discriminate. cbn [instructions_for Py.get]. rewrite E.
    eexists. split; [reflexivity|]. cbn [length map]. rewrite Hl, Hs.
    repeat split; auto.
Qed.

(** X16.  For scene visuals whose [scene_matches] is a list of dicts,
    [_create_processing_instructions] returns one instruction per match, in
    the same order and for the same scene, each of priority high. *)
Theorem one_instruction_per_scene_match (scene_visuals : dict) (ms : list json) :
  Py.dict_get scene_visuals "scene_matches" = Some (JArr ms) ->
  Forall (fun m => is_dict m = true) ms ->
  exists ins,
    _create_processing_instructions (JObj scene_visuals) = Returned (JArr ins)
    /\ List.length ins = List.length ms
    /\ map scene_id_of ins = map scene_id_of ms
    /\ Forall (fun i => Py.get i "priority" JNull = Returned (JStr "high")) ins.
Proof.
  intros Hg Hd. destruct (instructions_for_dicts ms Hd) as (ins & E & H).
  exists ins. split; [|exact H].
  unfold _create_processing_instructions. cbn [Py.get].
  rewrite (dict_get_default_some _ _ _ _ Hg). cbn [QA.iterate]. now rewrite E.
Qed.

Lemma visual_process_run
    (input_data : dict) (paths : list json) (scene_requirements : json)
    (response : string) (w : AgentWorld) :
  Py.dict_get input_data "images" = Some (JArr paths) ->
  Py.dict_get input_data "scene_requirements" = Some scene_requirements ->
  (forall analysis brief,
     match_reply env analysis scene_requirements brief = Returned response) ->
  exists analyses w',
    map path_of analyses = filter (readable env) paths
    /\ agent_calls w' = (agent_calls w ++ [LLMCall])%list
    /\ process env input_data w
       = match first_success false response VisualDesigner.match_fallback with
         | Returned scene_visuals =>
             match _create_processing_instructions scene_visuals with
             | Returned processing_instructions =>
                 (Returned (JObj [("image_analysis", JArr analyses);
                                  ("scene_visuals", scene_visuals);
                                  ("processing_instructions", processing_instructions)]),
                  w')
             | Raised e => (Raised e, w')
             end
         | Raised e => (Raised e, w')
         end.
Proof.
  intros Hi Hs Hreply.
  destruct (analyze_from_keeps_readable paths [] w)
    as (analyses & w1 & Hrun & Hp & Hc & _).
  exists analyses.
  exists (log_if (both_attempts_fail response) WARNING
            "Could not parse JSON from VisualDesigner response"
            (mkAgentWorld (agent_log w1) (agent_calls w1 ++ [LLMCall]))).
  split; [exact Hp|]. split.
  { unfold log_if. destruct (both_attempts_fail response); cbn [agent_calls]; now rewrite Hc. }
  unfold process. unfold bind at 1. cbn [BaseAgent.validate_input].
  rewrite (dict_has_some _ _ _ Hi), (dict_has_some _ _ _ Hs). cbn [negb].
  unfold ret at 1. unfold bind at 1, lift at 1. cbn [Py.getitem]. rewrite Hi.
  unfold bind at 1, lift at 1. rewrite Hs.
  unfold bind at 1, lift at 1. cbn [QA.iterate].
  unfold bind at 1. unfold _analyze_images. rewrite Hrun. cbn [app].
  unfold bind at 1. rewrite Hreply.
  unfold VisualDesigner._match_images_to_scenes.
  unfold bind at 1. unfold BaseAgent.call_llm, bind, delegate, modify, try_except, lift.
  cbn [fst snd]. rewrite visual_parser_run.
  destruct (first_success false response VisualDesigner.match_fallback);
    [|reflexivity].
  destruct (_create_processing_instructions _); reflexivity.
Qed.

(** X17.  A reply that parses to a dict whose [scene_matches] is [null]
    makes the visual step raise [TypeError], after the call to the model:
    [_create_processing_instructions] iterates over the value without the
    guard the video editor puts on it. *)
Theorem null_scene_matches_stop_the_visual_step
    (input_data : dict) (paths : list json) (scene_requirements : json)
    (response : string) (scene_visuals : dict) (w : AgentWorld) :
  Py.dict_get input_data "images" = Some (JArr paths) ->
  Py.dict_get input_data "scene_requirements" = Some scene_requirements ->
  (forall analysis brief,
     match_reply env analysis scene_requirements brief = Returned response) ->
  first_success false response VisualDesigner.match_fallback
  = Returned (JObj scene_visuals) ->
  Py.dict_get scene_visuals "scene_matches" = Some JNull ->
  exists w',
    process env input_data w
    = (Raised (Exn TypeError "'NoneType' object is not iterable"), w')
    /\ agent_calls w' = (agent_calls w ++ [LLMCall])%list.
Proof.
  intros Hi Hs Hreply Hparsed Hnull.
  destruct (visual_process_run input_data paths scene_requirements response w Hi Hs Hreply)
    as (analyses & w' & _ & Hc & ->).
  exists w'. split; [|exact Hc].
  rewrite Hparsed. unfold _create_processing_instructions. cbn [Py.get].
  now rewrite (dict_get_default_some _ _ _ _ Hnull).
Qed.

(** X18.  When the reply of the model holds no JSON, the visual step
    still returns: the analyses of the readable images, the fallback with
    no scene match as [scene_visuals], and no processing instruction. *)
Theorem visual_step_survives_unparseable_reply
    (input_data : dict) (paths : list json) (scene_requirements : json)
    (response : string) (w : AgentWorld) :
  Py.dict_get input_data "images" = Some (JArr paths) ->
  Py.dict_get input_data "scene_requirements" = Some scene_requirements ->
  (forall analysis brief,
     match_reply env analysis scene_requirements brief = Returned response) ->
  both_attempts_fail response = true ->
  exists analyses w',
    process env input_data w
    = (Returned (JObj [("image_analysis", JArr analyses);
                       ("scene_visuals", VisualDesigner.match_fallback);
                       ("processing_instructions", JArr [])]), w')
    /\ map path_of analyses = filter (readable env) paths.
Proof.
  intros Hi Hs Hreply Hfail.
  destruct (visual_process_run input_data paths scene_requirements response w Hi Hs Hreply)
    as (analyses & w' & Hp & _ & ->).
  exists analyses, w'. split; [|exact Hp].
  now rewrite (first_success_fallback _ _ Hfail).
Qed.
End VisualStep.

(** ** The video editor and the command line *)

Section EditorStep.
Context {lib : PyLib}.
Import VideoEditorAgent.
Variable int_of_str : string -> option Z.
Variable env : Env.



End EditorStep.

Section Inputs.
Import Main.

(** X22.  [validate_inputs] never raises; it returns [True] exactly when
    every image path exists and the script, stripped of the white space
    [str.strip] removes, has at least ten characters as [len] counts them,
    and logs one error exactly when it returns [False]. *)
Theorem validate_inputs_accepts_exactly_usable_inputs
    (file_exists : string -> bool) (image_paths : list string) (script : string)
    (w : AgentWorld) :
  let accepted :=
    forallb file_exists image_paths
    && (10 <=? Z.of_nat (Py.len_str (Py.strip script))) in
  exists w',
    validate_inputs file_exists image_paths script w = (Returned accepted, w')
    /\ agent_calls w' = agent_calls w
    /\ List.length (agent_log w')
       = (List.length (agent_log w) + if accepted then 0 else 1)%nat.
Proof.
  intros accepted. subst accepted. unfold validate_inputs, first_missing.
  destruct (find _ image_paths) as [p|] eqn:Hf.
  - assert (forallb file_exists image_paths = false) as ->.
    { apply find_some in Hf. destruct Hf as [Hin Hp].
      apply not_true_is_false. intros Hall. rewrite forallb_forall in Hall.
      rewrite (Hall _ Hin) in Hp. discriminate. }
    cbn [andb]. unfold bind, logger, modify, ret. eexists. split; [reflexivity|].
    cbn [agent_calls agent_log]. rewrite length_app. cbn. split; [reflexivity | lia].
  - assert (forallb file_exists image_paths = true) as ->.
    { apply forallb_forall. intros x Hx. pose proof (find_none _ _ Hf x Hx) as Hn.
      cbn in Hn. now destruct (file_exists x). }
    cbn [andb].
    assert (Hempty : Py.truthy (JStr script) = false ->
                     (10 <=? Z.of_nat (Py.len_str (Py.strip script))) = false).
    { cbn [Py.truthy]. intros H. apply negb_false_iff in H. apply String.eqb_eq in H.
      subst script. reflexivity. }
    destruct (10 <=? Z.of_nat (Py.len_str (Py.strip script))) eqn:Hlen.
    + assert (Py.truthy (JStr script) = true) as ->
        by (destruct (Py.truthy (JStr script)); [reflexivity | now specialize (Hempty eq_refl)]).
      apply Z.leb_le in Hlen.
      destruct (Z.ltb_spec (Z.of_nat (Py.len_str (Py.strip script))) 10); [lia|].
      cbn [negb orb]. unfold ret. exists w. repeat split; lia.
    + apply Z.leb_gt in Hlen.
      destruct (Z.ltb_spec (Z.of_nat (Py.len_str (Py.strip script))) 10); [|lia].
      rewrite orb_true_r. unfold bind, logger, modify, ret.
      eexists. split; [reflexivity|].
      cbn [agent_calls agent_log]. rewrite length_app. cbn. split; [reflexivity | lia].
Qed.
End Inputs.

(** ** More on the runs of the orchestrator *)

Module OrchestratorRuns.
Import Orchestrator OrchestratorProofs OrchDefs.

Section More.
Context {lib : PyLib}.
Variable env : Env.

Ltac run_cases env a o calls Hcalls Hend :=
  let H := fresh in
  pose proof (run_shape_holds env a o) as H;
  generalize dependent (generate_advertisement env a o);
  intros [r o'] H; cbn [fst snd] in *;
  destruct H as (_ & calls & Hcalls & Hend).

(** X23.  Whatever the agents do, the steps a run calls are a prefix of the
    pipeline: each step at most once, in the fixed order, none skipped. *)
Theorem steps_run_in_pipeline_order (a : Args) (o : Orch) :
  let o' := snd (generate_advertisement env a o) in
  exists n, map fst (run_calls o o') = firstn n pipeline.
Proof.
  cbv zeta. run_cases env a o calls Hcalls Hend.
  assert (Hrc : run_calls o o' = calls).
  { unfold run_calls. rewrite Hcalls. apply skipn_own_length. }
  rewrite Hrc.
  destruct Hend as [(result & _ & _ & Hp & _)
                   | [(k & i & e & earlier & -> & Hb & _)
                     | (k & e & Hp & _)]].
  - exists 6%nat. exact Hp.
  - rewrite map_app, Hb. cbn [map fst].
    destruct k; [exists 1%nat | exists 2%nat | exists 3%nat | exists 4%nat
                | exists 5%nat | exists 6%nat]; reflexivity.
  - rewrite Hp.
    destruct k; [exists 1%nat | exists 2%nat | exists 3%nat | exists 4%nat
                | exists 5%nat | exists 6%nat]; reflexivity.
Qed.

(** X24.  A run never raises.  A run that fails appends exactly the error it
    reports to the errors of the state, and the state it returns is the state
    the orchestrator keeps; a run that succeeds leaves the errors as they
    were. *)
Theorem error_list_grows_by_the_reported_error (a : Args) (o : Orch) :
  let run := generate_advertisement env a o in
  match fst run with
  | Returned (Failure error snapshot) =>
      errors (state (snd run)) = (errors (state o) ++ [error])%list
      /\ snapshot = state (snd run)
  | Returned _ => errors (state (snd run)) = errors (state o)
  | Raised _ => False
  end.
Proof.
  cbv zeta. run_cases env a o calls Hcalls Hend.
  destruct Hend as [(result & -> & Hs & _ & _ & He & _)
                   | [(k & i & e & earlier & _ & _ & _ & _ & -> & He & _)
                     | (k & e & _ & _ & -> & He & _)]].
  - destruct result; [exact He | discriminate].
  - now split.
  - now split.
Qed.

Ltac wp_norm :=
  progress cbn beta iota zeta delta
    [state log files invoked status current_step outputs errors except_Exception].

Ltac wp :=
  first
    [ wp_norm
    | lazymatch goal with
      | |- post (bind _ _) _ _ => apply post_bind
      | |- post (try_except _ _ _) _ _ => apply post_try_except
      | |- post (modify _) _ _ => apply post_modify
      | |- post (lift _) _ _ => apply post_lift
      | |- post (ret _) _ _ => apply post_ret
      | |- post (raise _) _ _ => apply post_raise
      | |- post get _ _ => apply post_get
      | |- post (logger _ _) _ _ => unfold logger
      | |- post (set_current_step _) _ _ => unfold set_current_step, with_state
      | |- post (set_output _ _) _ _ => unfold set_output, with_state
      | |- post (append_error _) _ _ => unfold append_error, with_state
      | |- post (process _ _ _) _ _ => unfold process
      | |- post (_save_workflow_state _ _) _ _ => unfold _save_workflow_state
      | |- post (if ?c then _ else _) _ _ => destruct c
      end ].

Lemma smooth_run_holds (a : Args) (o : Orch) :
  agents_return_dicts env ->
  scenes_have_length env ->
  post (generate_advertisement env a) o (smooth_run env o).
Proof.
  intros Hdict Hsized.
  unfold generate_advertisement.
  repeat first
    [ wp
    | lazymatch goal with
      | |- match agent env ScriptAnalysis ?i with Returned _ => _ | Raised _ => _ end =>
          let d := fresh "d" in let E := fresh "E" in
          destruct (Hdict ScriptAnalysis i) as [d E];
          pose proof (Hsized _ _ E); rewrite E
      | |- match agent env ?s ?i with Returned _ => _ | Raised _ => _ end =>
          let d := fresh "d" in let E := fresh "E" in
          destruct (Hdict s i) as [d E]; rewrite E
      | |- match Py.get (JObj _) _ _ with Returned _ => _ | Raised _ => _ end =>
          cbn [Py.get]
      | |- match len ?v with Returned _ => _ | Raised _ => _ end =>
          let E := fresh "E" in
          destruct v eqn:E; try discriminate; cbn [len]
      end ].
  all: destruct (write_refused env _) eqn:W.
  all: repeat wp.
  all: unfold smooth_run, state_file; cbn [state outputs current_step errors files].
  all: change ("data/output/workflows" ++ "/" ++ "workflow_" ++ timestamp env ++ ".json")
         with ("data/output/workflows/workflow_" ++ timestamp env ++ ".json") in W.
  all: rewrite W.
  all: do 2 eexists.
  all: split; [rewrite dict_get_set_other by discriminate; apply dict_get_set_same|].
  all: split; [apply dict_get_set_same|].
  all: split; [reflexivity|].
  all: split; [unfold run_calls; cbn [invoked]; rewrite <- !app_assoc;
               rewrite skipn_own_length; reflexivity|].
  all: first [ split; [reflexivity | split; reflexivity]
             | split; [eexists; split; reflexivity | reflexivity] ].
Qed.

(** X25.  When every agent returns a dict, the scenes of the script analysis
    have a length and the state file can be written, the run returns a
    success result whatever the verdict of the review: [approved] and
    [quality_score] are copied from the report, never tested, and the report
    is attached as [qa_report]. *)
Theorem run_succeeds_whatever_the_verdict (a : Args) (o : Orch) :
  agents_return_dicts env ->
  scenes_have_length env ->
  write_refused env (state_file env) = None ->
  let run := generate_advertisement env a o in
  exists (video_output qa_result metadata : dict),
    Py.dict_get (outputs (state (snd run))) "video_output" = Some (JObj video_output)
    /\ Py.dict_get (outputs (state (snd run))) "qa_result" = Some (JObj qa_result)
    /\ fst run
       = Returned
           (Success (Py.dict_get_default video_output "video_path" JNull)
                    (Py.dict_get_default video_output "duration" JNull)
                    (Py.dict_get_default qa_result "quality_score" JNull)
                    (Py.dict_get_default qa_result "approved" JNull)
                    (Py.round_ (elapsed_seconds env) 2)
                    metadata)
    /\ Py.dict_get metadata "qa_report" = Some (JObj qa_result)
    /\ errors (state (snd run)) = errors (state o).
Proof.
  intros Hagents Hsized Hwrite. cbv zeta.
  destruct (smooth_run_holds a o Hagents Hsized)
    as (vo & qa & Hvo & Hqa & _ & Hcalls & Hend).
  rewrite Hwrite in Hend. destruct Hend as [(metadata & Hr & Hm) He].
  exists vo, qa, metadata. auto.
Qed.

(** X26.  When every agent returns a dict and the scenes of the script
    analysis have a length, but opening the state file for writing raises,
    the run returns a failure carrying the message of that error, although
    all six steps ran and their outputs are in the state; no snapshot
    document is recorded. *)
Theorem refused_write_fails_a_finished_run (a : Args) (o : Orch) (e : exn) :
  agents_return_dicts env ->
  scenes_have_length env ->
  write_refused env (state_file env) = Some e ->
  let run := generate_advertisement env a o in
  fst run = Returned (Failure (exn_str e) (state (snd run)))
  /\ map fst (run_calls o (snd run)) = pipeline
  /\ Py.dict_has (outputs (state (snd run))) "qa_result" = true
  /\ errors (state (snd run)) = (errors (state o) ++ [exn_str e])%list
  /\ files (snd run) = files o.
Proof.
  intros Hagents Hsized Hwrite. cbv zeta.
  destruct (smooth_run_holds a o Hagents Hsized)
    as (vo & qa & Hvo & Hqa & _ & Hcalls & Hend).
  rewrite Hwrite in Hend. destruct Hend as (Hr & He & Hf).
  split; [exact Hr|]. split; [exact Hcalls|]. split; [|split; assumption].
  unfold Py.dict_has. now rewrite Hqa.
Qed.
End More.
End OrchestratorRuns.

(** ** The agents on worked inputs *)

Import Examples.

#[local] Existing Instance RefLib.reference.


(** Durations of 5.4 s, 12.8 s and 12.8 s make 31 s as written, within the
    tolerance of a target of 30 s, but a hair more when added as floats:
    the code warns and adjusts nothing. *)
Lemma float_sum_just_over_tolerance_is_left_alone :
  (exists scenes,
     Py.dict_get three_scenes "scenes" = Some (JArr scenes)
     /\ (Qabs (sum_of_durations scenes - 30) <= 1)%Q)
  /\ ScriptAnalyzer._validate_timing (JObj three_scenes) quiet
     = (Returned (JObj three_scenes),
        mkAgentWorld
          [(WARNING, "Scene durations (31.00s) don't match target (30s)")] []).
Proof.
  split; [| vm_compute; reflexivity].
  eexists. split; [reflexivity|]. vm_compute. discriminate.
Qed.

(** After an adjustment the durations as written can still miss the target
    by more than a hundredth: next to a scene of 1e17 s, the 0.3 s of the
    last scene vanish in the float sum and stay in the analysis. *)
Lemma adjusted_sum_can_miss_the_target :
  ScriptAnalyzer._validate_timing (JObj endless_analysis) quiet
  = (Returned
       (JObj [("total_duration", JInt 100000000000000000);
              ("scenes",
                JArr [JObj [("scene_id", JStr "scene_1");
                            ("duration", JInt 100000000000000000)];
                      JObj [("scene_id", JStr "scene_2");
                            ("duration", binary64 (3 # 10))]])]),
     quiet)
  /\ ~ (Qabs (inject_Z 100000000000000000 + F64.to_Q (F64.of_Q (3 # 10))
              - inject_Z 100000000000000000) <= 1 # 100)%Q.
Proof.
  split; [vm_compute; reflexivity|].
  intros H. vm_compute in H. apply H. reflexivity.
Qed.


Lemma validate_timing_warns_beyond_tolerance_witness :
  ScriptAnalyzer._validate_timing (JObj (two_scenes 12)) quiet
  = (Returned (JObj (two_scenes 12)),
     mkAgentWorld
       [(WARNING, "Scene durations (27.00s) don't match target (30s)")] []).
Proof.
  exact (validate_timing_warns_beyond_tolerance (lib := RefLib.reference)
           (two_scenes 12) [first_scene; JObj (second_scene 12)] (JInt 30)
           (F64.of_Q 27) (F64.of_Q 30) quiet
           eq_refl eq_refl eq_refl eq_refl eq_refl eq_refl).
Defined.

(** A scene of 31 s and one of 1e-18 s are more than one second over a
    target of 30 s as written, but exactly one second over once added as
    floats: the code logs nothing and sets the last duration to -1.0. *)
Lemma float_sum_hides_excess_over_tolerance :
  (exists scenes,
     Py.dict_get long_and_fleeting "scenes" = Some (JArr scenes)
     /\ Forall (fun s => is_dict s = true) scenes
     /\ (1 < Qabs (sum_of_durations scenes - 30))%Q)
  /\ ScriptAnalyzer._validate_timing (JObj long_and_fleeting) quiet
     = (Returned
          (JObj [("total_duration", JInt 30);
                 ("scenes",
                   JArr [overlong_scene;
                         JObj [("scene_id", JStr "scene_2");
                               ("duration", binary64 (-1))]])]),
        quiet).
Proof.
  split; [| vm_compute; reflexivity].
  eexists. split; [reflexivity|]. split; [repeat constructor|].
  vm_compute. reflexivity.
Qed.

(** The weighted sum is rounded as a float: a technical score of 0.75 and a
    content score of 0.5 make 0.575 on paper, which rounds to 0.58, and a
    float just below it, which rounds to 0.57. *)
Lemma weighted_score_rounds_the_float :
  QA._calculate_quality_score (JObj [("score", JFloat (75 # 100))])
                              (JObj [("score", JFloat (5 # 10))])
  = Returned (F64.of_Q (57 # 100))
  /\ (Py.round_ ((75 # 100) * (3 # 10) + (5 # 10) * (7 # 10)) 2 == 58 # 100)%Q.
Proof. split; vm_compute; reflexivity. Qed.

(** C7.  A rubric on a percent scale gives a content score of 5.01, under
    the comment that normalizes it to the range from 0 to 1, and a quality
    score of 3.81, above 1, with the video approved. *)
Theorem rubric_on_percent_scale_breaks_score_claim :
  exists w',
    QA.process (review_env percent_rubric_reply) review_input quiet
    = (Returned
         (JObj [("approved", JBool true);
                ("quality_score", binary64 (381 # 100));
                ("technical_check",
                  JObj [("score", JFloat 1);
                        ("checks",
                          JObj [("file_exists", JBool true);
                                ("file_size_mb", JFloat (5000 # 1000));
                                ("duration_seconds", JFloat (3000 # 100));
                                ("fps", JFloat 30);
                                ("resolution", JStr "1920x1080");
                                ("has_audio", JBool true)]);
                        ("issues", JArr [])]);
                ("content_check",
                  JObj [("scores", JObj [("overall_effectiveness", JFloat (501 # 10))]);
                        ("score", JFloat (501 # 100))]);
                ("issues", JArr []);
                ("recommendations", JArr [])]), w')
  /\ (1 < 501 # 100)%Q
  /\ (1 < F64.to_Q (F64.of_Q (381 # 100)))%Q.
Proof.
  eexists. split; [vm_compute; reflexivity|].
  split; vm_compute; reflexivity.
Qed.

Lemma quality_score_is_the_rounded_weighted_sum_witness :
  let report :=
    match fst (QA.process (review_env rubric_reply) review_input quiet) with
    | Returned report => report
    | Raised _ => JNull
    end in
  exists (technical_check content_check cs : json) (issues : list string)
         (content : F64.t),
    Py.get report "technical_check" JNull = Returned technical_check
    /\ Py.get report "content_check" JNull = Returned content_check
    /\ Py.get technical_check "score" JNull
       = Returned (JFloat (QA.technical_score issues))
    /\ Py.get content_check "score" (JFloat (5 # 10)) = Returned cs
    /\ to_float cs = Returned content
    /\ let technical := F64.of_Q (QA.technical_score issues) in
       let quality_score :=
         F64.round (F64.add (F64.mul technical (F64.of_Q (3 # 10)))
                            (F64.mul content (F64.of_Q (7 # 10)))) 2 in
       Py.get report "quality_score" JNull
       = Returned (JFloat (F64.to_Q quality_score))
       /\ Py.get report "approved" JNull
          = Returned (JBool (F64.leb (F64.of_Q (8 # 10)) quality_score)).
Proof.
  intros report.
  apply (quality_score_is_the_rounded_weighted_sum (lib := RefLib.reference)
           (review_env rubric_reply) review_input
           (JStr "data/output/videos/final_ad.mp4") report quiet
           (snd (QA.process (review_env rubric_reply) review_input quiet))).
  - reflexivity.
  - reflexivity.
  - vm_compute. reflexivity.
Defined.

(** The review of the worked video: a technical score of 1.0 and a content
    score of 0.72 make the quality score 0.8, and the video is approved. *)
Lemma worked_review_scores :
  exists (checks recommendations : json) (w' : AgentWorld),
    QA.process (review_env rubric_reply) review_input quiet
    = (Returned
         (JObj [("approved", JBool true);
                ("quality_score", binary64 (8 # 10));
                ("technical_check",
                  JObj [("score", JFloat 1); ("checks", checks); ("issues", JArr [])]);
                ("content_check",
                  JObj [("scores", JObj [("message_clarity", JInt 8);
                                         ("pacing", JFloat (13 # 2))]);
                        ("suggestions", JArr [JStr "Shorten the intro"]);
                        ("score", JFloat (72 # 100))]);
                ("issues", JArr []);
                ("recommendations", recommendations)]), w').
Proof. do 3 eexists. vm_compute. reflexivity. Qed.

Lemma missing_video_report_witness :
  QA.process (review_env rubric_reply)
             [("video_path", JStr "data/output/videos/lost.mp4")] quiet
  = (Returned QA.missing_file_report, quiet).
Proof.
  exact (proj1 (missing_video_report (lib := RefLib.reference)
                  (review_env rubric_reply)
                  [("video_path", JStr "data/output/videos/lost.mp4")]
                  "data/output/videos/lost.mp4" quiet eq_refl eq_refl)).
Defined.

(** C2.  The parser of the script analyzer raises on a reply that is valid
    JSON of an unexpected shape: a bare number, or scenes that are texts. *)
Theorem analysis_parser_raises_on_unexpected_shapes :
  ScriptAnalyzer._parse_analysis_response "5" quiet
  = (Raised (Exn TypeError "argument of type 'int' is not iterable"), quiet)
  /\ ScriptAnalyzer._parse_analysis_response
       (RefLib.dq "{'total_duration': 30, 'scenes': ['intro', 'outro']}") quiet
     = (Raised (Exn AttributeError "'str' object has no attribute 'get'"), quiet).
Proof. split; vm_compute; reflexivity. Qed.

(** C9.  On a reply that holds no JSON the visual designer returns its
    fallback, which holds no text at all: the reply is lost. *)
Theorem visual_fallback_drops_raw_text :
  VisualDesigner._match_images_to_scenes
    (Returned "Sorry, I cannot match these images.") quiet
  = (Returned (JObj [("scene_matches", JArr []); ("missing_visuals", JArr [])]),
     mkAgentWorld [(WARNING, "Could not parse JSON from VisualDesigner response")]
                  [LLMCall])
  /\ texts_of VisualDesigner.match_fallback = [].
Proof. split; vm_compute; reflexivity. Qed.

(** ** The rest of the agents on worked inputs *)

Import Cases.

Lemma clean_recovers_fenced_payload_witness :
  clean (fenced true (list_ascii_of_string brief_payload)) = brief_payload
  /\ clean (fenced false (list_ascii_of_string brief_payload)) = brief_payload.
Proof.
  split.
  - exact (clean_recovers_fenced_payload true (list_ascii_of_string brief_payload)
             eq_refl eq_refl).
  - exact (clean_recovers_fenced_payload false (list_ascii_of_string brief_payload)
             eq_refl eq_refl).
Defined.

Lemma unreadable_video_is_an_issue_not_an_error_witness :
  QA._check_technical_quality damaged_video_env
    (JStr "data/output/videos/final_ad.mp4") JNull quiet
  = (Returned
       (JObj [("score", JFloat (75 # 100));
              ("checks", JObj [("file_exists", JBool true);
                               ("file_size_mb",
                                 JFloat (Py.round_ (inject_Z 5242880
                                                    / inject_Z (1024 * 1024)) 3))]);
              ("issues",
                JArr [JStr "Could not read video metadata: MoviePy error: failed to read the duration of file"])]),
     mkAgentWorld [] [MediaProbe (JStr "data/output/videos/final_ad.mp4")]).
Proof.
  exact (unreadable_video_is_an_issue_not_an_error damaged_video_env
           (JStr "data/output/videos/final_ad.mp4") JNull 5242880
           (Exn OSError "MoviePy error: failed to read the duration of file")
           quiet eq_refl eq_refl).
Defined.

Lemma unparseable_review_scores_neutral_witness :
  fst (QA._check_content_quality (review_env chatty_reply) JNull JNull JNull quiet)
  = Returned (QA.content_fallback chatty_reply)
  /\ Py.get (QA.content_fallback chatty_reply) "raw_response" JNull
     = Returned (JStr chatty_reply).
Proof.
  destruct (unparseable_review_scores_neutral (review_env chatty_reply)
              JNull JNull JNull chatty_reply quiet) as (Hrun & _ & Hraw).
  - reflexivity.
  - vm_compute. reflexivity.
  - split; [now rewrite Hrun | exact Hraw].
Defined.


Lemma recommendations_capped_and_distinct_witness :
  exists recommendations,
    JArr [JStr "Review technical video specs (duration, resolution, fps).";
          JStr "Check audio levels and ensure voiceover is present.";
          JStr "Compress or re-export with optimized bitrate if file is too large.";
          JStr "Shorten the intro"; JStr "Add captions"]
    = JArr recommendations
    /\ (List.length recommendations <= 5)%nat
    /\ all_distinct recommendations = true.
Proof.
  apply (recommendations_capped_and_distinct weak_technical_check
           repetitive_content_check).
  vm_compute. reflexivity.
Defined.

Lemma validate_timing_skips_untimed_analysis_witness :
  ScriptAnalyzer._validate_timing (JObj untimed_analysis) quiet
  = (Returned (JObj untimed_analysis), quiet).
Proof.
  exact (validate_timing_skips_untimed_analysis untimed_analysis quiet eq_refl).
Defined.


(** The overshooting analysis comes back with a last scene of -0.3 s that
    ends, at 30.0 s, before it starts. *)
Lemma overshooting_analysis_adjusted :
  ScriptAnalyzer._validate_timing (JObj overshooting_analysis) quiet
  = (Returned
       (JObj [("total_duration", JInt 30);
              ("scenes",
                JArr [long_scene;
                      JObj [("scene_id", JStr "scene_2");
                            ("start_time", JFloat (303 # 10));
                            ("end_time", binary64 30);
                            ("duration", binary64 (- (3 # 10)))]])]),
     quiet).
Proof. vm_compute. reflexivity. Qed.

Lemma audio_producer_client_matches_provider_witness :
  let agent :=
    AgentInit.mkAudioProducer
      (AgentInit.mkAgent "AudioProducer" "claude-sonnet-4-5-20250929")
      (Some "el-test") "ElevenLabs" true in
  AgentInit.unset (elevenlabs_environ "ANTHROPIC_API_KEY") = false
  /\ (AgentInit.eleven_client agent = true
      <-> str_lower (AgentInit.voice_provider agent) = "elevenlabs")
  /\ (AgentInit.eleven_client agent = true ->
      AgentInit.unset (AgentInit.elevenlabs_api_key agent) = false /\ true = true).
Proof.
  exact (audio_producer_client_matches_provider elevenlabs_environ true quiet quiet
           _ eq_refl).
Defined.

Lemma creative_brief_lists_its_missing_keys_witness :
  exists w',
    CreativeDirectorAgent.process creative_input
      (Returned (fenced true (list_ascii_of_string brief_payload))) quiet
    = (Returned
         (JObj (Py.dict_set short_brief "_missing_keys"
                  (JArr (map JStr ["visual_style"; "color_palette"; "key_messages";
                                   "target_emotion"; "storyboard_outline";
                                   "music_style"; "pacing"])))), w')
    /\ agent_calls w' = [LLMCall].
Proof.
  apply (creative_brief_lists_its_missing_keys creative_input
           (fenced true (list_ascii_of_string brief_payload)) short_brief quiet).
  - reflexivity.
  - reflexivity.
  - vm_compute. reflexivity.
Defined.

Lemma script_analysis_step_returns_every_field_witness :
  exists analysis : dict,
    JObj [("scenes", JArr []); ("visual_requirements", JArr []);
          ("voiceover_instructions", JObj []); ("call_to_action", JObj []);
          ("total_duration", JInt 30)]
    = JObj (ScriptAnalyzerAgent.with_defaults analysis
              (Py.dict_get_default script_input "target_duration" (JInt 30)))
    /\ Forall (fun k => Py.dict_has (ScriptAnalyzerAgent.with_defaults analysis
                          (Py.dict_get_default script_input "target_duration" (JInt 30))) k
                        = true) analysis_fields.
Proof.
  apply (script_analysis_step_returns_every_field small_int script_input
           (Returned bare_analysis_reply) quiet
           (mkAgentWorld [] [LLMCall])).
  vm_compute. reflexivity.
Defined.

Lemma one_instruction_per_scene_match_witness :
  exists ins,
    VisualDesignerAgent._create_processing_instructions (JObj matched_visuals)
    = Returned (JArr ins)
    /\ List.length ins = 2%nat
    /\ map scene_id_of ins = [JStr "scene_1"; JStr "scene_2"]
    /\ Forall (fun i => Py.get i "priority" JNull = Returned (JStr "high")) ins.
Proof.
  apply (one_instruction_per_scene_match matched_visuals
           [JObj [("scene_id", JStr "scene_1"); ("image_id", JInt 0);
                  ("composition", JObj [("crop", JStr "center")])];
            JObj [("scene_id", JStr "scene_2"); ("image_id", JNull)]]).
  - reflexivity.
  - repeat constructor.
Defined.

Lemma null_scene_matches_stop_the_visual_step_witness :
  exists w',
    VisualDesignerAgent.process (gallery null_matches_reply) visual_input quiet
    = (Raised (Exn TypeError "'NoneType' object is not iterable"), w')
    /\ agent_calls w' = [LLMCall].
Proof.
  apply (null_scene_matches_stop_the_visual_step (gallery null_matches_reply)
           visual_input
           [JStr "data/input/can.png"; JStr "data/input/missing.png"]
           (JArr [first_scene]) null_matches_reply [("scene_matches", JNull)] quiet).
  - reflexivity.
  - reflexivity.
  - reflexivity.
  - vm_compute. reflexivity.
  - reflexivity.
Defined.

Lemma visual_step_survives_unparseable_reply_witness :
  exists analyses w',
    VisualDesignerAgent.process (gallery apology) visual_input quiet
    = (Returned (JObj [("image_analysis", JArr analyses);
                       ("scene_visuals", VisualDesigner.match_fallback);
                       ("processing_instructions", JArr [])]), w')
    /\ map path_of analyses = [JStr "data/input/can.png"].
Proof.
  apply (visual_step_survives_unparseable_reply (gallery apology) visual_input
           [JStr "data/input/can.png"; JStr "data/input/missing.png"]
           (JArr [first_scene]) apology quiet).
  - reflexivity.
  - reflexivity.
  - reflexivity.
  - vm_compute. reflexivity.
Defined.



Lemma run_succeeds_whatever_the_verdict_witness :
  let run := Orchestrator.generate_advertisement strict_studio coffee_ad
               Orchestrator.__init__ in
  exists (video_output qa_result metadata : dict),
    Py.dict_get (Orchestrator.outputs (Orchestrator.state (snd run))) "video_output"
    = Some (JObj video_output)
    /\ Py.dict_get (Orchestrator.outputs (Orchestrator.state (snd run))) "qa_result"
       = Some (JObj qa_result)
    /\ fst run
       = Returned
           (Orchestrator.Success
              (Py.dict_get_default video_output "video_path" JNull)
              (Py.dict_get_default video_output "duration" JNull)
              (Py.dict_get_default qa_result "quality_score" JNull)
              (Py.dict_get_default qa_result "approved" JNull)
              (Py.round_ (Orchestrator.elapsed_seconds strict_studio) 2)
              metadata)
    /\ Py.dict_get metadata "qa_report" = Some (JObj qa_result)
    /\ Orchestrator.errors (Orchestrator.state (snd run)) = [].
Proof.
  apply (OrchestratorRuns.run_succeeds_whatever_the_verdict strict_studio coffee_ad
           Orchestrator.__init__).
  - intros s input. destruct s; eexists; reflexivity.
  - intros input d [= <-]. reflexivity.
  - reflexivity.
Defined.

Lemma rejected_video_is_reported_as_success :
  let run := Orchestrator.generate_advertisement strict_studio coffee_ad
               Orchestrator.__init__ in
  match fst run with
  | Returned (Orchestrator.Success _ _ _ approved _ _) => approved = JBool false
  | _ => False
  end.
Proof. vm_compute. reflexivity. Qed.

Lemma refused_write_fails_a_finished_run_witness :
  let run := Orchestrator.generate_advertisement read_only_studio coffee_ad
               Orchestrator.__init__ in
  let message :=
    "[Errno 13] Permission denied: 'data/output/workflows/workflow_20260101_120000.json'" in
  fst run = Returned (Orchestrator.Failure message (Orchestrator.state (snd run)))
  /\ map fst (Orchestrator.run_calls Orchestrator.__init__ (snd run))
     = Orchestrator.pipeline
  /\ Py.dict_has (Orchestrator.outputs (Orchestrator.state (snd run))) "qa_result" = true
  /\ Orchestrator.errors (Orchestrator.state (snd run)) = [message]
  /\ Orchestrator.files (snd run) = [].
Proof.
  apply (OrchestratorRuns.refused_write_fails_a_finished_run read_only_studio coffee_ad
           Orchestrator.__init__
           (Exn OSError
              "[Errno 13] Permission denied: 'data/output/workflows/workflow_20260101_120000.json'")).
  - intros s input. destruct s; eexists; reflexivity.
  - intros input d [= <-]. reflexivity.
  - reflexivity.
Defined.

(** An integer of more than 4300 digits makes [json.loads] raise
    [ValueError], which no parser catches on the first attempt and only the
    creative director lets through on the second. *)
Lemma long_integer_reply_escapes_the_parsers :
  let too_long :=
    Exn ValueError
      "Exceeds the limit (4300 digits) for integer string conversion: value has 4301 digits; use sys.set_int_max_str_digits() to increase the limit" in
  CreativeDirector._parse_creative_response long_integer quiet = (Raised too_long, quiet)
  /\ VisualDesigner._parse_json_response long_integer VisualDesigner.match_fallback quiet
     = (Raised too_long, quiet)
  /\ QA._parse_json_response long_integer (QA.content_fallback long_integer) quiet
     = (Raised too_long, quiet)
  /\ ScriptAnalyzer._parse_analysis_response long_integer quiet = (Raised too_long, quiet)
  /\ CreativeDirector._parse_creative_response long_integer_in_prose quiet
     = (Raised too_long, quiet)
  /\ ScriptAnalyzer._parse_analysis_response long_integer_in_prose quiet
     = (Raised too_long, quiet)
  /\ VisualDesigner._parse_json_response long_integer_in_prose
       VisualDesigner.match_fallback quiet
     = (Returned VisualDesigner.match_fallback,
        mkAgentWorld
          [(WARNING, "Could not parse JSON from VisualDesigner response")] []).
Proof.
  cbv zeta.
  repeat (refine (conj _ _); [vm_compute; reflexivity|]).
  vm_compute. reflexivity.
Qed.

(** White space beyond ASCII is stripped, and a character of several 8-bit
    characters counts once: a script of five accented letters or of twenty
    no-break spaces is too short. *)
Lemma scripts_are_measured_in_characters :
  String.length accented_script = 10%nat
  /\ Py.len_str accented_script = 5%nat
  /\ Py.strip blank_script = EmptyString
  /\ Main.validate_inputs (fun _ => true) [] accented_script quiet
     = (Returned false, mkAgentWorld [(ERROR, "Script is too short or empty")] [])
  /\ Main.validate_inputs (fun _ => true) [] blank_script quiet
     = (Returned false, mkAgentWorld [(ERROR, "Script is too short or empty")] []).
Proof. repeat split; vm_compute; reflexivity. Qed.
